(** * IMU / video synchronisation application: a shallow embedding

    The development follows the three scripts of the application:
    the configuration constants ([UPLOAD_FRAME_SKIP], [SAMPLE_RATE_HZ]),
    the IMU module (CSV parsing, the windowed chart view, the two-point
    synchronisation, the timestamp list and the project store) and the
    MoveNet render loop ([renderFrame]).

    Modelling conventions.
    - A finite JavaScript number is an exact rational ([Q]); rounding to
      binary64 is not modelled, so arithmetic identities are stated with
      [==] ([Qeq]).  The only non-finite numbers the code can produce come
      from a division and from [parseFloat]; they live in [jsnum].
    - [null] and [undefined] are [None].
    - The module-level [let] variables and the few DOM properties the
      handlers read or write are the fields of one record, [State], threaded
      through every handler.
    - The elements that config.js looks up in the document (the video, the
      buttons, the notes field, the markers) exist, so the [if (element)]
      tests around their uses succeed; texts written to labels are left out.
    - A handler that can save the project returns a [completion]: either it
      ends normally with the new state, or an exception reaches its caller.
    - Text handed to [JSON.stringify] and read back with [JSON.parse] is kept
      as the object it denotes ([ProjectData], every property optional). *)

From Stdlib Require Import ZArith QArith Qminmax Lia Lqa List Ascii String DecimalString.
From Stdlib Require Import Qround DecimalPos DecimalN.
From stdpp Require Import base option strings gmap list.
Import ListNotations.

Open Scope Q_scope.

(** ** Numbers *)

Inductive jsnum : Type :=
| Fin (q : Q)
| PosInf
| NegInf
| NaN.

Definition Number_isFinite (n : jsnum) : bool :=
  match n with Fin _ => true | _ => false end.

(** [x || 0] on a finite number: [0] is falsy, every other number is kept. *)
Definition or_zero (x : Q) : Q := if Qeq_bool x 0 then 0 else x.

(** [a / b] on finite numbers; a zero divisor (a positive zero, as a
    difference of equal numbers is) gives an infinity of the sign of [a], or
    [NaN] for [0 / 0]. *)
Definition js_div (a b : Q) : jsnum :=
  if Qeq_bool b 0 then
    match a ?= 0 with
    | Eq => NaN
    | Lt => NegInf
    | Gt => PosInf
    end
  else Fin (a / b).

(** [n * k] for a positive finite [k]. *)
Definition js_scale (n : jsnum) (k : Q) : jsnum :=
  match n with
  | Fin q => Fin (q * k)
  | other => other
  end.

(** [Math.max(n, k)] and [Math.min(n, k)] for a finite [k]. *)
Definition Math_max (n : jsnum) (k : Q) : jsnum :=
  match n with
  | Fin q => Fin (Qmax q k)
  | PosInf => PosInf
  | NegInf => Fin k
  | NaN => NaN
  end.

Definition Math_min (n : jsnum) (k : Q) : jsnum :=
  match n with
  | Fin q => Fin (Qmin q k)
  | PosInf => Fin k
  | NegInf => NegInf
  | NaN => NaN
  end.

(** ** Completions *)

Inductive exn : Type :=
| DOMException (name : string)
| Error (name : string).

Inductive completion (A : Type) : Type :=
| Normal (a : A)
| Throw (e : exn).

Arguments Normal {A} a.
Arguments Throw {A} e.

(** ** Constants

    The first two are set in config.js, the throttle interval (in
    milliseconds) at the top of the IMU module. *)

Definition UPLOAD_FRAME_SKIP : Z := 2.
Definition SAMPLE_RATE_HZ : Q := 104.
Definition IMU_UPDATE_THROTTLE_MS : Q := 33.

(** ** Data *)

(** A parsed CSV row: an object keyed by the header names. *)
Abbreviation Row := (gmap string Q).

Record Timestamp : Type := mkTimestamp {
  time : Q;
  label : string;
  eventType : string;
  notes : string
}.

Record FileInfo : Type := mkFileInfo {
  name : string;
  size : N
}.

(** The object written to [localStorage] and to [project.json]. *)
Record ProjectData : Type := mkProjectData {
  pd_syncOffset : option Q;
  pd_timestamps : option (list Timestamp);
  pd_sampleRate : option Q;
  pd_createdAt : option string;
  pd_notes : option string;
  pd_videoFileName : option string;
  pd_csvFileName : option string
}.

(** [Object.assign(target, extra)]: every property present in [extra]
    replaces the one of [target]. *)
Definition Object_assign (target extra : ProjectData) : ProjectData :=
  {| pd_syncOffset := from_option Some (pd_syncOffset target) (pd_syncOffset extra);
     pd_timestamps := from_option Some (pd_timestamps target) (pd_timestamps extra);
     pd_sampleRate := from_option Some (pd_sampleRate target) (pd_sampleRate extra);
     pd_createdAt := from_option Some (pd_createdAt target) (pd_createdAt extra);
     pd_notes := from_option Some (pd_notes target) (pd_notes extra);
     pd_videoFileName :=
       from_option Some (pd_videoFileName target) (pd_videoFileName extra);
     pd_csvFileName :=
       from_option Some (pd_csvFileName target) (pd_csvFileName extra) |}.

Record Point : Type := mkPoint {
  pt_x : option Q;
  pt_y : Q
}.

(** A Chart.js line chart: three series and the range of its x axis. *)
Record Chart : Type := mkChart {
  datasets : list (list Point);
  scales_x_min : Q;
  scales_x_max : Q
}.

Record Keypoint : Type := mkKeypoint {
  kp_name : string;
  kp_x : Q;
  kp_y : Q;
  kp_score : Q
}.

Record Pose : Type := mkPose {
  keypoints : list Keypoint
}.

Inductive Mode : Type := live | upload.

Definition Mode_eqb (a b : Mode) : bool :=
  match a, b with
  | live, live | upload, upload => true
  | _, _ => false
  end.

(** ** The state of the page *)

Record State : Type := mkState {
  (* IMU module *)
  imuCharts : gmap string Chart;
  csvData : option (list Row);
  csvTimesSeconds : list Q;
  syncOffset : Q;
  videoMarkedTime : option Q;
  dataMarkedTime : option Q;
  lastImuUpdateTime : Q;
  timestamps : list Timestamp;
  currentVideoFileInfo : option FileInfo;
  (* MoveNet module *)
  currentMode : Mode;
  isRunning : bool;
  frameIndex : Z;
  lastPose : option Pose;
  (* DOM properties; [marker_left] is the CSS [left] of the three markers in
     percent, [dataTimeDisplay] the time whose text the label shows *)
  setSyncBtn_disabled : bool;
  markDataBtn_disabled : bool;
  notesInput_value : string;
  imuPanel_displayed : bool;
  marker_left : option jsnum;
  dataTimeDisplay : option Q;
  (* host objects *)
  localStorage : gmap string ProjectData;
  console : list string
}.

(** Assignments to one variable (or to two that the code always sets
    together). *)
Definition set_imuCharts (v : gmap string Chart) (s : State) : State :=
  mkState v (csvData s) (csvTimesSeconds s) (syncOffset s) (videoMarkedTime s)
    (dataMarkedTime s) (lastImuUpdateTime s) (timestamps s)
    (currentVideoFileInfo s) (currentMode s) (isRunning s) (frameIndex s)
    (lastPose s) (setSyncBtn_disabled s) (markDataBtn_disabled s)
    (notesInput_value s) (imuPanel_displayed s) (marker_left s)
    (dataTimeDisplay s) (localStorage s) (console s).

Definition set_csv (d : option (list Row)) (t : list Q) (s : State) : State :=
  mkState (imuCharts s) d t (syncOffset s) (videoMarkedTime s)
    (dataMarkedTime s) (lastImuUpdateTime s) (timestamps s)
    (currentVideoFileInfo s) (currentMode s) (isRunning s) (frameIndex s)
    (lastPose s) (setSyncBtn_disabled s) (markDataBtn_disabled s)
    (notesInput_value s) (imuPanel_displayed s) (marker_left s)
    (dataTimeDisplay s) (localStorage s) (console s).

Definition set_syncOffset (v : Q) (s : State) : State :=
  mkState (imuCharts s) (csvData s) (csvTimesSeconds s) v (videoMarkedTime s)
    (dataMarkedTime s) (lastImuUpdateTime s) (timestamps s)
    (currentVideoFileInfo s) (currentMode s) (isRunning s) (frameIndex s)
    (lastPose s) (setSyncBtn_disabled s) (markDataBtn_disabled s)
    (notesInput_value s) (imuPanel_displayed s) (marker_left s)
    (dataTimeDisplay s) (localStorage s) (console s).

Definition set_videoMarkedTime (v : option Q) (s : State) : State :=
  mkState (imuCharts s) (csvData s) (csvTimesSeconds s) (syncOffset s) v
    (dataMarkedTime s) (lastImuUpdateTime s) (timestamps s)
    (currentVideoFileInfo s) (currentMode s) (isRunning s) (frameIndex s)
    (lastPose s) (setSyncBtn_disabled s) (markDataBtn_disabled s)
    (notesInput_value s) (imuPanel_displayed s) (marker_left s)
    (dataTimeDisplay s) (localStorage s) (console s).

Definition set_dataMarkedTime (v : option Q) (s : State) : State :=
  mkState (imuCharts s) (csvData s) (csvTimesSeconds s) (syncOffset s)
    (videoMarkedTime s) v (lastImuUpdateTime s) (timestamps s)
    (currentVideoFileInfo s) (currentMode s) (isRunning s) (frameIndex s)
    (lastPose s) (setSyncBtn_disabled s) (markDataBtn_disabled s)
    (notesInput_value s) (imuPanel_displayed s) (marker_left s)
    (dataTimeDisplay s) (localStorage s) (console s).

Definition set_lastImuUpdateTime (v : Q) (s : State) : State :=
  mkState (imuCharts s) (csvData s) (csvTimesSeconds s) (syncOffset s)
    (videoMarkedTime s) (dataMarkedTime s) v (timestamps s)
    (currentVideoFileInfo s) (currentMode s) (isRunning s) (frameIndex s)
    (lastPose s) (setSyncBtn_disabled s) (markDataBtn_disabled s)
    (notesInput_value s) (imuPanel_displayed s) (marker_left s)
    (dataTimeDisplay s) (localStorage s) (console s).

Definition set_timestamps (v : list Timestamp) (s : State) : State :=
  mkState (imuCharts s) (csvData s) (csvTimesSeconds s) (syncOffset s)
    (videoMarkedTime s) (dataMarkedTime s) (lastImuUpdateTime s) v
    (currentVideoFileInfo s) (currentMode s) (isRunning s) (frameIndex s)
    (lastPose s) (setSyncBtn_disabled s) (markDataBtn_disabled s)
    (notesInput_value s) (imuPanel_displayed s) (marker_left s)
    (dataTimeDisplay s) (localStorage s) (console s).

Definition set_currentVideoFileInfo (v : option FileInfo) (s : State) : State :=
  mkState (imuCharts s) (csvData s) (csvTimesSeconds s) (syncOffset s)
    (videoMarkedTime s) (dataMarkedTime s) (lastImuUpdateTime s)
    (timestamps s) v (currentMode s) (isRunning s) (frameIndex s) (lastPose s)
    (setSyncBtn_disabled s) (markDataBtn_disabled s) (notesInput_value s)
    (imuPanel_displayed s) (marker_left s) (dataTimeDisplay s)
    (localStorage s) (console s).

Definition set_frame (i : Z) (p : option Pose) (s : State) : State :=
  mkState (imuCharts s) (csvData s) (csvTimesSeconds s) (syncOffset s)
    (videoMarkedTime s) (dataMarkedTime s) (lastImuUpdateTime s)
    (timestamps s) (currentVideoFileInfo s) (currentMode s) (isRunning s) i p
    (setSyncBtn_disabled s) (markDataBtn_disabled s) (notesInput_value s)
    (imuPanel_displayed s) (marker_left s) (dataTimeDisplay s)
    (localStorage s) (console s).

Definition set_isRunning (v : bool) (s : State) : State :=
  mkState (imuCharts s) (csvData s) (csvTimesSeconds s) (syncOffset s)
    (videoMarkedTime s) (dataMarkedTime s) (lastImuUpdateTime s) (timestamps s)
    (currentVideoFileInfo s) (currentMode s) v (frameIndex s) (lastPose s)
    (setSyncBtn_disabled s) (markDataBtn_disabled s) (notesInput_value s)
    (imuPanel_displayed s) (marker_left s) (dataTimeDisplay s) (localStorage s)
    (console s).

Definition set_setSyncBtn_disabled (v : bool) (s : State) : State :=
  mkState (imuCharts s) (csvData s) (csvTimesSeconds s) (syncOffset s)
    (videoMarkedTime s) (dataMarkedTime s) (lastImuUpdateTime s)
    (timestamps s) (currentVideoFileInfo s) (currentMode s) (isRunning s)
    (frameIndex s) (lastPose s) v (markDataBtn_disabled s)
    (notesInput_value s) (imuPanel_displayed s) (marker_left s)
    (dataTimeDisplay s) (localStorage s) (console s).

Definition set_markDataBtn_disabled (v : bool) (s : State) : State :=
  mkState (imuCharts s) (csvData s) (csvTimesSeconds s) (syncOffset s)
    (videoMarkedTime s) (dataMarkedTime s) (lastImuUpdateTime s)
    (timestamps s) (currentVideoFileInfo s) (currentMode s) (isRunning s)
    (frameIndex s) (lastPose s) (setSyncBtn_disabled s) v (notesInput_value s)
    (imuPanel_displayed s) (marker_left s) (dataTimeDisplay s)
    (localStorage s) (console s).

Definition set_notesInput_value (v : string) (s : State) : State :=
  mkState (imuCharts s) (csvData s) (csvTimesSeconds s) (syncOffset s)
    (videoMarkedTime s) (dataMarkedTime s) (lastImuUpdateTime s)
    (timestamps s) (currentVideoFileInfo s) (currentMode s) (isRunning s)
    (frameIndex s) (lastPose s) (setSyncBtn_disabled s)
    (markDataBtn_disabled s) v (imuPanel_displayed s) (marker_left s)
    (dataTimeDisplay s) (localStorage s) (console s).

Definition set_marker_left (v : option jsnum) (s : State) : State :=
  mkState (imuCharts s) (csvData s) (csvTimesSeconds s) (syncOffset s)
    (videoMarkedTime s) (dataMarkedTime s) (lastImuUpdateTime s)
    (timestamps s) (currentVideoFileInfo s) (currentMode s) (isRunning s)
    (frameIndex s) (lastPose s) (setSyncBtn_disabled s)
    (markDataBtn_disabled s) (notesInput_value s) (imuPanel_displayed s) v
    (dataTimeDisplay s) (localStorage s) (console s).

Definition set_dataTimeDisplay (v : option Q) (s : State) : State :=
  mkState (imuCharts s) (csvData s) (csvTimesSeconds s) (syncOffset s)
    (videoMarkedTime s) (dataMarkedTime s) (lastImuUpdateTime s)
    (timestamps s) (currentVideoFileInfo s) (currentMode s) (isRunning s)
    (frameIndex s) (lastPose s) (setSyncBtn_disabled s)
    (markDataBtn_disabled s) (notesInput_value s) (imuPanel_displayed s)
    (marker_left s) v (localStorage s) (console s).

Definition set_localStorage (v : gmap string ProjectData) (s : State) : State :=
  mkState (imuCharts s) (csvData s) (csvTimesSeconds s) (syncOffset s)
    (videoMarkedTime s) (dataMarkedTime s) (lastImuUpdateTime s)
    (timestamps s) (currentVideoFileInfo s) (currentMode s) (isRunning s)
    (frameIndex s) (lastPose s) (setSyncBtn_disabled s)
    (markDataBtn_disabled s) (notesInput_value s) (imuPanel_displayed s)
    (marker_left s) (dataTimeDisplay s) v (console s).

Definition console_log (msg : string) (s : State) : State :=
  mkState (imuCharts s) (csvData s) (csvTimesSeconds s) (syncOffset s)
    (videoMarkedTime s) (dataMarkedTime s) (lastImuUpdateTime s)
    (timestamps s) (currentVideoFileInfo s) (currentMode s) (isRunning s)
    (frameIndex s) (lastPose s) (setSyncBtn_disabled s)
    (markDataBtn_disabled s) (notesInput_value s) (imuPanel_displayed s)
    (marker_left s) (dataTimeDisplay s) (localStorage s) (console s ++ [msg]).

(** The page once the scripts are loaded and [main] has selected the upload
    mode: the module-level variables hold their initialisers, the sync
    buttons are disabled and the IMU panel is shown. *)
Definition initial : State :=
  {| imuCharts := ∅;
     csvData := None;
     csvTimesSeconds := [];
     syncOffset := 0;
     videoMarkedTime := None;
     dataMarkedTime := None;
     lastImuUpdateTime := 0;
     timestamps := [];
     currentVideoFileInfo := None;
     currentMode := upload;
     isRunning := false;
     frameIndex := 0%Z;
     lastPose := None;
     setSyncBtn_disabled := true;
     markDataBtn_disabled := true;
     notesInput_value := "";
     imuPanel_displayed := true;
     marker_left := None;
     dataTimeDisplay := None;
     localStorage := ∅;
     console := [] |}.

(** What the host decides at the time of an event. *)
Record Host : Type := mkHost {
  (* [new Date().toISOString()] *)
  clock : string;
  (* whether [localStorage.setItem] has room for the value *)
  storage_has_room : bool;
  (* whether [window.Chart] is defined *)
  chart_library : bool;
  (* whether [window.JSZip] is defined *)
  zip_library : bool
}.

(** ** String built-ins

    Strings are sequences of one-byte characters; white space is the ASCII
    white space (tab, line feed, vertical tab, form feed, carriage return,
    space). *)

Definition is_white (c : ascii) : bool :=
  let n := nat_of_ascii c in
  ((n =? 32) || ((9 <=? n) && (n <=? 13)))%nat.

Fixpoint trimStart (cs : list ascii) : list ascii :=
  match cs with
  | c :: rest => if is_white c then trimStart rest else cs
  | [] => []
  end.

(** [s.trim()] *)
Definition trim (s : string) : string :=
  string_of_list_ascii
    (rev (trimStart (rev (trimStart (list_ascii_of_string s))))).

(** [s.split(sep)] for a one-character separator: never empty, the empty
    string gives one empty piece. *)
Fixpoint split (sep : ascii) (s : string) : list string :=
  match s with
  | EmptyString => [EmptyString]
  | String c rest =>
      if Ascii.eqb c sep then EmptyString :: split sep rest
      else match split sep rest with
           | piece :: pieces => String c piece :: pieces
           | [] => [String c EmptyString]
           end
  end.

Definition LF : ascii := ascii_of_nat 10.
Definition CR : ascii := ascii_of_nat 13.

Definition drop_last_CR (s : string) : string :=
  match rev (list_ascii_of_string s) with
  | c :: rest => if Ascii.eqb c CR then string_of_list_ascii (rev rest) else s
  | [] => s
  end.

Fixpoint map_but_last {A : Type} (f : A -> A) (l : list A) : list A :=
  match l with
  | [] => []
  | [x] => [x]
  | x :: rest => f x :: map_but_last f rest
  end.

(** [text.split(/\r?\n/)]: every line feed separates, and takes one
    carriage return just before it along. *)
Definition split_lines (text : string) : list string :=
  map_but_last drop_last_CR (split LF text).

(** [l.trim().length], used as a condition *)
Definition non_blank (l : string) : bool :=
  negb (String.length (trim l) =? 0)%nat.

Fixpoint toLowerCase (s : string) : string :=
  match s with
  | EmptyString => EmptyString
  | String c rest =>
      let n := nat_of_ascii c in
      String (if ((65 <=? n) && (n <=? 90))%nat then ascii_of_nat (n + 32) else c)
             (toLowerCase rest)
  end.

(** [s.endsWith(suffix)] *)
Definition endsWith (s suffix : string) : bool :=
  let n := String.length s in
  let k := String.length suffix in
  ((k <=? n)%nat && String.eqb (String.substring (n - k) k s) suffix).

(** ** CSV parsing (the [reader.onload] handler of [setupCsvUpload]) *)

Section Parsing.

(** The built-in [parseFloat], from a string to a number or [NaN]. *)
Variable parseFloat : string -> jsnum.

(** [parseFloat(values[j])]: a missing value is [undefined], which never
    parses. *)
Definition parseFloat_at (values : list string) (j : nat) : jsnum :=
  match values !! j with
  | Some text => parseFloat text
  | None => NaN
  end.

(** [Number.isFinite(v) ? v : 0] *)
Definition finite_or_zero (v : jsnum) : Q :=
  match v with
  | Fin q => q
  | _ => 0
  end.

(** The body of the loop over the data lines: one object per line, one
    property per header, later headers of the same name overwrite. *)
Definition parseRow (headers : list string) (line : string) : Row :=
  let values := split "," line in
  foldl (fun (row : Row) (hj : nat * string) =>
           <[hj.2 := finite_or_zero (parseFloat_at values hj.1)]> row)
        ∅ (imap pair headers).

Definition parseRows (headers : list string) (lines : list string)
  : list Row :=
  flat_map (fun line => if non_blank line then [parseRow headers line] else [])
           lines.

(** [csvData.map((_, idx) => idx / SAMPLE_RATE_HZ)] *)
Definition timeAxis (rows : list Row) : list Q :=
  imap (fun idx _ => inject_Z (Z.of_nat idx) / SAMPLE_RATE_HZ) rows.

(** The parse proper: [None] when the text has no non-blank line (the
    handler returns before touching anything). *)
Definition parseCsv (text : string) : option (list Row * list Q) :=
  match List.filter non_blank (split_lines text) with
  | [] => None
  | header :: rest =>
      let headers := map trim (split "," header) in
      let rows := parseRows headers rest in
      Some (rows, timeAxis rows)
  end.

End Parsing.

(** A [parseFloat] for decimal literals without exponent, enough to run the
    parser on examples: optional white space, optional sign, digits,
    optional fraction; what follows the longest such prefix is ignored. *)
Definition digit_of (c : ascii) : option Z :=
  let n := nat_of_ascii c in
  if ((48 <=? n) && (n <=? 57))%nat then Some (Z.of_nat (n - 48)) else None.

Fixpoint read_digits (cs : list ascii) (acc : Z) (count : nat)
  : Z * nat * list ascii :=
  match cs with
  | c :: rest =>
      match digit_of c with
      | Some d => read_digits rest (10 * acc + d)%Z (S count)
      | None => (acc, count, cs)
      end
  | [] => (acc, count, [])
  end.

Definition parseFloat_decimal (s : string) : jsnum :=
  let cs := trimStart (list_ascii_of_string s) in
  let '(sign, cs) :=
    match cs with
    | "-"%char :: rest => ((-1)%Z, rest)
    | "+"%char :: rest => (1%Z, rest)
    | _ => (1%Z, cs)
    end in
  let '(int_part, int_count, cs) := read_digits cs 0 0 in
  let '(frac_part, frac_count) :=
    match cs with
    | "."%char :: rest => let '(f, k, _) := read_digits rest 0 0 in (f, k)
    | _ => (0%Z, 0%nat)
    end in
  if ((int_count + frac_count) =? 0)%nat then NaN
  else Fin (inject_Z sign *
            (inject_Z int_part
             + inject_Z frac_part / inject_Z (10 ^ Z.of_nat frac_count))).

(** ** Charts *)

(** The mapping of chart ids to CSV column names, in the order of
    [Object.entries]. *)
Definition sensors : list (string * list string) :=
  [ ("chartAcc", ["ax"; "ay"; "az"]);
    ("chartGyro", ["gx"; "gy"; "gz"]);
    ("chartMag", ["mx"; "my"; "mz"]) ].

(** [new Chart(...)] of [initImuCharts]: three empty series, x axis from 0
    to 5. *)
Definition new_Chart : Chart :=
  {| datasets := [[]; []; []]; scales_x_min := 0; scales_x_max := 5 |}.

Definition initImuCharts (h : Host) (s : State) : State :=
  if negb (chart_library h) then s
  else
    set_imuCharts
      (foldl (fun (charts : gmap string Chart) (sensor : string * list string) =>
                <[sensor.1 := new_Chart]> charts)
             (imuCharts s) sensors)
      s.

(** [!csvData || !csvTimesSeconds.length]: an array, even an empty one, is
    truthy; a length is truthy when it is not zero. *)
Definition no_samples (s : State) : bool :=
  match csvData s with
  | None => true
  | Some _ => (length (csvTimesSeconds s) =? 0)%nat
  end.

(** [csvData.map((row, idx) => ({ x: csvTimesSeconds[idx], y: row[key] ?? 0 }))] *)
Definition dataPoints (s : State) (key : string) : list Point :=
  imap (fun idx (row : Row) =>
          {| pt_x := csvTimesSeconds s !! idx; pt_y := default 0 (row !! key) |})
       (default [] (csvData s)).

(** One round of the [Object.entries(sensors).forEach] loops: an absent
    chart is skipped, a present one gets the three series and the axis
    range. *)
Definition fill_chart (s : State) (x_min x_max : Q)
    (charts : gmap string Chart) (sensor : string * list string)
  : gmap string Chart :=
  match charts !! sensor.1 with
  | None => charts
  | Some chart =>
      <[sensor.1 :=
          {| datasets :=
               foldl (fun (series : list (list Point)) (ik : nat * string) =>
                        <[ik.1 := dataPoints s ik.2]> series)
                     (datasets chart) (imap pair sensor.2);
             scales_x_min := x_min;
             scales_x_max := x_max |}]> charts
  end.

Definition updateImuChartsFull (s : State) : State :=
  if no_samples s then s
  else
    let maxTime := default 0 (last (csvTimesSeconds s)) in
    set_imuCharts (foldl (fill_chart s 0 (Qmax 5 maxTime)) (imuCharts s) sensors) s.

(** The arithmetic of [updateChartsForVideoTime]: the adjusted time, the
    two ends of the window and the marker position in percent. *)
Record WindowView : Type := mkWindowView {
  adjustedTime : Q;
  startTime : Q;
  endTime : Q;
  markerPos : jsnum
}.

Definition windowSize : Q := 5.

Definition windowView (videoTime offset : Q) : WindowView :=
  let adjustedTime := videoTime - offset in
  let startTime := Qmax 0 (adjustedTime - windowSize / 2) in
  let endTime := adjustedTime + windowSize / 2 in
  let markerPercent := js_div (adjustedTime - startTime) (endTime - startTime) in
  let markerPos := Math_min (Math_max (js_scale markerPercent 100) 0) 100 in
  {| adjustedTime := adjustedTime;
     startTime := startTime;
     endTime := endTime;
     markerPos := markerPos |}.

(** [!imuCharts || !Object.keys(imuCharts).length] *)
Definition no_charts (s : State) : bool :=
  (length (map_to_list (imuCharts s)) =? 0)%nat.

Definition updateChartsForVideoTime (videoTime : Q) (s : State) : State :=
  if no_samples s then s
  else if no_charts s then s
  else
    let w := windowView videoTime (syncOffset s) in
    let s := set_imuCharts
               (foldl (fill_chart s (startTime w) (endTime w)) (imuCharts s) sensors)
               s in
    let s := set_marker_left (Some (markerPos w)) s in
    set_dataTimeDisplay (Some (adjustedTime w)) s.

(** ** The data slider *)

(** [csvTimesSeconds.findIndex((t) => t >= time)], [None] for [-1] *)
Fixpoint findIndex_ge (time : Q) (times : list Q) : option nat :=
  match times with
  | [] => None
  | t :: rest =>
      if Qle_bool time t then Some 0%nat
      else option_map S (findIndex_ge time rest)
  end.

(** The [input] listener of the data slider; [time] is
    [parseFloat(e.target.value)]. *)
Definition dataSliderListener (time : jsnum) (s : State) : State :=
  match time with
  | Fin time =>
      if (length (csvTimesSeconds s) =? 0)%nat then s
      else
        let idx :=
          match findIndex_ge time (csvTimesSeconds s) with
          | None => (length (csvTimesSeconds s) - 1)%nat
          | Some foundIndex => Nat.max foundIndex 0
          end in
        match csvTimesSeconds s !! idx with
        | Some t =>
            let s := set_dataMarkedTime (Some t) s in
            let s := updateChartsForVideoTime (t + syncOffset s) s in
            set_dataTimeDisplay (Some t) s
        | None => s
        end
  | _ => s
  end.

(** ** Project store *)

(** [setCurrentVideoFileInfo(file)] *)
Definition setCurrentVideoFileInfo (file : option FileInfo) (s : State) : State :=
  match file with
  | Some f =>
      if (String.length (name f) =? 0)%nat then set_currentVideoFileInfo None s
      else set_currentVideoFileInfo (Some f) s
  | None => set_currentVideoFileInfo None s
  end.

(** A byte count in a template literal: its decimal digits. *)
Definition String_of_size (n : N) : string :=
  NilZero.string_of_uint (N.to_uint n).

Definition getProjectStorageKey (s : State) : option string :=
  match currentVideoFileInfo s with
  | None => None
  | Some info => Some ("project_" +:+ name info +:+ "_" +:+ String_of_size (size info))
  end.

(** [localStorage.setItem(key, JSON.stringify(value))]: the write replaces
    what the key held, or fails when the quota is exceeded. *)
Definition localStorage_setItem (h : Host) (key : string) (value : ProjectData)
    (store : gmap string ProjectData) : completion (gmap string ProjectData) :=
  if storage_has_room h then Normal (<[key := value]> store)
  else Throw (DOMException "QuotaExceededError").

(** The object literal that [saveProjectToLocal] builds. *)
Definition currentProject (h : Host) (s : State) : ProjectData :=
  {| pd_syncOffset := Some (syncOffset s);
     pd_timestamps := Some (timestamps s);
     pd_sampleRate := Some SAMPLE_RATE_HZ;
     pd_createdAt := Some (clock h);
     pd_notes := Some (notesInput_value s);
     pd_videoFileName := None;
     pd_csvFileName := None |}.

Definition saveProjectToLocal (h : Host) (extra : option ProjectData) (s : State)
  : completion State :=
  match getProjectStorageKey s with
  | None => Normal s
  | Some key =>
      let projectData :=
        match extra with
        | Some e => Object_assign (currentProject h s) e
        | None => currentProject h s
        end in
      (* try { ... } catch (err) { console.warn(...) } *)
      match localStorage_setItem h key projectData (localStorage s) with
      | Normal store => Normal (set_localStorage store s)
      | Throw err => Normal (console_log "Could not save project to localStorage:" s)
      end
  end.

(** ** Synchronisation *)

Definition both_marked (s : State) : bool :=
  match videoMarkedTime s, dataMarkedTime s with
  | Some _, Some _ => true
  | _, _ => false
  end.

Definition checkSyncReady (s : State) : State :=
  set_setSyncBtn_disabled (negb (both_marked s)) s.

(** Click on "mark video"; [currentTime] is [video.currentTime]. *)
Definition markVideoBtn_click (currentTime : Q) (s : State) : State :=
  let s := set_videoMarkedTime (Some (or_zero currentTime)) s in
  checkSyncReady s.

(** Click on "mark data". *)
Definition markDataBtn_click (s : State) : State :=
  if no_samples s then s
  else
    let s :=
      match dataMarkedTime s with
      | None => set_dataMarkedTime (Some 0) s
      | Some _ => s
      end in
    checkSyncReady s.

(** Click on "apply sync". *)
Definition setSyncBtn_click (h : Host) (s : State) : completion State :=
  match videoMarkedTime s, dataMarkedTime s with
  | Some v, Some d =>
      let s := set_syncOffset (v - d) s in
      let s := set_videoMarkedTime None s in
      let s := set_dataMarkedTime None s in
      let s := set_setSyncBtn_disabled true s in
      saveProjectToLocal h None s
  | _, _ => Normal s
  end.

(** The conversion the charts use: [adjustedTime = videoTime - syncOffset]. *)
Definition dataTimeFor (s : State) (videoTime : Q) : Q :=
  videoTime - syncOffset s.

(** ** Timestamps *)

(** [timestamps.splice(index, 1)] for an index inside the array *)
Definition splice1 (index : Z) (l : list Timestamp) : list Timestamp :=
  delete (Z.to_nat index) l.

Definition deleteTimestamp (h : Host) (index : Z) (s : State) : completion State :=
  if ((index <? 0) || (Z.of_nat (length (timestamps s)) <=? index))%Z then Normal s
  else
    let s := set_timestamps (splice1 index (timestamps s)) s in
    saveProjectToLocal h None s.

(** ** Loading a CSV file *)

(** [reader.onload] of [setupCsvUpload]; [text] is the content of the file. *)
Definition csvReader_onload (parseFloat : string -> jsnum) (h : Host)
    (text : string) (s : State) : State :=
  match parseCsv parseFloat text with
  | None => s
  | Some (rows, times) =>
      let s := set_csv (Some rows) times s in
      let s := set_markDataBtn_disabled false s in
      let s := initImuCharts h s in
      updateImuChartsFull s
  end.

(** ** Project bundles *)

Record Blob : Type := mkBlob {
  blob_type : string;
  blob_size : N
}.

(** The text of a [project.json]: the serialisation of an object, or
    something [JSON.parse] rejects. *)
Inductive JsonText : Type :=
| Encoded (projectData : ProjectData)
| Malformed.

(** A ZIP archive as the code sees it: the entry [project.json], the files
    below [video/] (with their full names) and the files below [data/] (with
    their paths relative to the folder), in archive order. *)
Record Zip : Type := mkZip {
  project_json : option JsonText;
  video_folder : list (string * Blob);
  data_folder : list (string * string)
}.

Fixpoint join (sep : string) (pieces : list string) : string :=
  match pieces with
  | [] => ""
  | [piece] => piece
  | piece :: rest => piece +:+ sep +:+ join sep rest
  end.

Section Exporting.

(** The built-ins [String] (on numbers) and [Object.keys]. *)
Variable String_of_number : Q -> string.
Variable Object_keys : Row -> list string.

(** Part 3 of [exportProject]: the text of [data/imu_data.csv]. *)
Definition csvText (rows : list Row) : string :=
  let headers := Object_keys (default ∅ (head rows)) in
  join (String LF "")
    (join "," headers ::
     map (fun row : Row =>
            join "," (map (fun h => from_option String_of_number "" (row !! h))
                          headers))
         rows).

(** [exportProject]; [videoBlob] is what fetching the [blob:] URL of the
    video gave (if there is such a URL and the fetch succeeded) and
    [answer] what the user typed at the prompt.  The result is the
    download: a file name and the archive. *)
Definition exportProject (h : Host) (videoBlob : option Blob)
    (answer : string) (s : State) : option (string * Zip) :=
  if negb (zip_library h) then None
  else
    let has_rows :=
      match csvData s with
      | Some (_ :: _) => true
      | _ => false
      end in
    let projectData :=
      {| pd_syncOffset := Some (syncOffset s);
         pd_timestamps := Some (timestamps s);
         pd_sampleRate := Some SAMPLE_RATE_HZ;
         pd_createdAt := Some (clock h);
         pd_notes := Some (notesInput_value s);
         pd_videoFileName := Some "video_from_project.mp4";
         pd_csvFileName := if has_rows then Some "imu_data.csv" else None |} in
    let video_files :=
      match videoBlob with
      | Some blob =>
          let mime :=
            if (String.length (blob_type blob) =? 0)%nat then "video/mp4"
            else blob_type blob in
          let ext := default "mp4" (split "/" mime !! 1%nat) in
          [("video/video_from_project." +:+ ext, blob)]
      | None => []
      end in
    let data_files :=
      if has_rows then [("imu_data.csv", csvText (default [] (csvData s)))]
      else [] in
    if (String.length answer =? 0)%nat then None
    else
      let filename :=
        if endsWith (toLowerCase answer) ".zip" then answer
        else answer +:+ ".zip" in
      Some (filename,
            {| project_json := Some (Encoded projectData);
               video_folder := video_files;
               data_folder := data_files |}).

End Exporting.

(** [x || ""] on a string or [undefined] *)
Definition or_empty (x : option string) : string := default "" x.

(** The metadata part shared by both branches of [importProject]. *)
Definition applyMetadata (projectData : ProjectData) (s : State) : State :=
  let s := set_syncOffset (or_zero (default 0 (pd_syncOffset projectData))) s in
  let s := set_timestamps (default [] (pd_timestamps projectData)) s in
  set_notesInput_value (or_empty (pd_notes projectData)) s.

(** The ZIP branch of [importProject]; [currentTime] is [video.currentTime]
    when the charts are refreshed. *)
Definition importProject_zip (parseFloat : string -> jsnum) (h : Host)
    (zip : Zip) (currentTime : Q) (s : State) : completion State :=
  if negb (zip_library h) then Normal s
  else
    match project_json zip with
    | None => Normal s
    | Some Malformed => Normal (console_log "Error reading ZIP:" s)
    | Some (Encoded projectData) =>
        let s := applyMetadata projectData s in
        (* 2) the first file below video/ *)
        let s :=
          match head (video_folder zip) with
          | Some (entry_name, videoBlob) =>
              let last_part := default "" (last (split "/" entry_name)) in
              let videoName :=
                if (String.length last_part =? 0)%nat then "video_from_project.mp4"
                else last_part in
              setCurrentVideoFileInfo
                (Some {| name := videoName; size := blob_size videoBlob |}) s
          | None => s
          end in
        (* 3) the first .csv file below data/ *)
        match List.find (fun entry => endsWith (toLowerCase entry.1) ".csv")
                        (data_folder zip) with
        | Some (_, text) =>
            match parseCsv parseFloat text with
            | None => Normal s
            | Some (rows, times) =>
                let s := set_csv (Some rows) times s in
                let s := initImuCharts h s in
                let s := updateImuChartsFull s in
                let s :=
                  if no_samples s then s
                  else updateChartsForVideoTime (or_zero currentTime) s in
                saveProjectToLocal h (Some projectData) s
            end
        | None =>
            let s :=
              if no_samples s then s
              else updateChartsForVideoTime (or_zero currentTime) s in
            saveProjectToLocal h (Some projectData) s
        end
    end.

(** The JSON branch of [importProject]. *)
Definition importProject_json (h : Host) (text : JsonText) (s : State)
  : completion State :=
  match text with
  | Malformed => Normal (console_log "Error parsing JSON:" s)
  | Encoded projectData =>
      let s := applyMetadata projectData s in
      saveProjectToLocal h (Some projectData) s
  end.

(** ** The render loop (movenet.js) *)

(** What one animation frame finds: the ready state of the video, the pose
    the detector would return for the frame ([poses[0] || null]), the value
    of [performance.now()] and the playback position. *)
Record Frame : Type := mkFrame {
  readyState : Z;
  estimate : option Pose;
  now : Q;
  currentTime : Q
}.

(** What one run of [renderFrame] does to the outside. *)
Inductive Event : Type :=
| EstimatePoses
| Draw (pose : Pose)
| UpdateCharts (videoTime : Q)
| RequestAnimationFrame.

(** [!lastPose]: a pose object is truthy, [null] is not. *)
Definition is_null (pose : option Pose) : bool :=
  match pose with
  | None => true
  | Some _ => false
  end.

Definition renderFrame (f : Frame) (s : State) : State * list Event :=
  if negb (isRunning s) then (s, [])
  else if (readyState f <? 2)%Z then (s, [RequestAnimationFrame])
  else
    let frameIndex := (frameIndex s + 1)%Z in
    let '(lastPose, poseToDraw, inference) :=
      match currentMode s with
      | upload =>
          let shouldUpdatePose :=
            (Z.rem frameIndex UPLOAD_FRAME_SKIP =? 0)%Z
            || is_null (lastPose s) in
          if shouldUpdatePose then (estimate f, estimate f, [EstimatePoses])
          else (lastPose s, lastPose s, [])
      | live => (estimate f, estimate f, [EstimatePoses])
      end in
    let s := set_frame frameIndex lastPose s in
    match poseToDraw with
    | None => (s, inference ++ [RequestAnimationFrame])
    | Some pose =>
        let follow :=
          Mode_eqb (currentMode s) upload && negb (no_samples s)
          && imuPanel_displayed s in
        if follow && negb (Qle_bool (now f - lastImuUpdateTime s)
                                    IMU_UPDATE_THROTTLE_MS)
        then
          let s := updateChartsForVideoTime (or_zero (currentTime f)) s in
          let s := set_lastImuUpdateTime (now f) s in
          (s, inference ++ [Draw pose; UpdateCharts (or_zero (currentTime f));
                            RequestAnimationFrame])
        else (s, inference ++ [Draw pose; RequestAnimationFrame])
    end.

(** A run of the loop: one call per animation frame, each on the state the
    previous one left; the result keeps the events of every tick. *)
Fixpoint run (frames : list Frame) (s : State) : State * list (list Event) :=
  match frames with
  | [] => (s, [])
  | f :: rest =>
      let '(s1, events) := renderFrame f s in
      let '(s2, trace) := run rest s1 in
      (s2, events :: trace)
  end.

Definition is_EstimatePoses (e : Event) : bool :=
  match e with EstimatePoses => true | _ => false end.

Definition is_UpdateCharts (e : Event) : bool :=
  match e with UpdateCharts _ => true | _ => false end.

(** Whether a tick ran the detector, what it drew, and whether it refreshed
    the charts. *)
Definition inferred (events : list Event) : bool := existsb is_EstimatePoses events.

Definition drawn (events : list Event) : option Pose :=
  head (omap (fun e => match e with Draw p => Some p | _ => None end) events).

Definition refreshed (events : list Event) : bool := existsb is_UpdateCharts events.


(** [handleStart] in upload mode, once the detector and the video are
    there: the frame state is reset and the loop is running. *)
Definition handleStart (s : State) : State :=
  if isRunning s then s
  else set_isRunning true (set_frame 0 None s).

(** ** Vocabulary of the specification *)

(** The four states of the two-point marking. *)
Inductive Phase : Type := IDLE | VIDEO_MARKED | DATA_MARKED | BOTH_MARKED.

Definition phase (s : State) : Phase :=
  match videoMarkedTime s, dataMarkedTime s with
  | None, None => IDLE
  | Some _, None => VIDEO_MARKED
  | None, Some _ => DATA_MARKED
  | Some _, Some _ => BOTH_MARKED
  end.

(** "Apply" is offered when [checkSyncReady] leaves the button enabled. *)
Definition canApply (s : State) : bool :=
  negb (setSyncBtn_disabled (checkSyncReady s)).




(** The part of the page that a project bundle carries. *)
Definition same_metadata (a b : State) : Prop :=
  syncOffset a = syncOffset b
  /\ timestamps a = timestamps b
  /\ notesInput_value a = notesInput_value b.

(** ** Example pages *)

Definition host0 : Host :=
  {| clock := "2024-05-01T10:00:00.000Z";
     storage_has_room := true;
     chart_library := true;
     zip_library := true |}.


Definition csv0 : string :=
  "ax,ay" +:+ String LF "1.5,2" +:+ String LF "x,4" +:+ String LF "5,6".

(** A video file is known and a CSV file with three samples is loaded. *)
Definition loaded : State :=
  csvReader_onload parseFloat_decimal host0 csv0
    (setCurrentVideoFileInfo (Some {| name := "run.mp4"; size := 2048 |}) initial).

Definition two_events : list Timestamp :=
  [ {| time := 1.5; label := "start"; eventType := "jump"; notes := "" |};
    {| time := 4; label := "0:04.00"; eventType := "other"; notes := "landing" |} ].

Definition annotated : State :=
  set_notesInput_value "trial 3" (set_syncOffset 4.2 (set_timestamps two_events loaded)).

Definition a_pose : Pose :=
  {| keypoints := [ {| kp_name := "nose"; kp_x := 10; kp_y := 20; kp_score := 0.9 |} ] |}.

Definition other_pose : Pose :=
  {| keypoints := [ {| kp_name := "nose"; kp_x := 11; kp_y := 21; kp_score := 0.8 |} ] |}.

Definition frame_at (ms : Q) (p : option Pose) : Frame :=
  {| readyState := 4; estimate := p; now := ms; currentTime := ms / 1000 |}.

(** * The rest of the page

    The handlers below are the ones no property above needed: the project
    load, the reset, the mode switch, the listeners of the video element,
    the timestamp buttons, the time format, the skeleton drawing and the
    step counter of the video; then the page as a whole, as a transition
    system over its events. *)

(** ** Time format (config.js) *)

(** Rounding toward zero, the integer part that [%] works with. *)
Definition Qtruncate (q : Q) : Z :=
  if Qle_bool 0 q then Qfloor q else Qceiling q.

(** [x % y] for a non-zero [y]: the remainder has the sign of [x]. *)
Definition js_rem (x y : Q) : Q := x - y * inject_Z (Qtruncate (x / y)).

(** [n.toString()] for an integer *)
Definition String_of_int (n : Z) : string := NilZero.string_of_int (Z.to_int n).

(** [text.padStart(2, "0")] *)
Definition padStart2 (text : string) : string :=
  match String.length text with
  | 0%nat => "00"
  | 1%nat => "0" +:+ text
  | _ => text
  end.

(** The three numbers that [formatTime] prints. *)
Definition minutes_of (seconds : Q) : Z := Qfloor (seconds / 60).
Definition seconds_of (seconds : Q) : Z := Qfloor (js_rem seconds 60).
Definition hundredths_of (seconds : Q) : Z := Qfloor (js_rem seconds 1 * 100).

Definition formatTime (seconds : Q) : string :=
  let m := minutes_of seconds in
  let s := seconds_of seconds in
  let ms := hundredths_of seconds in
  String_of_int m +:+ ":" +:+ padStart2 (String_of_int s) +:+ "."
  +:+ padStart2 (String_of_int ms).

(** ** Loading the stored project *)

(** [loadProjectFromLocal]; [currentTime] is [video.currentTime] when the
    charts are refreshed.  The storage holds what [saveProjectToLocal] wrote,
    so [JSON.parse] succeeds. *)
Definition loadProjectFromLocal (currentTime : Q) (s : State) : State :=
  match getProjectStorageKey s with
  | None => s
  | Some key =>
      match localStorage s !! key with
      | None => s
      | Some projectData =>
          (* typeof projectData.syncOffset === "number" ? ... : 0 *)
          let s := set_syncOffset (default 0 (pd_syncOffset projectData)) s in
          (* Array.isArray(projectData.timestamps) ? ... : [] *)
          let s := set_timestamps (default [] (pd_timestamps projectData)) s in
          let s := set_notesInput_value (or_empty (pd_notes projectData)) s in
          if no_samples s then s
          else updateChartsForVideoTime (or_zero currentTime) s
      end
  end.

(** [video.onloadedmetadata] as [handleFileChange] installs it, for the
    chosen [file]. *)
Definition video_onloadedmetadata (file : FileInfo) (currentTime : Q) (s : State)
  : State :=
  let s := setCurrentVideoFileInfo (Some file) s in
  loadProjectFromLocal currentTime s.

(** The [timeupdate] listener of the video, installed by the same handler. *)
Definition videoTimeUpdateListener (currentTime : Q) (s : State) : State :=
  if no_samples s then s
  else if isRunning s then s
  else updateChartsForVideoTime (or_zero currentTime) s.

(** ** Timestamp buttons *)

(** Click on "add timestamp"; [labelInput] and [eventTypeValue] are the
    values of the label field and of the event type selector. *)
Definition addTimestampBtn_click (h : Host) (currentTime : Q)
    (labelInput eventTypeValue : string) (s : State) : completion State :=
  let t := or_zero currentTime in
  let rawLabel := trim labelInput in
  let label := if (String.length rawLabel =? 0)%nat then formatTime t else rawLabel in
  let eventType :=
    if (String.length eventTypeValue =? 0)%nat then "other" else eventTypeValue in
  let notes :=
    if (String.length (notesInput_value s) =? 0)%nat then ""
    else trim (notesInput_value s) in
  let s :=
    set_timestamps
      (timestamps s
       ++ [{| time := t; label := label; eventType := eventType; notes := notes |}])
      s in
  let s := set_notesInput_value "" s in
  saveProjectToLocal h None s.

(** [timestamps[index]] *)
Definition timestamp_at (index : Z) (s : State) : option Timestamp :=
  if (index <? 0)%Z then None else timestamps s !! Z.to_nat index.

(** [selectTimestamp]: the new state and the time the video is sent to. *)
Definition selectTimestamp (index : Z) (s : State) : State * option Q :=
  match timestamp_at index s with
  | None => (s, None)
  | Some ts =>
      (if no_samples s then s else updateChartsForVideoTime (time ts) s,
       Some (time ts))
  end.

(** [resetTimestamps] *)
Definition resetTimestamps (s : State) : State :=
  set_notesInput_value "" (set_timestamps [] s).

(** ** Stop, reset and mode switch (movenet.js, main.js) *)

Definition set_currentMode (v : Mode) (s : State) : State :=
  mkState (imuCharts s) (csvData s) (csvTimesSeconds s) (syncOffset s)
    (videoMarkedTime s) (dataMarkedTime s) (lastImuUpdateTime s) (timestamps s)
    (currentVideoFileInfo s) v (isRunning s) (frameIndex s) (lastPose s)
    (setSyncBtn_disabled s) (markDataBtn_disabled s) (notesInput_value s)
    (imuPanel_displayed s) (marker_left s) (dataTimeDisplay s) (localStorage s)
    (console s).

Definition set_imuPanel_displayed (v : bool) (s : State) : State :=
  mkState (imuCharts s) (csvData s) (csvTimesSeconds s) (syncOffset s)
    (videoMarkedTime s) (dataMarkedTime s) (lastImuUpdateTime s) (timestamps s)
    (currentVideoFileInfo s) (currentMode s) (isRunning s) (frameIndex s)
    (lastPose s) (setSyncBtn_disabled s) (markDataBtn_disabled s)
    (notesInput_value s) v (marker_left s) (dataTimeDisplay s) (localStorage s)
    (console s).

Definition stopTracking (s : State) : State :=
  if negb (isRunning s) then s else set_isRunning false s.

(** [clearAll]; hiding the markers leaves their position, which is all the
    state keeps of them. *)
Definition clearAll (s : State) : State :=
  let s := stopTracking s in
  let s := set_frame 0 None s in
  let s := set_csv None [] s in
  let s := set_syncOffset 0 s in
  let s := set_videoMarkedTime None s in
  let s := set_dataMarkedTime None s in
  let s := set_imuCharts ∅ s in
  let s := set_dataTimeDisplay (Some 0) s in
  let s := set_markDataBtn_disabled true s in
  let s := set_setSyncBtn_disabled true s in
  resetTimestamps s.

Definition selectMode (mode : Mode) (s : State) : State :=
  if Mode_eqb mode (currentMode s) then s
  else
    let s := if isRunning s then stopTracking s else s in
    let s := set_currentMode mode s in
    let s := set_imuPanel_displayed (Mode_eqb mode upload) s in
    let s := set_frame 0 None s in
    match mode with
    | upload =>
        if negb (no_samples s) then set_markDataBtn_disabled false s else s
    | live =>
        let s := set_markDataBtn_disabled true s in
        set_setSyncBtn_disabled true s
    end.

(** ** Drawing the pose (movenet.js) *)

Definition MIN_PART_CONFIDENCE : Q := 0.2.

Definition MOVENET_CONNECTED_KEYPOINTS : list (string * string) :=
  [ ("nose", "left_eye"); ("nose", "right_eye");
    ("left_eye", "left_ear"); ("right_eye", "right_ear");
    ("nose", "left_shoulder"); ("nose", "right_shoulder");
    ("left_shoulder", "right_shoulder");
    ("left_shoulder", "left_elbow"); ("left_elbow", "left_wrist");
    ("right_shoulder", "right_elbow"); ("right_elbow", "right_wrist");
    ("left_shoulder", "left_hip"); ("right_shoulder", "right_hip");
    ("left_hip", "right_hip");
    ("left_hip", "left_knee"); ("left_knee", "left_ankle");
    ("right_hip", "right_knee"); ("right_knee", "right_ankle") ].

Definition Qlt_bool (a b : Q) : bool := negb (Qle_bool b a).

(** [drawKeypoints]: the circles drawn, each with whether it gets the solid
    colour.  [kp_score] is [kp.score ?? 0]. *)
Definition drawKeypoints (keypoints : list Keypoint) : list (Keypoint * bool) :=
  omap (fun kp =>
          if Qlt_bool (kp_score kp) 0.02 then None
          else Some (kp, Qle_bool MIN_PART_CONFIDENCE (kp_score kp)))
       keypoints.

(** The object [byName] of [drawSkeleton]: a keypoint with an empty name is
    left out, a later keypoint replaces an earlier one of the same name. *)
Definition byName (keypoints : list Keypoint) : gmap string Keypoint :=
  foldl (fun (m : gmap string Keypoint) kp =>
           if (String.length (kp_name kp) =? 0)%nat then m
           else <[kp_name kp := kp]> m)
        ∅ keypoints.

(** [drawSkeleton]: the segments drawn, in the order of the table. *)
Definition drawSkeleton (keypoints : list Keypoint) : list (Keypoint * Keypoint) :=
  omap (fun ab : string * string =>
          match byName keypoints !! ab.1, byName keypoints !! ab.2 with
          | Some kp1, Some kp2 =>
              if Qlt_bool (kp_score kp1) MIN_PART_CONFIDENCE
                 || Qlt_bool (kp_score kp2) MIN_PART_CONFIDENCE
              then None
              else Some (kp1, kp2)
          | _, _ => None
          end)
       MOVENET_CONNECTED_KEYPOINTS.

(** ** The page as a transition system *)

(** What can happen to the page: the events that reach a handler.  A click
    on a disabled button is not delivered, which [handle] accounts for where
    the state holds the flag; the other buttons are taken to be enabled and
    every listener to be installed, [StartClicked] is a start that finds its
    detector and its video.  So the events can come in more orders here than
    the page allows. *)
Inductive PageEvent : Type :=
| VideoLoaded (file : FileInfo) (currentTime : Q)
| VideoTimeUpdate (currentTime : Q)
| CsvLoaded (h : Host) (text : string)
| SliderMoved (time : jsnum)
| MarkVideoClicked (currentTime : Q)
| MarkDataClicked
| ApplyClicked (h : Host)
| AddTimestampClicked (h : Host) (currentTime : Q) (labelInput eventTypeValue : string)
| DeleteClicked (h : Host) (index : Z)
| TimestampClicked (index : Z)
| NotesTyped (text : string)
| ClearClicked
| ModeSelected (mode : Mode)
| StartClicked
| StopClicked
| AnimationFrame (f : Frame)
| ZipImported (h : Host) (zip : Zip) (currentTime : Q)
| JsonImported (h : Host) (text : JsonText).

(** The state a handler leaves; none of the handlers lets an exception out,
    an exception would leave the state as it found it. *)
Definition state_after (c : completion State) (s : State) : State :=
  match c with
  | Normal s' => s'
  | Throw _ => s
  end.

Definition handle (parseFloat : string -> jsnum) (e : PageEvent) (s : State) : State :=
  match e with
  | VideoLoaded file t => video_onloadedmetadata file t s
  | VideoTimeUpdate t => videoTimeUpdateListener t s
  | CsvLoaded h text => csvReader_onload parseFloat h text s
  | SliderMoved time => dataSliderListener time s
  | MarkVideoClicked t => markVideoBtn_click t s
  | MarkDataClicked => if markDataBtn_disabled s then s else markDataBtn_click s
  | ApplyClicked h =>
      if setSyncBtn_disabled s then s else state_after (setSyncBtn_click h s) s
  | AddTimestampClicked h t labelInput eventTypeValue =>
      state_after (addTimestampBtn_click h t labelInput eventTypeValue s) s
  | DeleteClicked h index => state_after (deleteTimestamp h index s) s
  | TimestampClicked index => (selectTimestamp index s).1
  | NotesTyped text => set_notesInput_value text s
  | ClearClicked => clearAll s
  | ModeSelected mode => selectMode mode s
  | StartClicked => handleStart s
  | StopClicked => stopTracking s
  | AnimationFrame f => (renderFrame f s).1
  | ZipImported h zip t => state_after (importProject_zip parseFloat h zip t s) s
  | JsonImported h text => state_after (importProject_json h text s) s
  end.

(** The page after a sequence of events. *)
Definition replay (parseFloat : string -> jsnum) (events : list PageEvent)
    (s : State) : State :=
  foldl (fun s e => handle parseFloat e s) s events.

(** The page when [main] is done: the charts are created (if Chart.js is
    there) and the upload mode is selected. *)
Definition started (h : Host) : State := initImuCharts h initial.

Definition is_RequestAnimationFrame (e : Event) : bool :=
  match e with RequestAnimationFrame => true | _ => false end.

(** The "apply" button is enabled only with both marks set. *)
Definition apply_button_sound (s : State) : bool :=
  setSyncBtn_disabled s || both_marked s.

(** The time axis is the one of the samples. *)
Definition time_axis_sound (s : State) : Prop :=
  csvTimesSeconds s = timeAxis (default [] (csvData s)).

(** A time that is a whole number of sample periods. *)
Definition on_sample_grid (t : Q) : Prop :=
  exists k : nat, t == inject_Z (Z.of_nat k) / SAMPLE_RATE_HZ.

Definition data_mark_on_grid (s : State) : Prop :=
  match dataMarkedTime s with
  | Some d => on_sample_grid d
  | None => True
  end.

(** Two pages with the same marks and the same state of the "apply" button,
    and two pages with the same samples. *)
Definition same_marks (a b : State) : Prop :=
  videoMarkedTime a = videoMarkedTime b
  /\ dataMarkedTime a = dataMarkedTime b
  /\ setSyncBtn_disabled a = setSyncBtn_disabled b.

Definition same_samples (a b : State) : Prop :=
  csvData a = csvData b /\ csvTimesSeconds a = csvTimesSeconds b.

(** What one event can do to the samples, to the data mark and to the
    "apply" button.  The samples: those found, freshly parsed ones with their
    time axis, or none. *)
Definition samples_step (s' s : State) : Prop :=
  same_samples s' s
  \/ (exists rows, csvData s' = Some rows /\ csvTimesSeconds s' = timeAxis rows)
  \/ (csvData s' = None /\ csvTimesSeconds s' = []).

(** The data mark: the one found, none, zero, or a time of the axis. *)
Definition data_mark_step (s' s : State) : Prop :=
  dataMarkedTime s' = dataMarkedTime s
  \/ dataMarkedTime s' = None
  \/ dataMarkedTime s' = Some 0
  \/ exists i t, csvTimesSeconds s !! i = Some t /\ dataMarkedTime s' = Some t.

(** The button: disabled, set by [checkSyncReady], or left alone while no
    mark is taken away. *)
Definition apply_button_step (s' s : State) : Prop :=
  setSyncBtn_disabled s' = true
  \/ setSyncBtn_disabled s' = negb (both_marked s')
  \/ (setSyncBtn_disabled s' = setSyncBtn_disabled s
      /\ videoMarkedTime s' = videoMarkedTime s
      /\ (is_Some (dataMarkedTime s) -> is_Some (dataMarkedTime s'))).

(** Occurrence of a character in a string. *)
Fixpoint occurs (c : ascii) (text : string) : Prop :=
  match text with
  | EmptyString => False
  | String c' rest => c' = c \/ occurs c rest
  end.


(** ** Texts that survive the CSV format *)

(** A text without comma, line feed or carriage return: it can stand as one
    field of a CSV line. *)
Fixpoint plain (text : string) : bool :=
  match text with
  | EmptyString => true
  | String c rest =>
      negb (Ascii.eqb c ",") && negb (Ascii.eqb c LF) && negb (Ascii.eqb c CR)
      && plain rest
  end.

(** A column name that the header line gives back: plain, not empty and
    without white space at its ends. *)
Definition column_name (text : string) : bool :=
  plain text && String.eqb (trim text) text
  && negb (String.length text =? 0)%nat.

(** A number whose text, as [String] prints it, is plain and not blank, and
    is read back by [parseFloat] as the same number. *)
Definition prints_and_parses (parseFloat : string -> jsnum)
    (String_of_number : Q -> string) (q : Q) : Prop :=
  parseFloat (String_of_number q) = Fin q
  /\ plain (String_of_number q) = true
  /\ non_blank (String_of_number q) = true.

(** ** Video time steps (movenet.js) *)





(** * Properties *)

(** ** Numbers *)

Lemma or_zero_eq (x : Q) : or_zero x == x.
Proof.
  unfold or_zero. destruct (Qeq_bool x 0) eqn:E; [|reflexivity].
  apply Qeq_bool_iff in E. symmetry. exact E.
Qed.

(** ** Setters leave the other variables alone *)

Lemma saveProjectToLocal_normal h extra s :
  exists s', saveProjectToLocal h extra s = Normal s'
    /\ syncOffset s' = syncOffset s
    /\ videoMarkedTime s' = videoMarkedTime s
    /\ dataMarkedTime s' = dataMarkedTime s
    /\ timestamps s' = timestamps s
    /\ notesInput_value s' = notesInput_value s
    /\ currentVideoFileInfo s' = currentVideoFileInfo s.
Proof.
  unfold saveProjectToLocal, localStorage_setItem.
  destruct (getProjectStorageKey s); [|by eexists].
  destruct (storage_has_room h); by eexists.
Qed.

(** ** Synchronisation *)

Lemma apply_with_both_marks (h : Host) (s : State) (v d : Q) :
  videoMarkedTime s = Some v ->
  dataMarkedTime s = Some d ->
  exists s',
    setSyncBtn_click h s = Normal s'
    /\ syncOffset s' = v - d
    /\ videoMarkedTime s' = None
    /\ dataMarkedTime s' = None.
Proof.
  intros Hv Hd. unfold setSyncBtn_click. rewrite Hv, Hd.
  match goal with
  | |- exists s', saveProjectToLocal ?h ?e ?s0 = _ /\ _ =>
      destruct (saveProjectToLocal_normal h e s0)
        as (s' & -> & Hoff & Hvm & Hdm & _)
  end.
  exists s'. split; [reflexivity|]. rewrite Hoff, Hvm, Hdm. repeat split.
Qed.





(** C10.  With sensor data loaded and the data mark never set, marking the
    data time puts the mark at 0; if the video is marked at [v], applying
    then gives the offset [v - 0]. *)
Theorem unset_data_mark_defaults_to_zero (h : Host) (s : State) :
  no_samples s = false ->
  dataMarkedTime s = None ->
  dataMarkedTime (markDataBtn_click s) = Some 0
  /\ forall v, videoMarkedTime s = Some v ->
       exists s', setSyncBtn_click h (markDataBtn_click s) = Normal s'
                  /\ syncOffset s' = v - 0.
Proof.
  intros Hcsv Hd. unfold markDataBtn_click. rewrite Hcsv, Hd.
  split; [reflexivity|].
  intros v Hv.
  destruct (apply_with_both_marks h (checkSyncReady (set_dataMarkedTime (Some 0) s))
              v 0 Hv eq_refl) as (s' & Hs & Hoff & _).
  exists s'. split; [exact Hs|exact Hoff].
Qed.

Lemma unset_data_mark_defaults_to_zero_example :
  dataMarkedTime (markDataBtn_click (markVideoBtn_click 7 loaded)) = Some 0
  /\ forall v, videoMarkedTime (markVideoBtn_click 7 loaded) = Some v ->
       exists s',
         setSyncBtn_click host0 (markDataBtn_click (markVideoBtn_click 7 loaded))
           = Normal s'
         /\ syncOffset s' = v - 0.
Proof.
  apply (unset_data_mark_defaults_to_zero host0 (markVideoBtn_click 7 loaded));
    vm_compute; reflexivity.
Defined.

(** The claim C5 asks for an error when "apply" runs without both marks.
    On the fresh page no mark is set and the handler ends normally, the
    state untouched. *)
Lemma apply_without_marks_does_not_throw :
  phase initial = IDLE
  /\ setSyncBtn_click host0 initial = Normal initial
  /\ ~ exists e, setSyncBtn_click host0 initial = Throw e.
Proof.
  split; [reflexivity|]. split; [reflexivity|].
  intros [e He]. discriminate He.
Qed.

(** C5, amended.  "Apply" is offered exactly when both marks are present,
    so in none of IDLE, VIDEO_MARKED, DATA_MARKED and only in BOTH_MARKED;
    when a mark is absent the handler of "apply" returns at once: no
    exception, no change of state. *)
Theorem canApply_iff_both_marked (h : Host) (s : State) :
  (canApply s = true <->
     (exists v, videoMarkedTime s = Some v) /\ (exists d, dataMarkedTime s = Some d))
  /\ canApply s = match phase s with
                  | BOTH_MARKED => true
                  | IDLE | VIDEO_MARKED | DATA_MARKED => false
                  end
  /\ (videoMarkedTime s = None \/ dataMarkedTime s = None ->
      setSyncBtn_click h s = Normal s).
Proof.
  unfold canApply, checkSyncReady, phase, setSyncBtn_click, both_marked. simpl.
  destruct (videoMarkedTime s) as [v|], (dataMarkedTime s) as [d|]; simpl;
    (split; [|split]); try reflexivity.
  all: try (intros [H|H]; discriminate H).
  all: split; [intros H | intros [[? H] [? H']]]; try discriminate; eauto.
Qed.

Lemma canApply_iff_both_marked_example :
  (canApply (markVideoBtn_click 7 loaded) = true <->
     (exists v, videoMarkedTime (markVideoBtn_click 7 loaded) = Some v)
     /\ (exists d, dataMarkedTime (markVideoBtn_click 7 loaded) = Some d))
  /\ canApply (markVideoBtn_click 7 loaded)
     = match phase (markVideoBtn_click 7 loaded) with
       | BOTH_MARKED => true
       | IDLE | VIDEO_MARKED | DATA_MARKED => false
       end
  /\ setSyncBtn_click host0 (markVideoBtn_click 7 loaded)
     = Normal (markVideoBtn_click 7 loaded).
Proof.
  destruct (canApply_iff_both_marked host0 (markVideoBtn_click 7 loaded))
    as (H1 & H2 & H3).
  split; [exact H1|]. split; [exact H2|].
  apply H3. right. reflexivity.
Defined.

(** ** Project store *)



(** ** Timestamps *)

(** The claim C7 asks for an error when the index is out of range.  With
    two timestamps, deleting at [-1] and at [2] ends normally and leaves the
    page as it was. *)
Lemma delete_out_of_range_does_not_throw :
  length (timestamps annotated) = 2%nat
  /\ deleteTimestamp host0 (-1) annotated = Normal annotated
  /\ deleteTimestamp host0 2 annotated = Normal annotated
  /\ ~ exists e, deleteTimestamp host0 (-1) annotated = Throw e
                 \/ deleteTimestamp host0 2 annotated = Throw e.
Proof.
  split; [reflexivity|]. split; [reflexivity|]. split; [reflexivity|].
  intros [e [He|He]]; discriminate He.
Qed.

(** C7, amended.  For an index below 0 or at least the length,
    [deleteTimestamp] returns without an exception and leaves the sequence
    (and the rest of the page) unchanged; for an index inside the sequence
    it removes exactly that element and then saves the project. *)
Theorem deleteTimestamp_by_index (h : Host) (index : Z) (s : State) :
  ((index < 0 \/ Z.of_nat (length (timestamps s)) <= index)%Z ->
   deleteTimestamp h index s = Normal s)
  /\ ((0 <= index < Z.of_nat (length (timestamps s)))%Z ->
      let remaining :=
        take (Z.to_nat index) (timestamps s)
        ++ drop (S (Z.to_nat index)) (timestamps s) in
      deleteTimestamp h index s
      = saveProjectToLocal h None (set_timestamps remaining s)
      /\ exists s', deleteTimestamp h index s = Normal s'
                    /\ timestamps s' = remaining
                    /\ S (length (timestamps s')) = length (timestamps s)).
Proof.
  unfold deleteTimestamp. split.
  - intros H.
    replace ((index <? 0)%Z || (Z.of_nat (length (timestamps s)) <=? index)%Z)
      with true; [reflexivity|].
    symmetry. apply orb_true_iff. destruct H as [H|H]; [left|right]; lia.
  - intros H.
    replace ((index <? 0)%Z || (Z.of_nat (length (timestamps s)) <=? index)%Z)
      with false by (symmetry; apply orb_false_iff; lia).
    unfold splice1. rewrite delete_take_drop. split; [reflexivity|].
    match goal with
    | |- exists s', saveProjectToLocal ?h ?e ?s0 = _ /\ _ =>
        destruct (saveProjectToLocal_normal h e s0)
          as (s' & -> & _ & _ & _ & Hts & _)
    end.
    exists s'. split; [reflexivity|]. rewrite Hts. simpl.
    split; [reflexivity|].
    rewrite length_app, length_take, length_drop. lia.
Qed.

Lemma deleteTimestamp_by_index_example :
  deleteTimestamp host0 5 annotated = Normal annotated
  /\ exists s', deleteTimestamp host0 0 annotated = Normal s'
                /\ timestamps s' = drop 1 two_events.
Proof.
  destruct (deleteTimestamp_by_index host0 5 annotated) as [Hout _].
  destruct (deleteTimestamp_by_index host0 0 annotated) as [_ Hin].
  split.
  - apply Hout. right. vm_compute. discriminate.
  - destruct Hin as (_ & s' & Hs & Hts & _).
    + vm_compute. split; [discriminate|reflexivity].
    + exists s'. split; [exact Hs|exact Hts].
Defined.

(** ** The windowed view *)


Lemma fill_chart_other s a b (charts : gmap string Chart) sensor id :
  id <> sensor.1 ->
  fill_chart s a b charts sensor !! id = charts !! id.
Proof.
  intros H. unfold fill_chart. destruct (charts !! sensor.1); [|reflexivity].
  apply lookup_insert_ne. congruence.
Qed.







Lemma updateChartsForVideoTime_fields (videoTime : Q) (s : State) :
  no_samples s = false ->
  no_charts s = false ->
  let w := windowView videoTime (syncOffset s) in
  let s' := updateChartsForVideoTime videoTime s in
  marker_left s' = Some (markerPos w)
  /\ dataTimeDisplay s' = Some (adjustedTime w)
  /\ imuCharts s'
     = foldl (fill_chart s (startTime w) (endTime w)) (imuCharts s) sensors.
Proof.
  intros Hcsv Hcharts. unfold updateChartsForVideoTime. rewrite Hcsv, Hcharts.
  repeat split.
Qed.



(** ** The render loop *)

Lemma updateChartsForVideoTime_frame (videoTime : Q) (s : State) :
  let s' := updateChartsForVideoTime videoTime s in
  isRunning s' = isRunning s /\ currentMode s' = currentMode s
  /\ frameIndex s' = frameIndex s /\ lastPose s' = lastPose s
  /\ lastImuUpdateTime s' = lastImuUpdateTime s.
Proof.
  unfold updateChartsForVideoTime.
  destruct (no_samples s); [repeat split|].
  destruct (no_charts s); repeat split.
Qed.

(** One tick of the running loop in upload mode on a video that is ready. *)
Lemma renderFrame_upload (f : Frame) (s : State) :
  isRunning s = true ->
  currentMode s = upload ->
  (2 <= readyState f)%Z ->
  let after := (renderFrame f s).1 in
  let events := (renderFrame f s).2 in
  isRunning after = true
  /\ currentMode after = upload
  /\ frameIndex after = (frameIndex s + 1)%Z
  /\ inferred events
     = (Z.rem (frameIndex after) UPLOAD_FRAME_SKIP =? 0)%Z || is_null (lastPose s)
  /\ (inferred events = true -> lastPose after = estimate f)
  /\ (inferred events = false -> lastPose after = lastPose s)
  /\ drawn events = lastPose after.
Proof.
  intros Hrun Hmode Hready. unfold renderFrame. rewrite Hrun, Hmode. simpl negb.
  cbv iota.
  replace (readyState f <? 2)%Z with false by (symmetry; apply Z.ltb_ge; lia).
  destruct ((Z.rem (frameIndex s + 1) UPLOAD_FRAME_SKIP =? 0)%Z
            || is_null (lastPose s)) eqn:Hskip.
  - destruct (estimate f) as [pose|]; simpl.
    + match goal with
      | |- context [if ?c then _ else _] => destruct c
      end; simpl.
      * destruct (updateChartsForVideoTime_frame (or_zero (currentTime f))
                    (set_frame (frameIndex s + 1) (Some pose) s))
          as (-> & -> & -> & -> & _).
        simpl. rewrite Hrun, Hmode, Hskip. repeat split; done.
      * rewrite Hrun, Hmode, Hskip. repeat split; done.
    + rewrite Hrun, Hmode, Hskip. repeat split; done.
  - pose proof Hskip as Hboth. apply orb_false_iff in Hboth.
    destruct Hboth as [Hrem Hnull].
    destruct (lastPose s) as [pose|] eqn:Hlast; [|discriminate Hnull]. simpl.
    match goal with
    | |- context [if ?c then _ else _] => destruct c
    end; simpl.
    + destruct (updateChartsForVideoTime_frame (or_zero (currentTime f))
                  (set_frame (frameIndex s + 1) (Some pose) s))
        as (-> & -> & -> & -> & _).
      simpl. rewrite Hrun, Hmode, Hrem. repeat split; done.
    + rewrite Hrun, Hmode, Hrem. repeat split; done.
Qed.

Lemma run_cons (f : Frame) (rest : list Frame) (s : State) :
  run (f :: rest) s
  = ((run rest (renderFrame f s).1).1,
     (renderFrame f s).2 :: (run rest (renderFrame f s).1).2).
Proof.
  simpl. destruct (renderFrame f s) as [s1 events]. simpl.
  destruct (run rest s1) as [s2 trace]. reflexivity.
Qed.

Lemma run_length (frames : list Frame) (s : State) :
  length (run frames s).2 = length frames.
Proof.
  revert s. induction frames as [|f rest IH]; intros s; [reflexivity|].
  rewrite run_cons. simpl. rewrite IH. reflexivity.
Qed.

(** The state a tick starts from is the one the ticks before it left. *)
Lemma run_take_S (frames : list Frame) (s : State) (k : nat) (f : Frame) :
  frames !! k = Some f ->
  (run (take (S k) frames) s).1 = (renderFrame f (run (take k frames) s).1).1.
Proof.
  revert s k. induction frames as [|f0 rest IH]; intros s k Hk; [discriminate Hk|].
  destruct k as [|k].
  - injection Hk as ->. simpl take. rewrite run_cons. reflexivity.
  - change (take (S (S k)) (f0 :: rest)) with (f0 :: take (S k) rest).
    change (take (S k) (f0 :: rest)) with (f0 :: take k rest).
    rewrite !run_cons. simpl fst. apply IH. exact Hk.
Qed.

Lemma run_upload (frames : list Frame) (s : State) :
  isRunning s = true ->
  currentMode s = upload ->
  Forall (fun f => (2 <= readyState f)%Z) frames ->
  isRunning (run frames s).1 = true
  /\ currentMode (run frames s).1 = upload
  /\ frameIndex (run frames s).1 = (frameIndex s + Z.of_nat (length frames))%Z.
Proof.
  revert s. induction frames as [|f rest IH]; intros s Hrun Hmode Hready.
  - simpl. repeat split; try done. lia.
  - inversion Hready as [|? ? Hf Hrest]; subst.
    destruct (renderFrame_upload f s Hrun Hmode Hf) as (Hr & Hm & Hi & _).
    rewrite run_cons. simpl fst.
    destruct (IH _ Hr Hm Hrest) as (-> & -> & ->).
    rewrite Hi. repeat split; try done. simpl length. lia.
Qed.

Lemma run_tick (frames : list Frame) (s : State) (k : nat) (f : Frame) :
  frames !! k = Some f ->
  (run frames s).2 !! k = Some (renderFrame f (run (take k frames) s).1).2.
Proof.
  revert s k. induction frames as [|f0 rest IH]; intros s k Hk; [discriminate Hk|].
  rewrite run_cons. destruct k as [|k].
  - injection Hk as ->. reflexivity.
  - change (take (S k) (f0 :: rest)) with (f0 :: take k rest).
    rewrite run_cons. simpl. apply IH. exact Hk.
Qed.

(** C3.  While the loop is running in upload mode and the video is ready,
    every tick increments [frameIndex]; a tick runs the detector exactly
    when the incremented [frameIndex] is a multiple of [UPLOAD_FRAME_SKIP]
    (which is 2) or there is no previous pose; a tick that does not run it
    keeps and draws the pose of the previous tick unchanged.  Counting the
    ticks from [frameIndex = 0], the pose computed on tick 2 is the one
    drawn on tick 3. *)
Theorem frame_skip_policy (frames : list Frame) (s : State) :
  isRunning s = true ->
  currentMode s = upload ->
  Forall (fun f => (2 <= readyState f)%Z) frames ->
  UPLOAD_FRAME_SKIP = 2%Z
  /\ frameIndex (run frames s).1 = (frameIndex s + Z.of_nat (length frames))%Z
  /\ (forall k f, frames !! k = Some f ->
        let before := (run (take k frames) s).1 in
        let after := (run (take (S k) frames) s).1 in
        exists events,
          (run frames s).2 !! k = Some events
          /\ frameIndex after = (frameIndex before + 1)%Z
          /\ inferred events
             = (Z.rem (frameIndex after) UPLOAD_FRAME_SKIP =? 0)%Z
               || is_null (lastPose before)
          /\ drawn events = lastPose after
          /\ (inferred events = false ->
              lastPose after = lastPose before /\ drawn events = lastPose before))
  /\ (forall k previous events,
        (run frames s).2 !! k = Some previous ->
        (run frames s).2 !! S k = Some events ->
        inferred events = false ->
        drawn events = drawn previous)
  /\ (frameIndex s = 0%Z ->
      forall f1 f2 f3 rest pose,
        frames = f1 :: f2 :: f3 :: rest ->
        estimate f2 = Some pose ->
        exists e1 e2 e3 trace,
          (run frames s).2 = e1 :: e2 :: e3 :: trace
          /\ inferred e2 = true /\ drawn e2 = Some pose
          /\ inferred e3 = false /\ drawn e3 = Some pose).
Proof.
  intros Hrun Hmode Hready.
  assert (Htick : forall k f, frames !! k = Some f ->
            let before := (run (take k frames) s).1 in
            let after := (run (take (S k) frames) s).1 in
            (run frames s).2 !! k = Some (renderFrame f before).2
            /\ frameIndex before = (frameIndex s + Z.of_nat k)%Z
            /\ frameIndex after = (frameIndex before + 1)%Z
            /\ inferred (renderFrame f before).2
               = (Z.rem (frameIndex after) UPLOAD_FRAME_SKIP =? 0)%Z
                 || is_null (lastPose before)
            /\ (inferred (renderFrame f before).2 = true -> lastPose after = estimate f)
            /\ (inferred (renderFrame f before).2 = false ->
                lastPose after = lastPose before)
            /\ drawn (renderFrame f before).2 = lastPose after).
  { intros k f Hk before after.
    assert (Hpre : Forall (fun f => (2 <= readyState f)%Z) (take k frames))
      by (apply Forall_take; exact Hready).
    destruct (run_upload (take k frames) s Hrun Hmode Hpre) as (Hr & Hm & Hi).
    assert (Hf : (2 <= readyState f)%Z)
      by exact (Forall_lookup_1 _ _ _ _ Hready Hk).
    destruct (renderFrame_upload f _ Hr Hm Hf) as (_ & _ & H3 & H4 & H5 & H6 & H7).
    subst before after. rewrite (run_take_S frames s k f Hk).
    split; [apply run_tick; exact Hk|].
    split.
    { rewrite Hi, length_take.
      apply lookup_lt_Some in Hk. rewrite Nat.min_l by lia. reflexivity. }
    repeat split; assumption. }
  split; [reflexivity|].
  split; [apply run_upload; assumption|].
  split; [|split].
  - intros k f Hk before after.
    destruct (Htick k f Hk) as (H1 & _ & H3 & H4 & _ & H6 & H7).
    eexists. split; [exact H1|]. split; [exact H3|]. split; [exact H4|].
    split; [exact H7|]. intros Hno. specialize (H6 Hno).
    split; [exact H6|]. rewrite H7. exact H6.
  - intros k previous events Hprev Hev Hno.
    assert (Hlen : (S k < length frames)%nat).
    { apply lookup_lt_Some in Hev. rewrite run_length in Hev. exact Hev. }
    destruct (lookup_lt_is_Some_2 frames k ltac:(lia)) as [fk Hfk].
    destruct (lookup_lt_is_Some_2 frames (S k) Hlen) as [fk' Hfk'].
    destruct (Htick k fk Hfk) as (H1 & _ & _ & _ & _ & _ & H7).
    destruct (Htick (S k) fk' Hfk') as (H1' & _ & _ & _ & _ & H6' & H7').
    rewrite H1 in Hprev. injection Hprev as <-.
    rewrite H1' in Hev. injection Hev as <-.
    rewrite H7', H7. apply H6'. exact Hno.
  - intros Hzero f1 f2 f3 rest pose -> Hpose.
    destruct (Htick 1%nat f2 eq_refl) as (H1 & Hb & Ha & Hinf & Hest & _ & Hd).
    destruct (Htick 2%nat f3 eq_refl) as (H1' & Hb' & Ha' & Hinf' & _ & Hkeep' & Hd').
    cbv zeta in *.
    assert (Hi2 : inferred
                    (renderFrame f2 (run (take 1 (f1 :: f2 :: f3 :: rest)) s).1).2
                  = true).
    { rewrite Hinf, Ha, Hb, Hzero. reflexivity. }
    assert (Hl2 : lastPose (run (take 2 (f1 :: f2 :: f3 :: rest)) s).1 = Some pose).
    { rewrite (Hest Hi2). exact Hpose. }
    assert (Hi3 : inferred
                    (renderFrame f3 (run (take 2 (f1 :: f2 :: f3 :: rest)) s).1).2
                  = false).
    { rewrite Hinf', Ha', Hb', Hzero, Hl2. reflexivity. }
    rewrite !run_cons in H1, H1' |- *. simpl snd in *.
    injection H1 as H1. injection H1' as H1'.
    do 4 eexists. split; [reflexivity|].
    rewrite H1, H1'.
    split; [exact Hi2|]. split; [rewrite Hd; exact Hl2|].
    split; [exact Hi3|]. rewrite Hd', (Hkeep' Hi3). exact Hl2.
Qed.

Lemma frame_skip_policy_example :
  exists e1 e2 e3 trace,
    (run [frame_at 0 (Some other_pose); frame_at 16 (Some a_pose);
          frame_at 33 (Some other_pose)] (handleStart loaded)).2
    = e1 :: e2 :: e3 :: trace
    /\ inferred e2 = true /\ drawn e2 = Some a_pose
    /\ inferred e3 = false /\ drawn e3 = Some a_pose.
Proof.
  destruct (frame_skip_policy
              [frame_at 0 (Some other_pose); frame_at 16 (Some a_pose);
               frame_at 33 (Some other_pose)] (handleStart loaded))
    as (_ & _ & _ & _ & H).
  - reflexivity.
  - reflexivity.
  - repeat constructor; discriminate.
  - exact (H eq_refl _ _ _ _ _ eq_refl eq_refl).
Defined.

(** ** The throttle *)


(** What a tick, any tick, does to the throttle: a refresh happens only
    more than the interval after the recorded time and records its own time;
    without a refresh the recorded time stays. *)
Lemma renderFrame_throttle (f : Frame) (s : State) :
  let after := (renderFrame f s).1 in
  let events := (renderFrame f s).2 in
  (refreshed events = true ->
   lastImuUpdateTime s + IMU_UPDATE_THROTTLE_MS < now f
   /\ lastImuUpdateTime after = now f)
  /\ (refreshed events = false -> lastImuUpdateTime after = lastImuUpdateTime s).
Proof.
  unfold renderFrame.
  destruct (isRunning s); simpl negb; cbv iota; [|split; done].
  destruct (readyState f <? 2)%Z; [split; done|].
  assert (Hgap : negb (Qle_bool (now f - lastImuUpdateTime s)
                                IMU_UPDATE_THROTTLE_MS) = true ->
                 lastImuUpdateTime s + IMU_UPDATE_THROTTLE_MS < now f).
  { intros H. apply negb_true_iff in H.
    assert (Hnot : ~ now f - lastImuUpdateTime s <= IMU_UPDATE_THROTTLE_MS).
    { intros Hle. apply Qle_bool_iff in Hle. congruence. }
    apply Qnot_le_lt in Hnot. lra. }
  destruct (currentMode s);
    [|destruct ((Z.rem (frameIndex s + 1) UPLOAD_FRAME_SKIP =? 0)%Z
                || is_null (lastPose s))];
    destruct (estimate f) as [pose|]; destruct (lastPose s) as [last|];
    cbv zeta iota beta;
    try (split; done);
    match goal with
    | |- context [if ?c then _ else _] => destruct c eqn:Hc
    end;
    try (split; done);
    apply andb_true_iff in Hc; destruct Hc as [_ Hc]; apply Hgap in Hc;
    (split; [intros _; split; [exact Hc|reflexivity]|done]).
Qed.









(** ** Export and import *)

Lemma same_metadata_refl a : same_metadata a a.
Proof. repeat split. Qed.

Lemma same_metadata_trans a b c :
  same_metadata a b -> same_metadata b c -> same_metadata a c.
Proof. intros (? & ? & ?) (? & ? & ?). repeat split; congruence. Qed.

Lemma setCurrentVideoFileInfo_metadata file s :
  same_metadata (setCurrentVideoFileInfo file s) s.
Proof.
  unfold setCurrentVideoFileInfo. destruct file as [f|]; [|repeat split].
  destruct (String.length (name f) =? 0)%nat; repeat split.
Qed.

Lemma initImuCharts_metadata h s : same_metadata (initImuCharts h s) s.
Proof. unfold initImuCharts. destruct (chart_library h); repeat split. Qed.

Lemma updateImuChartsFull_metadata s : same_metadata (updateImuChartsFull s) s.
Proof. unfold updateImuChartsFull. destruct (no_samples s); repeat split. Qed.

Lemma updateChartsForVideoTime_metadata t s :
  same_metadata (updateChartsForVideoTime t s) s.
Proof.
  unfold updateChartsForVideoTime.
  destruct (no_samples s); [repeat split|]. destruct (no_charts s); repeat split.
Qed.

Lemma saveProjectToLocal_metadata h extra s :
  exists s', saveProjectToLocal h extra s = Normal s' /\ same_metadata s' s.
Proof.
  destruct (saveProjectToLocal_normal h extra s) as (s' & E & ? & _ & _ & ? & ? & _).
  exists s'. repeat split; assumption.
Qed.

(** Whatever else the archive holds, a ZIP import ends normally with the
    metadata of its [project.json]. *)
Lemma importProject_zip_metadata parseFloat h zip currentTime projectData s :
  zip_library h = true ->
  project_json zip = Some (Encoded projectData) ->
  exists s', importProject_zip parseFloat h zip currentTime s = Normal s'
             /\ same_metadata s' (applyMetadata projectData s).
Proof.
  intros Hlib Hjson. unfold importProject_zip. rewrite Hlib, Hjson. simpl negb.
  cbv iota. cbv zeta.
  set (s1 := applyMetadata projectData s).
  set (s2 := match head (video_folder zip) with
             | Some (entry_name, videoBlob) => _
             | None => s1
             end).
  assert (H2 : same_metadata s2 s1).
  { subst s2. destruct (head (video_folder zip)) as [[entry_name videoBlob]|].
    - apply setCurrentVideoFileInfo_metadata.
    - apply same_metadata_refl. }
  assert (Hrefresh : forall s3, same_metadata s3 s1 ->
            same_metadata
              (if no_samples s3 then s3
               else updateChartsForVideoTime (or_zero currentTime) s3) s1).
  { intros s3 H3. destruct (no_samples s3); [exact H3|].
    eapply same_metadata_trans; [apply updateChartsForVideoTime_metadata|exact H3]. }
  destruct (find _ (data_folder zip)) as [[path text]|].
  - destruct (parseCsv parseFloat text) as [[rows times]|].
    + match goal with
      | |- exists s', saveProjectToLocal ?h ?e ?s0 = _ /\ _ =>
          destruct (saveProjectToLocal_metadata h e s0) as (s' & -> & Hs')
      end.
      exists s'. split; [reflexivity|].
      eapply same_metadata_trans; [exact Hs'|].
      apply Hrefresh.
      eapply same_metadata_trans; [apply updateImuChartsFull_metadata|].
      eapply same_metadata_trans; [apply initImuCharts_metadata|].
      eapply same_metadata_trans; [|exact H2]. repeat split.
    + exists s2. split; [reflexivity|exact H2].
  - match goal with
    | |- exists s', saveProjectToLocal ?h ?e ?s0 = _ /\ _ =>
        destruct (saveProjectToLocal_metadata h e s0) as (s' & -> & Hs')
    end.
    exists s'. split; [reflexivity|].
    eapply same_metadata_trans; [exact Hs'|]. apply Hrefresh. exact H2.
Qed.

(** C6.  Importing the archive that [exportProject] produced restores the
    sync offset, the timestamps (as many, and each with the same time,
    label, event type and notes), the notes and the sample rate of the
    exporting page, whatever the importing page held before. *)
Theorem export_import_round_trip
    (String_of_number : Q -> string) (Object_keys : Row -> list string)
    (parseFloat : string -> jsnum) (h h' : Host) (videoBlob : option Blob)
    (answer : string) (currentTime : Q) (s s0 : State)
    (filename : string) (zip : Zip) :
  exportProject String_of_number Object_keys h videoBlob answer s
  = Some (filename, zip) ->
  zip_library h' = true ->
  exists s',
    importProject_zip parseFloat h' zip currentTime s0 = Normal s'
    /\ syncOffset s' == syncOffset s
    /\ timestamps s' = timestamps s
    /\ length (timestamps s') = length (timestamps s)
    /\ (forall i t, timestamps s !! i = Some t ->
          exists t', timestamps s' !! i = Some t'
                     /\ time t' = time t /\ label t' = label t
                     /\ eventType t' = eventType t /\ notes t' = notes t)
    /\ notesInput_value s' = notesInput_value s
    /\ exists exported,
         project_json zip = Some (Encoded exported)
         /\ pd_sampleRate exported = Some SAMPLE_RATE_HZ
         /\ pd_sampleRate (currentProject h' s') = pd_sampleRate exported.
Proof.
  intros Hexport Hlib. unfold exportProject in Hexport.
  destruct (zip_library h); [|discriminate Hexport]. simpl negb in Hexport.
  cbv iota zeta in Hexport.
  destruct (String.length answer =? 0)%nat; [discriminate Hexport|].
  injection Hexport as _ <-.
  match goal with
  | |- context [importProject_zip _ _ ?z _ _] =>
      destruct (importProject_zip_metadata parseFloat h' z currentTime _ s0 Hlib eq_refl)
        as (s' & Himport & Hoff & Hts & Hnotes)
  end.
  exists s'. split; [exact Himport|].
  simpl in Hoff, Hts, Hnotes.
  split; [rewrite Hoff; apply or_zero_eq|].
  split; [exact Hts|]. split; [rewrite Hts; reflexivity|].
  split.
  { intros i t Hi. exists t. rewrite Hts. repeat split. exact Hi. }
  split; [exact Hnotes|].
  eexists. split; [reflexivity|]. split; reflexivity.
Qed.

Lemma export_import_round_trip_example :
  exists s',
    importProject_zip parseFloat_decimal host0
      {| project_json :=
           Some (Encoded
                   {| pd_syncOffset := Some 4.2;
                      pd_timestamps := Some two_events;
                      pd_sampleRate := Some SAMPLE_RATE_HZ;
                      pd_createdAt := Some "2024-05-01T10:00:00.000Z";
                      pd_notes := Some "trial 3";
                      pd_videoFileName := Some "video_from_project.mp4";
                      pd_csvFileName := None |});
         video_folder := [("video/video_from_project.mp4",
                           {| blob_type := "video/mp4"; blob_size := 2048 |})];
         data_folder := [] |}
      0 initial = Normal s'
    /\ syncOffset s' == 4.2
    /\ timestamps s' = two_events
    /\ notesInput_value s' = "trial 3".
Proof.
  destruct (export_import_round_trip
              (fun _ => "0") (fun _ => []) parseFloat_decimal host0 host0
              (Some {| blob_type := "video/mp4"; blob_size := 2048 |})
              "trial3" 0
              (set_csv None []
                 (set_notesInput_value "trial 3"
                    (set_syncOffset 4.2 (set_timestamps two_events initial))))
              initial "trial3.zip"
              {| project_json :=
                   Some (Encoded
                           {| pd_syncOffset := Some 4.2;
                              pd_timestamps := Some two_events;
                              pd_sampleRate := Some SAMPLE_RATE_HZ;
                              pd_createdAt := Some "2024-05-01T10:00:00.000Z";
                              pd_notes := Some "trial 3";
                              pd_videoFileName := Some "video_from_project.mp4";
                              pd_csvFileName := None |});
                 video_folder := [("video/video_from_project.mp4",
                                   {| blob_type := "video/mp4"; blob_size := 2048 |})];
                 data_folder := [] |})
    as (s' & H1 & H2 & H3 & _ & _ & H4 & _).
  - vm_compute. reflexivity.
  - reflexivity.
  - exists s'. repeat split; assumption.
Defined.

(** ** CSV parsing *)

Section ParsingFacts.

Variable parseFloat : string -> jsnum.

(** In a run of assignments [row[h] = g j], the last one for a name is
    the one that the object keeps. *)
Lemma last_assignment_wins (g : nat -> Q) (pairs : list (nat * string))
    (init : Row) (p j : nat) (h : string) :
  pairs !! p = Some (j, h) ->
  (forall p' j', (p < p')%nat -> pairs !! p' <> Some (j', h)) ->
  foldl (fun (row : Row) (hj : nat * string) => <[hj.2 := g hj.1]> row)
        init pairs !! h
  = Some (g j).
Proof.
  revert p. induction pairs as [|x pairs IH] using rev_ind; intros p Hp Hlater.
  - discriminate Hp.
  - rewrite foldl_snoc.
    apply lookup_snoc_Some in Hp as [[Hlt Hp]|[-> ->]].
    + assert (Hx : x.2 <> h).
      { intros Hx. apply (Hlater (length pairs) x.1 Hlt).
        rewrite list_lookup_middle by reflexivity.
        destruct x as [j' h']. simpl in Hx. subst h'. reflexivity. }
      rewrite lookup_insert_ne by exact Hx.
      apply (IH p Hp). intros p' j' Hlt' Hp'.
      apply (Hlater p' j' Hlt'). apply lookup_app_l_Some. exact Hp'.
    + simpl. apply lookup_insert_eq.
Qed.

Lemma parseRow_field (headers : list string) (line : string) (j : nat)
    (h : string) :
  headers !! j = Some h ->
  (forall j', (j < j')%nat -> headers !! j' <> Some h) ->
  parseRow parseFloat headers line !! h
  = Some (finite_or_zero (parseFloat_at parseFloat (split "," line) j)).
Proof.
  intros Hj Hlater. unfold parseRow.
  apply (last_assignment_wins
           (fun j => finite_or_zero (parseFloat_at parseFloat (split "," line) j))
           (imap pair headers) ∅ j j h).
  - rewrite list_lookup_imap, Hj. reflexivity.
  - intros p' j' Hlt Hp'. rewrite list_lookup_imap in Hp'.
    destruct (headers !! p') as [h'|] eqn:E; [|discriminate Hp'].
    injection Hp' as _ ->. exact (Hlater p' Hlt E).
Qed.

Lemma parseRows_map (headers : list string) (lines : list string) :
  Forall (fun l => non_blank l = true) lines ->
  parseRows parseFloat headers lines = map (parseRow parseFloat headers) lines.
Proof.
  induction 1 as [|line lines Hline _ IH]; [reflexivity|].
  unfold parseRows in *. simpl. rewrite Hline, IH. reflexivity.
Qed.

Lemma filter_non_blank (lines : list string) :
  Forall (fun l => non_blank l = true) (List.filter non_blank lines).
Proof.
  apply Forall_forall. intros l Hl. apply list_elem_of_In in Hl.
  apply filter_In in Hl. tauto.
Qed.

(** C8.  Parsing a CSV text.  Every non-blank line after the header
    becomes one sample, in order, whatever its fields are.  In that sample
    the property named by a header column (the last column of that name,
    if the name is repeated) holds the number that the field under the
    column parses to, and 0 when the field does not parse to a finite
    number.  The time axis has one entry per sample, the entry [i] being
    [i / SAMPLE_RATE_HZ]. *)
Theorem parse_keeps_every_row (text : string) :
  match parseCsv parseFloat text with
  | None => List.filter non_blank (split_lines text) = []
  | Some (rows, times) =>
      exists header data,
        List.filter non_blank (split_lines text) = header :: data
        /\ length rows = length data
        /\ (forall i line j h,
              data !! i = Some line ->
              map trim (split "," header) !! j = Some h ->
              (forall j', (j < j')%nat ->
                          map trim (split "," header) !! j' <> Some h) ->
              exists row,
                rows !! i = Some row
                /\ row !! h
                   = Some (finite_or_zero
                             (parseFloat_at parseFloat (split "," line) j))
                /\ (Number_isFinite (parseFloat_at parseFloat (split "," line) j)
                    = false ->
                    row !! h = Some 0))
        /\ length times = length rows
        /\ (forall i, (i < length rows)%nat ->
              times !! i = Some (inject_Z (Z.of_nat i) / SAMPLE_RATE_HZ))
  end.
Proof.
  unfold parseCsv.
  pose proof (filter_non_blank (split_lines text)) as Hall.
  destruct (List.filter non_blank (split_lines text)) as [|header data];
    [reflexivity|].
  apply Forall_cons in Hall as [_ Hdata].
  rewrite (parseRows_map _ data Hdata).
  exists header, data. split; [reflexivity|].
  split; [apply length_map|].
  split; [|split].
  - intros i line j h Hi Hj Hlater.
    exists (parseRow parseFloat (map trim (split "," header)) line).
    split; [rewrite list_lookup_fmap, Hi; reflexivity|].
    pose proof (parseRow_field _ line j h Hj Hlater) as Hfield.
    split; [exact Hfield|].
    intros Hnan. rewrite Hfield.
    destruct (parseFloat_at parseFloat (split "," line) j);
      [discriminate Hnan|reflexivity..].
  - unfold timeAxis. apply length_imap.
  - intros i Hi. unfold timeAxis. rewrite list_lookup_imap.
    destruct (lookup_lt_is_Some_2 _ i Hi) as [row ->]. reflexivity.
Qed.

End ParsingFacts.

Lemma parse_keeps_every_row_example :
  exists rows times row,
    parseCsv parseFloat_decimal csv0 = Some (rows, times)
    /\ length rows = 3%nat
    /\ rows !! 1%nat = Some row
    /\ row !! "ax" = Some 0
    /\ times !! 1%nat = Some (inject_Z 1 / SAMPLE_RATE_HZ).
Proof.
  pose proof (parse_keeps_every_row parseFloat_decimal csv0) as H.
  destruct (parseCsv parseFloat_decimal csv0) as [[rows times]|] eqn:E;
    [|discriminate H].
  destruct H as (header & data & Hlines & Hlen & Hrow & Htimes & Hat).
  injection Hlines as <- <-.
  destruct (Hrow 1%nat _ 0%nat "ax" eq_refl eq_refl) as (row & Hr & _ & Hzero).
  { intros j' Hj'. destruct j' as [|[|[|j']]]; [lia|discriminate..]. }
  exists rows, times, row. split; [reflexivity|].
  split; [exact Hlen|]. split; [exact Hr|].
  split; [apply Hzero; reflexivity|].
  apply (Hat 1%nat). rewrite Hlen. simpl. lia.
Defined.

(** * Properties of the rest of the page *)

(** ** The stored project *)

Lemma loadProjectFromLocal_stored (t : Q) (s : State) (key : string)
    (projectData : ProjectData) :
  getProjectStorageKey s = Some key ->
  localStorage s !! key = Some projectData ->
  let s' := loadProjectFromLocal t s in
  syncOffset s' = default 0 (pd_syncOffset projectData)
  /\ timestamps s' = default [] (pd_timestamps projectData)
  /\ notesInput_value s' = or_empty (pd_notes projectData).
Proof.
  intros Hkey Hget. unfold loadProjectFromLocal. rewrite Hkey, Hget.
  match goal with
  | |- context [if no_samples ?s0 then _ else _] =>
      destruct (no_samples s0);
      [repeat split|
       destruct (updateChartsForVideoTime_metadata (or_zero t) s0) as (-> & -> & ->);
       repeat split]
  end.
Qed.

Lemma loadProjectFromLocal_reads_only (t : Q) (s : State) :
  let s' := loadProjectFromLocal t s in
  localStorage s' = localStorage s
  /\ currentVideoFileInfo s' = currentVideoFileInfo s
  /\ videoMarkedTime s' = videoMarkedTime s
  /\ dataMarkedTime s' = dataMarkedTime s
  /\ setSyncBtn_disabled s' = setSyncBtn_disabled s
  /\ csvData s' = csvData s
  /\ csvTimesSeconds s' = csvTimesSeconds s.
Proof.
  unfold loadProjectFromLocal.
  destruct (getProjectStorageKey s); [|repeat split].
  destruct (localStorage s !! _); [|repeat split].
  match goal with
  | |- context [if no_samples ?s0 then _ else _] =>
      destruct (no_samples s0); [repeat split|]
  end.
  unfold updateChartsForVideoTime.
  match goal with
  | |- context [if no_samples ?s0 then _ else _] =>
      destruct (no_samples s0); [repeat split|]
  end.
  match goal with
  | |- context [if no_charts ?s0 then _ else _] =>
      destruct (no_charts s0); repeat split
  end.
Qed.

(** X1.  What [saveProjectToLocal] stores, [loadProjectFromLocal] brings
    back: after a successful save, on any page that knows the same video
    file and holds that storage, the load sets the sync offset, the
    timestamps and the notes to the saved ones. *)
Theorem load_after_save (h : Host) (t : Q) (s saved later : State) :
  storage_has_room h = true ->
  is_Some (currentVideoFileInfo s) ->
  saveProjectToLocal h None s = Normal saved ->
  currentVideoFileInfo later = currentVideoFileInfo s ->
  localStorage later = localStorage saved ->
  syncOffset (loadProjectFromLocal t later) = syncOffset s
  /\ timestamps (loadProjectFromLocal t later) = timestamps s
  /\ notesInput_value (loadProjectFromLocal t later) = notesInput_value s.
Proof.
  intros Hroom [info Hinfo] Hsave Hsame Hstore.
  unfold saveProjectToLocal, getProjectStorageKey, localStorage_setItem in Hsave.
  rewrite Hinfo, Hroom in Hsave. injection Hsave as <-.
  apply (loadProjectFromLocal_stored t later
           ("project_" +:+ name info +:+ "_" +:+ String_of_size (size info))
           (currentProject h s)).
  - unfold getProjectStorageKey. rewrite Hsame, Hinfo. reflexivity.
  - rewrite Hstore. apply lookup_insert_eq.
Qed.

Lemma load_after_save_example :
  syncOffset (loadProjectFromLocal 0
                (set_syncOffset 0
                   (set_timestamps []
                      (state_after (saveProjectToLocal host0 None annotated)
                                   annotated))))
  = 4.2
  /\ timestamps (loadProjectFromLocal 0
                   (set_syncOffset 0
                      (set_timestamps []
                         (state_after (saveProjectToLocal host0 None annotated)
                                      annotated))))
     = two_events.
Proof.
  destruct (load_after_save host0 0 annotated
              (state_after (saveProjectToLocal host0 None annotated) annotated)
              (set_syncOffset 0
                 (set_timestamps []
                    (state_after (saveProjectToLocal host0 None annotated)
                                 annotated))))
    as (H1 & H2 & _).
  - reflexivity.
  - eexists. reflexivity.
  - reflexivity.
  - reflexivity.
  - reflexivity.
  - split; [exact H1|exact H2].
Defined.

(** X2.  [loadProjectFromLocal] only reads the storage: it never changes the
    storage, the known video file, the marks, the "apply" button or the
    samples; and when no video file is known, or nothing is stored for it,
    it changes nothing at all. *)
Theorem load_without_stored_project (t : Q) (s : State) :
  (localStorage (loadProjectFromLocal t s) = localStorage s
   /\ currentVideoFileInfo (loadProjectFromLocal t s) = currentVideoFileInfo s
   /\ videoMarkedTime (loadProjectFromLocal t s) = videoMarkedTime s
   /\ dataMarkedTime (loadProjectFromLocal t s) = dataMarkedTime s
   /\ setSyncBtn_disabled (loadProjectFromLocal t s) = setSyncBtn_disabled s
   /\ csvData (loadProjectFromLocal t s) = csvData s
   /\ csvTimesSeconds (loadProjectFromLocal t s) = csvTimesSeconds s)
  /\ (currentVideoFileInfo s = None -> loadProjectFromLocal t s = s)
  /\ (forall key, getProjectStorageKey s = Some key ->
                  localStorage s !! key = None ->
                  loadProjectFromLocal t s = s).
Proof.
  split; [apply loadProjectFromLocal_reads_only|]. split.
  - intros H. unfold loadProjectFromLocal, getProjectStorageKey. rewrite H.
    reflexivity.
  - intros key Hkey Hnone. unfold loadProjectFromLocal. rewrite Hkey, Hnone.
    reflexivity.
Qed.

Lemma load_without_stored_project_example :
  loadProjectFromLocal 3 initial = initial
  /\ loadProjectFromLocal 3 annotated = annotated.
Proof.
  destruct (load_without_stored_project 3 initial) as (_ & H1 & _).
  destruct (load_without_stored_project 3 annotated) as (_ & _ & H2).
  split; [apply H1; reflexivity|].
  apply (H2 "project_run.mp4_2048"); reflexivity.
Defined.

Lemma digits_without_underscore (d : Decimal.uint) :
  ~ occurs "_" (NilEmpty.string_of_uint d).
Proof.
  induction d; simpl; intros H; try exact H;
    destruct H as [H|H]; try discriminate H; auto.
Qed.

Lemma size_without_underscore (n : N) : ~ occurs "_" (String_of_size n).
Proof.
  unfold String_of_size, NilZero.string_of_uint.
  destruct (N.to_uint n) eqn:E; try apply digits_without_underscore.
  simpl. intros [H|H]; [discriminate H|exact H].
Qed.

Lemma String_of_size_inj (n m : N) : String_of_size n = String_of_size m -> n = m.
Proof.
  unfold String_of_size. intros H.
  assert (Hnil : forall k, N.to_uint k <> Decimal.Nil).
  { intros [|p]; [discriminate|]. apply DecimalPos.Unsigned.to_uint_nonnil. }
  apply DecimalN.Unsigned.to_uint_inj.
  pose proof (NilZero.usu _ (Hnil n)) as Hn.
  pose proof (NilZero.usu _ (Hnil m)) as Hm.
  rewrite H in Hn. rewrite Hn in Hm. injection Hm as Hm. exact Hm.
Qed.

Lemma occurs_after (c : ascii) (a rest : string) :
  occurs c (a +:+ String c rest).
Proof.
  induction a as [|x a IH].
  - left. reflexivity.
  - right. exact IH.
Qed.

(** A name, an underscore and a text without underscore: the last
    underscore tells where the name ends. *)
Lemma name_and_size_split (a b d e : string) :
  ~ occurs "_" d -> ~ occurs "_" e ->
  a +:+ String "_" d = b +:+ String "_" e ->
  a = b /\ d = e.
Proof.
  intros Hd He. revert b. induction a as [|c a IH]; intros [|c' b] H.
  - injection H as H. split; [reflexivity|exact H].
  - change (String "_" d = String c' (b +:+ String "_" e)) in H.
    injection H as _ Hrest. exfalso. apply Hd. rewrite Hrest. apply occurs_after.
  - change (String c (a +:+ String "_" d) = String "_" e) in H.
    injection H as _ Hrest. exfalso. apply He. rewrite <- Hrest. apply occurs_after.
  - change (String c (a +:+ String "_" d) = String c' (b +:+ String "_" e)) in H.
    injection H as -> Hrest. destruct (IH b Hrest) as [-> ->]. split; reflexivity.
Qed.

(** X3.  The storage key tells the video file apart by name and size: two
    pages have the same key only if they know a file of the same name and
    the same size (or both know none). *)
Theorem storage_key_identifies_file (s1 s2 : State) :
  getProjectStorageKey s1 = getProjectStorageKey s2 ->
  currentVideoFileInfo s1 = currentVideoFileInfo s2.
Proof.
  unfold getProjectStorageKey.
  destruct (currentVideoFileInfo s1) as [[n1 z1]|],
           (currentVideoFileInfo s2) as [[n2 z2]|]; simpl;
    intros H; try discriminate H; [|reflexivity].
  injection H as H.
  assert (H' : n1 +:+ String "_" (String_of_size z1)
               = n2 +:+ String "_" (String_of_size z2)) by exact H.
  destruct (name_and_size_split _ _ _ _ (size_without_underscore z1)
              (size_without_underscore z2) H') as [-> Hz].
  apply String_of_size_inj in Hz. subst. reflexivity.
Qed.

Lemma storage_key_identifies_file_example :
  currentVideoFileInfo annotated = currentVideoFileInfo loaded.
Proof.
  apply (storage_key_identifies_file annotated loaded). reflexivity.
Defined.

(** ** Reset *)

Lemma clearAll_eq (s : State) :
  clearAll s
  = mkState ∅ None [] 0 None None (lastImuUpdateTime s) [] (currentVideoFileInfo s)
      (currentMode s) false 0%Z None true true "" (imuPanel_displayed s)
      (marker_left s) (Some 0) (localStorage s) (console s).
Proof.
  destruct s as [? ? ? ? ? ? ? ? ? ? running ? ? ? ? ? ? ? ? ? ?].
  destruct running; reflexivity.
Qed.

Lemma clearAll_fields (s : State) :
  localStorage (clearAll s) = localStorage s
  /\ currentVideoFileInfo (clearAll s) = currentVideoFileInfo s
  /\ syncOffset (clearAll s) = 0
  /\ timestamps (clearAll s) = []
  /\ notesInput_value (clearAll s) = ""
  /\ videoMarkedTime (clearAll s) = None
  /\ dataMarkedTime (clearAll s) = None
  /\ csvData (clearAll s) = None
  /\ csvTimesSeconds (clearAll s) = []
  /\ setSyncBtn_disabled (clearAll s) = true
  /\ isRunning (clearAll s) = false.
Proof.
  rewrite clearAll_eq. repeat split.
Qed.

(** X4.  [clearAll] empties the page but not the storage: it returns the
    synchronisation to IDLE with offset 0, drops samples, timestamps and
    notes, and is idempotent; a project saved before it is brought back in
    full when the same video file is loaded again. *)
Theorem clear_keeps_stored_project (h : Host) (file : FileInfo) (t : Q)
    (s saved : State) :
  storage_has_room h = true ->
  currentVideoFileInfo s = Some file ->
  (String.length (name file) =? 0)%nat = false ->
  saveProjectToLocal h None s = Normal saved ->
  phase (clearAll saved) = IDLE
  /\ syncOffset (clearAll saved) = 0
  /\ timestamps (clearAll saved) = []
  /\ notesInput_value (clearAll saved) = ""
  /\ no_samples (clearAll saved) = true
  /\ clearAll (clearAll saved) = clearAll saved
  /\ syncOffset (video_onloadedmetadata file t (clearAll saved)) = syncOffset s
  /\ timestamps (video_onloadedmetadata file t (clearAll saved)) = timestamps s
  /\ notesInput_value (video_onloadedmetadata file t (clearAll saved))
     = notesInput_value s.
Proof.
  intros Hroom Hinfo Hname Hsave.
  destruct (clearAll_fields saved)
    as (Hstore & Hfile & Hoff & Hts & Hnotes & Hv & Hd & Hcsv & _).
  split; [unfold phase; rewrite Hv, Hd; reflexivity|].
  split; [exact Hoff|]. split; [exact Hts|]. split; [exact Hnotes|].
  split; [unfold no_samples; rewrite Hcsv; reflexivity|].
  split.
  { rewrite !clearAll_eq. reflexivity. }
  assert (Hls : localStorage saved
                = <["project_" +:+ name file +:+ "_" +:+ String_of_size (size file)
                    := currentProject h s]> (localStorage s)).
  { unfold saveProjectToLocal, getProjectStorageKey, localStorage_setItem in Hsave.
    rewrite Hinfo, Hroom in Hsave. injection Hsave as <-. reflexivity. }
  unfold video_onloadedmetadata, setCurrentVideoFileInfo. rewrite Hname.
  apply (loadProjectFromLocal_stored t _
           ("project_" +:+ name file +:+ "_" +:+ String_of_size (size file))
           (currentProject h s)).
  - reflexivity.
  - change (localStorage (clearAll saved)
            !! ("project_" +:+ name file +:+ "_" +:+ String_of_size (size file))
            = Some (currentProject h s)).
    rewrite Hstore, Hls. apply lookup_insert_eq.
Qed.

Lemma clear_keeps_stored_project_example :
  timestamps (clearAll (state_after (saveProjectToLocal host0 None annotated)
                                    annotated)) = []
  /\ timestamps
       (video_onloadedmetadata {| name := "run.mp4"; size := 2048 |} 0
          (clearAll (state_after (saveProjectToLocal host0 None annotated)
                                 annotated)))
     = two_events.
Proof.
  destruct (clear_keeps_stored_project host0 {| name := "run.mp4"; size := 2048 |}
              0 annotated
              (state_after (saveProjectToLocal host0 None annotated) annotated))
    as (_ & _ & H1 & _ & _ & _ & _ & H2 & _); try reflexivity.
  split; [exact H1|exact H2].
Defined.

(** ** Adding a timestamp *)

(** X5.  "Add timestamp" appends one annotation at the end: at the current
    video time, labelled with the trimmed label or, if that is empty, with
    the formatted time, carrying the trimmed notes.  It empties the notes
    field before it saves, so the stored project has the new sequence and
    empty notes.  Deleting the index of the new annotation gives the
    sequence back as it was. *)
Theorem add_timestamp_appends (h h' : Host) (t : Q)
    (labelInput eventTypeValue : string) (s : State) :
  exists s1 ts,
    addTimestampBtn_click h t labelInput eventTypeValue s = Normal s1
    /\ timestamps s1 = timestamps s ++ [ts]
    /\ time ts == t
    /\ (String.length (trim labelInput) <> 0%nat -> label ts = trim labelInput)
    /\ (String.length (trim labelInput) = 0%nat -> label ts = formatTime (time ts))
    /\ notes ts = trim (notesInput_value s)
    /\ notesInput_value s1 = ""
    /\ (forall key, getProjectStorageKey s = Some key ->
                    storage_has_room h = true ->
                    exists stored,
                      localStorage s1 !! key = Some stored
                      /\ pd_timestamps stored = Some (timestamps s ++ [ts])
                      /\ pd_notes stored = Some "")
    /\ exists s2,
         deleteTimestamp h' (Z.of_nat (length (timestamps s))) s1 = Normal s2
         /\ timestamps s2 = timestamps s.
Proof.
  unfold addTimestampBtn_click.
  set (ts := {| time := or_zero t;
                label := if (String.length (trim labelInput) =? 0)%nat
                         then formatTime (or_zero t) else trim labelInput;
                eventType := if (String.length eventTypeValue =? 0)%nat
                             then "other" else eventTypeValue;
                notes := if (String.length (notesInput_value s) =? 0)%nat
                         then "" else trim (notesInput_value s) |}).
  set (s0 := set_notesInput_value "" (set_timestamps (timestamps s ++ [ts]) s)).
  destruct (saveProjectToLocal_normal h None s0)
    as (s1 & Hs1 & _ & _ & _ & Hts & Hnotes & _).
  exists s1, ts. split; [exact Hs1|]. split; [exact Hts|].
  split; [apply or_zero_eq|].
  split.
  { intros Hne. unfold ts. simpl.
    destruct (String.length (trim labelInput) =? 0)%nat eqn:E; [|reflexivity].
    apply Nat.eqb_eq in E. contradiction. }
  split.
  { intros He. unfold ts. simpl. rewrite He. reflexivity. }
  split.
  { unfold ts. simpl.
    destruct (String.length (notesInput_value s) =? 0)%nat eqn:E; [|reflexivity].
    apply Nat.eqb_eq in E. destruct (notesInput_value s); [reflexivity|discriminate E]. }
  split; [exact Hnotes|]. split.
  - intros key Hkey Hroom.
    unfold saveProjectToLocal, localStorage_setItem in Hs1.
    change (getProjectStorageKey s0) with (getProjectStorageKey s) in Hs1.
    rewrite Hkey, Hroom in Hs1. injection Hs1 as <-.
    eexists. split; [apply lookup_insert_eq|]. split; reflexivity.
  - unfold deleteTimestamp. rewrite Hts.
    change (timestamps s0) with (timestamps s ++ [ts]).
    replace ((Z.of_nat (length (timestamps s)) <? 0)%Z
             || (Z.of_nat (length (timestamps s ++ [ts]))
                 <=? Z.of_nat (length (timestamps s)))%Z)
      with false.
    2:{ symmetry. apply orb_false_iff. rewrite length_app.
        change (length [ts]) with 1%nat.
        split; [apply Z.ltb_ge|apply Z.leb_gt]; lia. }
    cbv iota zeta.
    match goal with
    | |- exists s2, saveProjectToLocal ?h ?e ?s0 = _ /\ _ =>
        destruct (saveProjectToLocal_normal h e s0)
          as (s2 & -> & _ & _ & _ & Hts2 & _)
    end.
    exists s2. split; [reflexivity|]. rewrite Hts2.
    change (timestamps (set_timestamps ?l _)) with l.
    unfold splice1. rewrite Nat2Z.id, delete_take_drop.
    rewrite take_app_length, drop_ge by (rewrite length_app; simpl; lia).
    apply app_nil_r.
Qed.

Lemma add_timestamp_appends_example :
  exists s1 ts,
    addTimestampBtn_click host0 65.123 "  " "" annotated = Normal s1
    /\ timestamps s1 = two_events ++ [ts]
    /\ label ts = "1:05.12"
    /\ notes ts = "trial 3"
    /\ exists stored, localStorage s1 !! "project_run.mp4_2048" = Some stored
                      /\ pd_notes stored = Some "".
Proof.
  destruct (add_timestamp_appends host0 host0 65.123 "  " "" annotated)
    as (s1 & ts & H1 & H2 & H3 & _ & H5 & H6 & _ & H8 & _).
  exists s1, ts. split; [exact H1|]. split; [exact H2|].
  assert (Hts : ts = {| time := 65.123; label := "1:05.12"; eventType := "other";
                        notes := "trial 3" |}).
  { assert (E : Normal s1
                = Normal (state_after
                            (addTimestampBtn_click host0 65.123 "  " "" annotated)
                            annotated))
      by (rewrite H1; reflexivity).
    injection E as E. rewrite E in H2. vm_compute in H2.
    injection H2 as H2. symmetry. exact H2. }
  split; [rewrite Hts; reflexivity|]. split; [rewrite Hts; reflexivity|].
  destruct (H8 "project_run.mp4_2048" eq_refl eq_refl) as (stored & Hs & _ & Hn).
  exists stored. split; [exact Hs|exact Hn].
Defined.

(** ** The data slider *)

Lemma findIndex_ge_Some (t : Q) (times : list Q) (idx : nat) :
  findIndex_ge t times = Some idx ->
  exists mark, times !! idx = Some mark /\ t <= mark
               /\ forall j earlier, (j < idx)%nat -> times !! j = Some earlier ->
                                    earlier < t.
Proof.
  revert idx. induction times as [|x times IH]; intros idx H; [discriminate H|].
  simpl in H. destruct (Qle_bool t x) eqn:E.
  - injection H as <-. exists x. split; [reflexivity|].
    split; [apply Qle_bool_iff; exact E|]. intros j earlier Hj. lia.
  - destruct (findIndex_ge t times) as [i|] eqn:Ei; [|discriminate H].
    injection H as <-. destruct (IH i eq_refl) as (mark & Hm & Hle & Hbefore).
    exists mark. split; [exact Hm|]. split; [exact Hle|].
    intros [|j] earlier Hj Hearlier.
    + injection Hearlier as <-. apply Qnot_le_lt. intros Hle'.
      apply Qle_bool_iff in Hle'. congruence.
    + apply (Hbefore j); [lia|exact Hearlier].
Qed.

Lemma findIndex_ge_None (t : Q) (times : list Q) :
  findIndex_ge t times = None ->
  forall j x, times !! j = Some x -> x < t.
Proof.
  induction times as [|x times IH]; intros H j y Hj; [discriminate Hj|].
  simpl in H. destruct (Qle_bool t x) eqn:E; [discriminate H|].
  destruct (findIndex_ge t times) eqn:Ei; [discriminate H|].
  destruct j as [|j].
  - injection Hj as <-. apply Qnot_le_lt. intros Hle.
    apply Qle_bool_iff in Hle. congruence.
  - apply (IH eq_refl j). exact Hj.
Qed.

(** X6.  The data slider snaps to the samples.  For a finite slider time on
    a non-empty time axis the data mark becomes a sample time: the first one
    at or after the slider time, or the last one when every sample is
    earlier; the label shows that mark.  A slider value that is not a finite
    number, or an empty time axis, leaves the page as it is. *)
Theorem slider_snaps_to_sample (time : jsnum) (s : State) :
  (csvTimesSeconds s = [] -> dataSliderListener time s = s)
  /\ (Number_isFinite time = false -> dataSliderListener time s = s)
  /\ forall t, time = Fin t -> csvTimesSeconds s <> [] ->
       exists idx mark,
         csvTimesSeconds s !! idx = Some mark
         /\ dataMarkedTime (dataSliderListener time s) = Some mark
         /\ dataTimeDisplay (dataSliderListener time s) = Some mark
         /\ (forall j earlier, (j < idx)%nat ->
               csvTimesSeconds s !! j = Some earlier -> earlier < t)
         /\ (t <= mark \/ S idx = length (csvTimesSeconds s)).
Proof.
  split; [|split].
  - intros H. unfold dataSliderListener. rewrite H. destruct time; reflexivity.
  - intros H. destruct time; [discriminate H|reflexivity..].
  - intros t -> Hne. unfold dataSliderListener.
    destruct (csvTimesSeconds s) as [|x0 rest] eqn:Etimes; [contradiction|].
    rewrite <- Etimes in *.
    replace (length (csvTimesSeconds s) =? 0)%nat with false
      by (rewrite Etimes; reflexivity).
    assert (Hslider : forall idx mark,
              csvTimesSeconds s !! idx = Some mark ->
              let s' := set_dataTimeDisplay (Some mark)
                          (updateChartsForVideoTime (mark + syncOffset
                             (set_dataMarkedTime (Some mark) s))
                             (set_dataMarkedTime (Some mark) s)) in
              dataMarkedTime s' = Some mark /\ dataTimeDisplay s' = Some mark).
    { intros idx mark _. unfold updateChartsForVideoTime.
      destruct (no_samples _); [split; reflexivity|].
      destruct (no_charts _); split; reflexivity. }
    destruct (findIndex_ge t (csvTimesSeconds s)) as [found|] eqn:Efind.
    + destruct (findIndex_ge_Some t _ found Efind) as (mark & Hm & Hle & Hbefore).
      rewrite Nat.max_0_r, Hm.
      destruct (Hslider found mark Hm) as [H1 H2].
      exists found, mark. split; [exact Hm|]. split; [exact H1|].
      split; [exact H2|]. split; [exact Hbefore|]. left. exact Hle.
    + pose proof (findIndex_ge_None t _ Efind) as Hall.
      destruct (lookup_lt_is_Some_2 (csvTimesSeconds s)
                  (length (csvTimesSeconds s) - 1)) as [mark Hm].
      { rewrite Etimes. simpl. lia. }
      rewrite Hm. destruct (Hslider _ mark Hm) as [H1 H2].
      exists (length (csvTimesSeconds s) - 1)%nat, mark.
      split; [exact Hm|]. split; [exact H1|]. split; [exact H2|].
      split; [intros j earlier _ Hj; exact (Hall j earlier Hj)|].
      right. rewrite Etimes. simpl. lia.
Qed.

Lemma slider_snaps_to_sample_example :
  exists idx mark,
    csvTimesSeconds loaded !! idx = Some mark
    /\ dataMarkedTime (dataSliderListener (Fin 0.015) loaded) = Some mark
    /\ 0.015 <= mark.
Proof.
  destruct (slider_snaps_to_sample (Fin 0.015) loaded) as (_ & _ & H).
  destruct (H 0.015 eq_refl) as (idx & mark & H1 & H2 & _ & _ & H5).
  - vm_compute. discriminate.
  - exists idx, mark. split; [exact H1|]. split; [exact H2|].
    destruct H5 as [H5|H5]; [exact H5|].
    assert (idx = 2%nat) by (vm_compute in H5; lia). subst idx.
    vm_compute in H1. injection H1 as <-. vm_compute. discriminate.
Defined.

(** ** More on the render loop *)

(** All the ways through [renderFrame]. *)
Ltac tick_cases f s :=
  unfold renderFrame;
  destruct (isRunning s) eqn:Hrunning; simpl negb; cbv iota;
  [ destruct (readyState f <? 2)%Z eqn:Hready;
    [ | destruct (currentMode s) eqn:Hmode;
        [ | destruct ((Z.rem (frameIndex s + 1) UPLOAD_FRAME_SKIP =? 0)%Z
                      || is_null (lastPose s)) eqn:Hskip ];
        destruct (estimate f) as [pose|] eqn:Hestimate;
        destruct (lastPose s) as [last|] eqn:Hlast;
        cbv zeta iota beta;
        try match goal with
            | |- context [if ?c then _ else _] => destruct c eqn:Hfollow
            end ]
  | ].

Lemma stopTracking_stops (s : State) : isRunning (stopTracking s) = false.
Proof. unfold stopTracking. destruct (isRunning s) eqn:E; [reflexivity|exact E]. Qed.

Lemma run_stopped (frames : list Frame) (s : State) :
  isRunning s = false ->
  run frames s = (s, map (fun _ => []) frames).
Proof.
  intros H. induction frames as [|f rest IH]; [reflexivity|].
  rewrite run_cons. unfold renderFrame. rewrite H. simpl. rewrite IH.
  reflexivity.
Qed.

(** X7.  Ticks without effect.  Once the loop is stopped, no animation frame
    changes the page, draws, runs the detector or asks for another frame;
    and while the video is not ready, a running loop only asks for the next
    frame: [frameIndex] stays, nothing is computed or drawn. *)
Theorem inert_ticks (frames : list Frame) (s : State) :
  run frames (stopTracking s) = (stopTracking s, map (fun _ => []) frames)
  /\ (isRunning s = true ->
      Forall (fun f => (readyState f < 2)%Z) frames ->
      run frames s = (s, map (fun _ => [RequestAnimationFrame]) frames)).
Proof.
  split; [apply run_stopped, stopTracking_stops|].
  intros Hrun Hall. induction Hall as [|f rest Hf _ IH]; [reflexivity|].
  rewrite run_cons. unfold renderFrame. rewrite Hrun.
  replace (readyState f <? 2)%Z with true by (symmetry; apply Z.ltb_lt; exact Hf).
  simpl. rewrite IH. reflexivity.
Qed.

Lemma inert_ticks_example :
  run [ {| readyState := 1; estimate := Some a_pose; now := 50; currentTime := 0 |};
        {| readyState := 0; estimate := Some a_pose; now := 90; currentTime := 0 |} ]
      (handleStart loaded)
  = (handleStart loaded, [[RequestAnimationFrame]; [RequestAnimationFrame]]).
Proof.
  destruct (inert_ticks
              [ {| readyState := 1; estimate := Some a_pose; now := 50;
                   currentTime := 0 |};
                {| readyState := 0; estimate := Some a_pose; now := 90;
                   currentTime := 0 |} ]
              (handleStart loaded)) as [_ H].
  apply H; [reflexivity|]. repeat constructor.
Defined.

(** X8.  A tick of the running loop asks for the next frame exactly once,
    as the last thing it does; a tick of a stopped loop never asks. *)
Theorem tick_reschedules_once (f : Frame) (s : State) :
  length (List.filter is_RequestAnimationFrame (renderFrame f s).2)
  = (if isRunning s then 1 else 0)%nat
  /\ (isRunning s = true -> last (renderFrame f s).2 = Some RequestAnimationFrame).
Proof.
  tick_cases f s; split; try reflexivity; intros H; try reflexivity;
    discriminate H.
Qed.

Lemma tick_reschedules_once_example :
  last (renderFrame (frame_at 40 (Some a_pose)) (handleStart loaded)).2
  = Some RequestAnimationFrame.
Proof.
  destruct (tick_reschedules_once (frame_at 40 (Some a_pose)) (handleStart loaded))
    as [_ H].
  apply H. reflexivity.
Defined.

(** X9.  The charts follow the video only from the render loop in upload
    mode: a tick refreshes them only if the loop is running in upload mode on
    a ready video, samples are loaded, the IMU panel is shown, the tick draws
    a pose and more than the throttle interval has passed; then it refreshes
    them for the current video time.  In particular a tick in live mode, or
    one that has no pose to draw, never refreshes. *)
Theorem refresh_conditions (f : Frame) (s : State) :
  refreshed (renderFrame f s).2 = true ->
  isRunning s = true
  /\ currentMode s = upload
  /\ (2 <= readyState f)%Z
  /\ no_samples s = false
  /\ imuPanel_displayed s = true
  /\ is_Some (drawn (renderFrame f s).2)
  /\ lastImuUpdateTime s + IMU_UPDATE_THROTTLE_MS < now f
  /\ In (UpdateCharts (or_zero (currentTime f))) (renderFrame f s).2
  /\ imuCharts (renderFrame f s).1
     = imuCharts (updateChartsForVideoTime (or_zero (currentTime f)) s).
Proof.
  intros Hrefreshed.
  destruct (renderFrame_throttle f s) as [Hgap _].
  destruct (Hgap Hrefreshed) as [Hlt _]. clear Hgap.
  revert Hrefreshed. tick_cases f s; intros Hrefreshed; try discriminate Hrefreshed.
  all: apply andb_true_iff in Hfollow; destruct Hfollow as [Hfollow _].
  all: apply andb_true_iff in Hfollow; destruct Hfollow as [Hfollow Hpanel].
  all: apply andb_true_iff in Hfollow; destruct Hfollow as [Hm Hcsv].
  all: change (currentMode (set_frame _ _ s)) with (currentMode s) in Hm;
    rewrite Hmode in Hm; try discriminate Hm.
  all: apply negb_true_iff in Hcsv.
  all: split; [reflexivity|]; split; [reflexivity|].
  all: split; [apply Z.ltb_ge; exact Hready|].
  all: split; [exact Hcsv|]; split; [exact Hpanel|].
  all: split; [eexists; reflexivity|]; split; [exact Hlt|].
  all: split; [simpl; tauto|].
  all: unfold updateChartsForVideoTime;
    change (no_samples (set_frame ?i ?p s)) with (no_samples s);
    change (no_charts (set_frame ?i ?p s)) with (no_charts s);
    destruct (no_samples s); [reflexivity|];
    destruct (no_charts s); reflexivity.
Qed.

Lemma refresh_conditions_example :
  lastImuUpdateTime (handleStart loaded) + IMU_UPDATE_THROTTLE_MS < 40
  /\ is_Some (drawn (renderFrame (frame_at 40 (Some a_pose)) (handleStart loaded)).2).
Proof.
  destruct (refresh_conditions (frame_at 40 (Some a_pose)) (handleStart loaded))
    as (_ & _ & _ & _ & _ & H1 & H2 & _).
  - vm_compute. reflexivity.
  - split; [exact H2|exact H1].
Defined.

Lemma renderFrame_live (f : Frame) (s : State) :
  isRunning s = true ->
  currentMode s = live ->
  (2 <= readyState f)%Z ->
  isRunning (renderFrame f s).1 = true
  /\ currentMode (renderFrame f s).1 = live
  /\ frameIndex (renderFrame f s).1 = (frameIndex s + 1)%Z
  /\ lastPose (renderFrame f s).1 = estimate f
  /\ inferred (renderFrame f s).2 = true
  /\ drawn (renderFrame f s).2 = estimate f
  /\ refreshed (renderFrame f s).2 = false
  /\ imuCharts (renderFrame f s).1 = imuCharts s
  /\ lastImuUpdateTime (renderFrame f s).1 = lastImuUpdateTime s.
Proof.
  intros Hrun Hlive Hf. revert Hrun Hlive.
  tick_cases f s; intros Hrun Hlive; try discriminate.
  all: try (apply Z.ltb_lt in Hready; lia).
  all: try (apply andb_true_iff in Hfollow; destruct Hfollow as [Hfollow _];
            apply andb_true_iff in Hfollow; destruct Hfollow as [Hfollow _];
            apply andb_true_iff in Hfollow; destruct Hfollow as [Hm _];
            change (currentMode (set_frame _ _ s)) with (currentMode s) in Hm;
            rewrite Hmode in Hm; discriminate Hm).
  all: repeat split; first [reflexivity | exact Hrunning | exact Hmode].
Qed.

(** X10.  In live mode every tick on a ready video runs the detector, keeps
    and draws exactly the pose it returned (nothing when it returned none),
    and counts one frame; the charts and the throttle time are never
    touched. *)
Theorem live_mode_estimates_every_frame (frames : list Frame) (s : State) :
  isRunning s = true ->
  currentMode s = live ->
  Forall (fun f => (2 <= readyState f)%Z) frames ->
  Forall2 (fun f events =>
             inferred events = true /\ drawn events = estimate f
             /\ refreshed events = false)
          frames (run frames s).2
  /\ frameIndex (run frames s).1 = (frameIndex s + Z.of_nat (length frames))%Z
  /\ lastPose (run frames s).1 = default (lastPose s) (estimate <$> last frames)
  /\ imuCharts (run frames s).1 = imuCharts s
  /\ lastImuUpdateTime (run frames s).1 = lastImuUpdateTime s.
Proof.
  intros Hrun Hlive Hall. revert s Hrun Hlive.
  induction Hall as [|f rest Hf _ IH]; intros s Hrun Hlive.
  - simpl. repeat split; try constructor. lia.
  - destruct (renderFrame_live f s Hrun Hlive Hf)
      as (Hr & Hm & Hi & Hp & H1 & H2 & H3 & Hc & Hl).
    rewrite run_cons. simpl fst. simpl snd.
    destruct (IH _ Hr Hm) as (IH1 & IH2 & IH3 & IH4 & IH5).
    split; [constructor; [repeat split; assumption|exact IH1]|].
    split; [rewrite IH2, Hi; simpl length; lia|].
    split.
    { rewrite IH3, Hp. destruct rest as [|f' rest']; [reflexivity|].
      change (last (f :: f' :: rest')) with (last (f' :: rest')).
      destruct (last (f' :: rest')) eqn:E; [reflexivity|].
      apply last_None in E. discriminate E. }
    split; [rewrite IH4; exact Hc|rewrite IH5; exact Hl].
Qed.

Lemma live_mode_estimates_every_frame_example :
  lastPose (run [frame_at 0 (Some a_pose); frame_at 16 None]
                (handleStart (set_currentMode live loaded))).1 = None
  /\ imuCharts (run [frame_at 0 (Some a_pose); frame_at 16 None]
                    (handleStart (set_currentMode live loaded))).1
     = imuCharts (handleStart (set_currentMode live loaded)).
Proof.
  destruct (live_mode_estimates_every_frame
              [frame_at 0 (Some a_pose); frame_at 16 None]
              (handleStart (set_currentMode live loaded)))
    as (_ & _ & H1 & H2 & _).
  - reflexivity.
  - reflexivity.
  - repeat constructor; discriminate.
  - split; [exact H1|exact H2].
Defined.

(** ** Export *)

Lemma append_cons (c : ascii) (a b : string) :
  String c a +:+ b = String c (a +:+ b).
Proof. reflexivity. Qed.

Lemma length_append (a b : string) :
  String.length (a +:+ b) = (String.length a + String.length b)%nat.
Proof.
  induction a as [|c a IH]; [reflexivity|].
  rewrite append_cons. simpl. rewrite IH. reflexivity.
Qed.

Lemma substring_whole (b : string) : String.substring 0 (String.length b) b = b.
Proof. induction b as [|c b IH]; [reflexivity|]. simpl. rewrite IH. reflexivity. Qed.

Lemma substring_suffix (a b : string) :
  String.substring (String.length a) (String.length b) (a +:+ b) = b.
Proof.
  induction a as [|c a IH]; [apply substring_whole|].
  rewrite append_cons. simpl. exact IH.
Qed.

Lemma toLowerCase_append (a b : string) :
  toLowerCase (a +:+ b) = toLowerCase a +:+ toLowerCase b.
Proof.
  induction a as [|c a IH]; [reflexivity|].
  rewrite append_cons. simpl. rewrite IH. reflexivity.
Qed.

Lemma endsWith_append (a b : string) : endsWith (a +:+ b) b = true.
Proof.
  unfold endsWith. rewrite length_append.
  replace (String.length a + String.length b - String.length b)%nat
    with (String.length a) by lia.
  rewrite substring_suffix, String.eqb_refl.
  apply andb_true_iff. split; [apply Nat.leb_le; lia|reflexivity].
Qed.

(** X11.  [exportProject] gives an archive exactly when JSZip is there and
    the user names the file.  The name of the download then ends in ".zip"
    (in any case of letters), the archive always has a [project.json], it has
    the data file exactly when there is at least one sample, which is also
    when the metadata names a CSV file, and it has the video file exactly
    when the video could be fetched, while the metadata names a video file
    in either case. *)
Theorem export_archive_shape
    (String_of_number : Q -> string) (Object_keys : Row -> list string)
    (h : Host) (videoBlob : option Blob) (answer : string) (s : State) :
  (is_Some (exportProject String_of_number Object_keys h videoBlob answer s)
   <-> zip_library h = true /\ String.length answer <> 0%nat)
  /\ forall filename zip,
       exportProject String_of_number Object_keys h videoBlob answer s
       = Some (filename, zip) ->
       endsWith (toLowerCase filename) ".zip" = true
       /\ exists metadata,
            project_json zip = Some (Encoded metadata)
            /\ pd_videoFileName metadata = Some "video_from_project.mp4"
            /\ (is_Some (pd_csvFileName metadata) <-> data_folder zip <> [])
            /\ (data_folder zip <> [] <->
                exists row rows, csvData s = Some (row :: rows))
            /\ (video_folder zip <> [] <-> is_Some videoBlob)
            /\ (length (data_folder zip) <= 1)%nat
            /\ (length (video_folder zip) <= 1)%nat.
Proof.
  unfold exportProject.
  destruct (zip_library h); simpl negb; cbv iota.
  2:{ split; [split; [intros [x Hx]; discriminate Hx|intros [H _]; discriminate H]|].
      intros filename zip H. discriminate H. }
  cbv zeta.
  destruct (String.length answer =? 0)%nat eqn:Eanswer.
  { apply Nat.eqb_eq in Eanswer.
    split; [split; [intros [x Hx]; discriminate Hx|intros [_ H]; contradiction]|].
    intros filename zip H. discriminate H. }
  apply Nat.eqb_neq in Eanswer.
  split; [split; [intros _; split; [reflexivity|exact Eanswer]|intros _; eexists; reflexivity]|].
  intros filename zip [= <- <-].
  split.
  { destruct (endsWith (toLowerCase answer) ".zip") eqn:E; [exact E|].
    rewrite toLowerCase_append. apply endsWith_append. }
  eexists. split; [reflexivity|]. split; [reflexivity|].
  simpl pd_csvFileName. simpl data_folder. simpl video_folder.
  destruct (csvData s) as [[|row rows]|]; destruct videoBlob as [blob|];
    repeat split; simpl; try lia; try (intros [x Hx]; discriminate Hx);
    try (intros H; contradiction); try (intros _; discriminate);
    try (intros _; eexists; reflexivity); try (intros (? & ? & H); discriminate H);
    try (intros _; do 2 eexists; reflexivity).
Qed.

Lemma export_archive_shape_example :
  exists filename zip,
    exportProject (fun _ => "0") (fun _ => ["ax"; "ay"]) host0 None "Trial" annotated
    = Some (filename, zip)
    /\ endsWith (toLowerCase filename) ".zip" = true
    /\ length (data_folder zip) = 1%nat
    /\ video_folder zip = [].
Proof.
  destruct (export_archive_shape (fun _ => "0") (fun _ => ["ax"; "ay"]) host0 None
              "Trial" annotated) as [[_ Hsome] Hshape].
  destruct Hsome as [[filename zip] Hexport]; [split; [reflexivity|discriminate]|].
  destruct (Hshape filename zip Hexport) as (Hname & _).
  exists filename, zip. split; [exact Hexport|]. split; [exact Hname|].
  vm_compute in Hexport. injection Hexport as <- <-. split; reflexivity.
Defined.

(** ** Import *)

Lemma updateChartsForVideoTime_store (t : Q) (s : State) :
  currentVideoFileInfo (updateChartsForVideoTime t s) = currentVideoFileInfo s
  /\ localStorage (updateChartsForVideoTime t s) = localStorage s
  /\ csvData (updateChartsForVideoTime t s) = csvData s
  /\ csvTimesSeconds (updateChartsForVideoTime t s) = csvTimesSeconds s.
Proof.
  unfold updateChartsForVideoTime.
  destruct (no_samples s); [repeat split|]. destruct (no_charts s); repeat split.
Qed.

Lemma saveProjectToLocal_stores (h : Host) (extra : option ProjectData) (s : State)
    (key : string) :
  getProjectStorageKey s = Some key ->
  storage_has_room h = true ->
  exists s',
    saveProjectToLocal h extra s = Normal s'
    /\ same_metadata s' s
    /\ currentVideoFileInfo s' = currentVideoFileInfo s
    /\ csvData s' = csvData s
    /\ localStorage s' !! key
       = Some (match extra with
               | Some e => Object_assign (currentProject h s) e
               | None => currentProject h s
               end).
Proof.
  intros Hkey Hroom. unfold saveProjectToLocal, localStorage_setItem.
  rewrite Hkey, Hroom. eexists. split; [reflexivity|].
  split; [repeat split|]. split; [reflexivity|]. split; [reflexivity|].
  apply lookup_insert_eq.
Qed.

Lemma setCurrentVideoFileInfo_keeps (file : option FileInfo) (s : State) :
  csvData (setCurrentVideoFileInfo file s) = csvData s
  /\ localStorage (setCurrentVideoFileInfo file s) = localStorage s.
Proof.
  unfold setCurrentVideoFileInfo. destruct file as [f|]; [|split; reflexivity].
  destruct (String.length (name f) =? 0)%nat; split; reflexivity.
Qed.

(** X12.  Importing an archive that has a [project.json] but no CSV file.
    The page takes the offset, the timestamps and the notes of the file, and
    0, no timestamps and empty notes for those the file lacks, whatever it
    held before; the samples stay.  If the archive has a video file, the
    page is keyed to it from then on: its name is the last part of the entry
    name and its size the size of the entry.  The project is stored under
    the key of the page, with the creation date of the file if it has one,
    and a later load from the storage gives the same project again. *)
Theorem import_takes_over_the_page (parseFloat : string -> jsnum) (h : Host)
    (zip : Zip) (t t' : Q) (imported : ProjectData) (s : State) :
  zip_library h = true ->
  storage_has_room h = true ->
  project_json zip = Some (Encoded imported) ->
  List.find (fun entry => endsWith (toLowerCase entry.1) ".csv") (data_folder zip)
  = None ->
  exists s',
    importProject_zip parseFloat h zip t s = Normal s'
    /\ syncOffset s' == default 0 (pd_syncOffset imported)
    /\ timestamps s' = default [] (pd_timestamps imported)
    /\ notesInput_value s' = default "" (pd_notes imported)
    /\ csvData s' = csvData s
    /\ (video_folder zip = [] -> currentVideoFileInfo s' = currentVideoFileInfo s)
    /\ (forall entry_name blob rest,
          video_folder zip = (entry_name, blob) :: rest ->
          exists videoName,
            currentVideoFileInfo s'
            = Some {| name := videoName; size := blob_size blob |}
            /\ String.length videoName <> 0%nat
            /\ (default "" (last (split "/" entry_name)) <> "" ->
                videoName = default "" (last (split "/" entry_name))))
    /\ (forall key, getProjectStorageKey s' = Some key ->
          (exists stored,
             localStorage s' !! key = Some stored
             /\ pd_timestamps stored = Some (timestamps s')
             /\ pd_notes stored = Some (notesInput_value s')
             /\ pd_createdAt stored = Some (default (clock h) (pd_createdAt imported))
             /\ exists offset, pd_syncOffset stored = Some offset
                               /\ offset == syncOffset s')
          /\ syncOffset (loadProjectFromLocal t' s') == syncOffset s'
          /\ timestamps (loadProjectFromLocal t' s') = timestamps s'
          /\ notesInput_value (loadProjectFromLocal t' s') = notesInput_value s').
Proof.
  intros Hlib Hroom Hjson Hnocsv. unfold importProject_zip.
  rewrite Hlib, Hjson, Hnocsv. simpl negb. cbv iota zeta.
  set (s1 := applyMetadata imported s).
  set (s2 := match head (video_folder zip) with
             | Some (entry_name, videoBlob) => _
             | None => s1
             end).
  set (s3 := if no_samples s2 then s2
             else updateChartsForVideoTime (or_zero t) s2).
  assert (H21 : same_metadata s2 s1 /\ csvData s2 = csvData s
                /\ localStorage s2 = localStorage s).
  { subst s2. destruct (head (video_folder zip)) as [[entry_name videoBlob]|].
    - split; [apply setCurrentVideoFileInfo_metadata|].
      match goal with
      | |- csvData (setCurrentVideoFileInfo ?file ?s0) = _ /\ _ =>
          destruct (setCurrentVideoFileInfo_keeps file s0) as [-> ->]
      end.
      split; reflexivity.
    - split; [apply same_metadata_refl|split; reflexivity]. }
  destruct H21 as (Hmeta2 & Hcsv2 & Hls2).
  assert (H32 : same_metadata s3 s2 /\ csvData s3 = csvData s2
                /\ currentVideoFileInfo s3 = currentVideoFileInfo s2).
  { subst s3. destruct (no_samples s2).
    - split; [apply same_metadata_refl|split; reflexivity].
    - split; [apply updateChartsForVideoTime_metadata|].
      destruct (updateChartsForVideoTime_store (or_zero t) s2) as (-> & _ & -> & _).
      split; reflexivity. }
  destruct H32 as (Hmeta3 & Hcsv3 & Hfile3).
  destruct (same_metadata_trans _ _ _ Hmeta3 Hmeta2) as (Hoff & Hts & Hnotes).
  assert (Hfile2 :
            (video_folder zip = [] -> currentVideoFileInfo s2 = currentVideoFileInfo s)
            /\ (forall entry_name blob rest,
                  video_folder zip = (entry_name, blob) :: rest ->
                  exists videoName,
                    currentVideoFileInfo s2
                    = Some {| name := videoName; size := blob_size blob |}
                    /\ String.length videoName <> 0%nat
                    /\ (default "" (last (split "/" entry_name)) <> "" ->
                        videoName = default "" (last (split "/" entry_name))))).
  { subst s2. split.
    - intros ->. reflexivity.
    - intros entry_name blob rest ->.
      change (head ((entry_name, blob) :: rest)) with (Some (entry_name, blob)).
      cbv iota beta.
      set (last_part := default "" (last (split "/" entry_name))).
      destruct (String.length last_part =? 0)%nat eqn:E.
      + exists "video_from_project.mp4". split; [reflexivity|].
        split; [discriminate|]. intros Hne. apply Nat.eqb_eq in E.
        destruct last_part; [contradiction|discriminate E].
      + exists last_part. unfold setCurrentVideoFileInfo.
        change (name {| name := last_part; size := blob_size blob |})
          with last_part.
        rewrite E. split; [reflexivity|].
        split; [apply Nat.eqb_neq; exact E|reflexivity]. }
  destruct Hfile2 as [Hnovideo Hvideo].
  destruct (saveProjectToLocal_normal h (Some imported) s3)
    as (s' & Hs' & Hoff' & _ & _ & Hts' & Hnotes' & Hfile').
  exists s'. split; [exact Hs'|].
  assert (Hoffset : syncOffset s' == default 0 (pd_syncOffset imported)).
  { rewrite Hoff', Hoff. apply or_zero_eq. }
  assert (Htimes : timestamps s' = default [] (pd_timestamps imported))
    by (rewrite Hts', Hts; reflexivity).
  assert (Hn : notesInput_value s' = default "" (pd_notes imported))
    by (rewrite Hnotes', Hnotes; reflexivity).
  split; [exact Hoffset|]. split; [exact Htimes|]. split; [exact Hn|].
  assert (Hkeep : csvData s' = csvData s /\ currentVideoFileInfo s' = currentVideoFileInfo s2).
  { unfold saveProjectToLocal, localStorage_setItem in Hs'.
    destruct (getProjectStorageKey s3); [rewrite Hroom in Hs'|];
      injection Hs' as <-; (split; [simpl; rewrite Hcsv3; exact Hcsv2|exact Hfile3]). }
  destruct Hkeep as [Hcsv' Hfile''].
  split; [exact Hcsv'|].
  split; [intros H; rewrite Hfile''; apply Hnovideo; exact H|].
  split.
  { intros entry_name blob rest H. rewrite Hfile''.
    exact (Hvideo entry_name blob rest H). }
  intros key Hkey.
  assert (Hkey3 : getProjectStorageKey s3 = Some key).
  { unfold getProjectStorageKey in *. rewrite Hfile' in Hkey. exact Hkey. }
  destruct (saveProjectToLocal_stores h (Some imported) s3 key Hkey3 Hroom)
    as (s'' & Hs'' & _ & _ & _ & Hstored).
  rewrite Hs' in Hs''. injection Hs'' as <-.
  assert (Hfields :
            pd_timestamps (Object_assign (currentProject h s3) imported)
            = Some (timestamps s')
            /\ pd_notes (Object_assign (currentProject h s3) imported)
               = Some (notesInput_value s')
            /\ pd_createdAt (Object_assign (currentProject h s3) imported)
               = Some (default (clock h) (pd_createdAt imported))
            /\ exists offset,
                 pd_syncOffset (Object_assign (currentProject h s3) imported)
                 = Some offset
                 /\ offset == syncOffset s').
  { unfold Object_assign, currentProject. simpl.
    rewrite Htimes, Hn, Hts, Hnotes. unfold s1, applyMetadata. simpl.
    split; [destruct (pd_timestamps imported); reflexivity|].
    split; [destruct (pd_notes imported); reflexivity|].
    split; [destruct (pd_createdAt imported); reflexivity|].
    destruct (pd_syncOffset imported) as [q|] eqn:Eq.
    - exists q. split; [reflexivity|]. rewrite Hoffset. reflexivity.
    - exists (syncOffset s3). split; [reflexivity|]. rewrite Hoff', Hoff. reflexivity. }
  destruct Hfields as (F1 & F2 & F3 & offset & F4 & F5).
  split.
  { eexists. split; [exact Hstored|]. split; [exact F1|]. split; [exact F2|].
    split; [exact F3|]. exists offset. split; [exact F4|exact F5]. }
  destruct (loadProjectFromLocal_stored t' s' key _ Hkey Hstored) as (L1 & L2 & L3).
  rewrite L1, L2, L3, F1, F2, F4. simpl.
  split; [exact F5|]. split; reflexivity.
Qed.

Lemma import_takes_over_the_page_example :
  exists s',
    importProject_zip parseFloat_decimal host0
      {| project_json :=
           Some (Encoded
                   {| pd_syncOffset := Some 1.5;
                      pd_timestamps := None;
                      pd_sampleRate := Some 104;
                      pd_createdAt := Some "2023-11-05T08:30:00.000Z";
                      pd_notes := None;
                      pd_videoFileName := Some "video_from_project.mp4";
                      pd_csvFileName := None |});
         video_folder := [("video/clip.webm",
                           {| blob_type := ""; blob_size := 900 |})];
         data_folder := [("readme.txt", "x")] |}
      0 annotated = Normal s'
    /\ timestamps s' = []
    /\ notesInput_value s' = ""
    /\ exists videoName,
         currentVideoFileInfo s' = Some {| name := videoName; size := 900 |}
         /\ videoName = "clip.webm".
Proof.
  destruct (import_takes_over_the_page parseFloat_decimal host0
              {| project_json :=
                   Some (Encoded
                           {| pd_syncOffset := Some 1.5;
                              pd_timestamps := None;
                              pd_sampleRate := Some 104;
                              pd_createdAt := Some "2023-11-05T08:30:00.000Z";
                              pd_notes := None;
                              pd_videoFileName := Some "video_from_project.mp4";
                              pd_csvFileName := None |});
                 video_folder := [("video/clip.webm",
                                   {| blob_type := ""; blob_size := 900 |})];
                 data_folder := [("readme.txt", "x")] |}
              0 0 _ annotated eq_refl eq_refl eq_refl eq_refl)
    as (s' & H1 & _ & H3 & H4 & _ & _ & H7 & _).
  exists s'. split; [exact H1|]. split; [exact H3|]. split; [exact H4|].
  destruct (H7 _ _ _ eq_refl) as (videoName & Hv & _ & Hname).
  exists videoName. split; [exact Hv|]. apply Hname. vm_compute. discriminate.
Defined.

(** ** Loading a CSV file *)

Lemma initImuCharts_creates (h : Host) (s : State) (id : string)
    (keys : list string) :
  chart_library h = true ->
  In (id, keys) sensors ->
  imuCharts (initImuCharts h s) !! id = Some new_Chart.
Proof.
  intros Hlib Hin. unfold initImuCharts. rewrite Hlib. simpl negb. cbv iota.
  unfold sensors in *. simpl in Hin.
  change (imuCharts (set_imuCharts ?m _)) with m. cbn [foldl fst].
  destruct Hin as [H|[H|[H|[]]]]; injection H as <- <-.
  - rewrite !lookup_insert_ne by discriminate. apply lookup_insert_eq.
  - rewrite lookup_insert_ne by discriminate. apply lookup_insert_eq.
  - apply lookup_insert_eq.
Qed.

Lemma fill_chart_new (s : State) (a b : Q) (charts : gmap string Chart)
    (id k0 k1 k2 : string) :
  charts !! id = Some new_Chart ->
  fill_chart s a b charts (id, [k0; k1; k2]) !! id
  = Some {| datasets := [dataPoints s k0; dataPoints s k1; dataPoints s k2];
            scales_x_min := a; scales_x_max := b |}.
Proof.
  intros H. unfold fill_chart. cbn [fst snd]. rewrite H. apply lookup_insert_eq.
Qed.

Lemma fill_new_charts (s : State) (a b : Q) (charts : gmap string Chart)
    (id : string) (keys : list string) :
  (forall id' keys', In (id', keys') sensors -> charts !! id' = Some new_Chart) ->
  In (id, keys) sensors ->
  exists k0 k1 k2,
    keys = [k0; k1; k2]
    /\ foldl (fill_chart s a b) charts sensors !! id
       = Some {| datasets := [dataPoints s k0; dataPoints s k1; dataPoints s k2];
                 scales_x_min := a; scales_x_max := b |}.
Proof.
  intros Hall Hin.
  pose proof (Hall "chartAcc" _ (or_introl eq_refl)) as Hacc.
  pose proof (Hall "chartGyro" _ (or_intror (or_introl eq_refl))) as Hgyro.
  pose proof (Hall "chartMag" _ (or_intror (or_intror (or_introl eq_refl)))) as Hmag.
  unfold sensors in *. simpl in Hin. cbn [foldl].
  destruct Hin as [H|[H|[H|[]]]]; injection H as <- <-;
    do 3 eexists; (split; [reflexivity|]).
  - rewrite !fill_chart_other by discriminate. apply fill_chart_new. exact Hacc.
  - rewrite fill_chart_other by discriminate. apply fill_chart_new.
    rewrite fill_chart_other by discriminate. exact Hgyro.
  - apply fill_chart_new. rewrite !fill_chart_other by discriminate. exact Hmag.
Qed.

Lemma dataPoints_lookup (s : State) (key : string) (rows : list Row) (n : nat)
    (row : Row) :
  csvData s = Some rows ->
  rows !! n = Some row ->
  dataPoints s key !! n
  = Some {| pt_x := csvTimesSeconds s !! n; pt_y := default 0 (row !! key) |}.
Proof.
  intros Hrows Hn. unfold dataPoints. rewrite Hrows. simpl default.
  rewrite list_lookup_imap, Hn. reflexivity.
Qed.

Lemma dataPoints_length (s : State) (key : string) :
  length (dataPoints s key) = length (default [] (csvData s)).
Proof. unfold dataPoints. apply length_imap. Qed.

Lemma parseCsv_timeAxis (parseFloat : string -> jsnum) (text : string)
    (rows : list Row) (times : list Q) :
  parseCsv parseFloat text = Some (rows, times) -> times = timeAxis rows.
Proof.
  unfold parseCsv. destruct (List.filter non_blank (split_lines text));
    [discriminate|]. intros [= <- <-]. reflexivity.
Qed.

(** X13.  Loading a CSV file (with Chart.js present) replaces the samples
    and the time axis by the parsed ones and enables "mark data", but leaves
    the sync offset, both marks and the timestamps as they were.  Each of
    the three charts is created anew and shows the whole recording: the x
    axis from 0 to the last sample time (at least to 5), and in each of its
    three series one point per sample, at the sample's time, with the value
    of the column of that series (0 if the column is missing). *)
Theorem csv_load_fills_charts (parseFloat : string -> jsnum) (h : Host)
    (text : string) (s : State) (rows : list Row) (times : list Q) :
  chart_library h = true ->
  parseCsv parseFloat text = Some (rows, times) ->
  let s' := csvReader_onload parseFloat h text s in
  csvData s' = Some rows
  /\ csvTimesSeconds s' = times
  /\ markDataBtn_disabled s' = false
  /\ syncOffset s' = syncOffset s
  /\ videoMarkedTime s' = videoMarkedTime s
  /\ dataMarkedTime s' = dataMarkedTime s
  /\ timestamps s' = timestamps s
  /\ forall id keys, In (id, keys) sensors ->
       exists chart,
         imuCharts s' !! id = Some chart
         /\ length (datasets chart) = 3%nat
         /\ scales_x_min chart = 0
         /\ scales_x_max chart = Qmax 5 (default 0 (last times))
         /\ forall i key series,
              keys !! i = Some key ->
              datasets chart !! i = Some series ->
              length series = length rows
              /\ forall n row, rows !! n = Some row ->
                   series !! n
                   = Some {| pt_x := times !! n; pt_y := default 0 (row !! key) |}.
Proof.
  intros Hlib Hparse s'. subst s'. unfold csvReader_onload. rewrite Hparse.
  pose proof (parseCsv_timeAxis _ _ _ _ Hparse) as Htimes.
  set (s1 := initImuCharts h
               (set_markDataBtn_disabled false (set_csv (Some rows) times s))).
  assert (Hs1 : csvData s1 = Some rows /\ csvTimesSeconds s1 = times
                /\ markDataBtn_disabled s1 = false
                /\ syncOffset s1 = syncOffset s
                /\ videoMarkedTime s1 = videoMarkedTime s
                /\ dataMarkedTime s1 = dataMarkedTime s
                /\ timestamps s1 = timestamps s).
  { unfold s1, initImuCharts. rewrite Hlib. repeat split. }
  destruct Hs1 as (Hrows & Htm & Hbtn & Hoff & Hv & Hd & Hts).
  assert (Hcharts : forall id keys, In (id, keys) sensors ->
                                    imuCharts s1 !! id = Some new_Chart).
  { intros id keys Hin. exact (initImuCharts_creates h _ id keys Hlib Hin). }
  unfold updateImuChartsFull.
  destruct (no_samples s1) eqn:Hnone.
  - (* no data row *)
    assert (Hempty : rows = []).
    { unfold no_samples in Hnone. rewrite Hrows, Htm in Hnone.
      apply Nat.eqb_eq in Hnone. rewrite Htimes in Hnone.
      unfold timeAxis in Hnone. rewrite length_imap in Hnone.
      destruct rows; [reflexivity|discriminate Hnone]. }
    repeat (split; [assumption|]).
    intros id keys Hin. exists new_Chart. split; [exact (Hcharts id keys Hin)|].
    split; [reflexivity|]. split; [reflexivity|].
    split; [rewrite Htimes, Hempty; reflexivity|].
    intros i key series _ Hseries. rewrite Hempty.
    split.
    + destruct i as [|[|[|i]]]; simpl in Hseries; try discriminate Hseries;
        injection Hseries as <-; reflexivity.
    + intros n row Hn. discriminate Hn.
  - change (csvData (set_imuCharts ?m s1)) with (csvData s1).
    change (csvTimesSeconds (set_imuCharts ?m s1)) with (csvTimesSeconds s1).
    change (markDataBtn_disabled (set_imuCharts ?m s1)) with (markDataBtn_disabled s1).
    change (syncOffset (set_imuCharts ?m s1)) with (syncOffset s1).
    change (videoMarkedTime (set_imuCharts ?m s1)) with (videoMarkedTime s1).
    change (dataMarkedTime (set_imuCharts ?m s1)) with (dataMarkedTime s1).
    change (timestamps (set_imuCharts ?m s1)) with (timestamps s1).
    change (imuCharts (set_imuCharts ?m s1)) with m.
    repeat (split; [assumption|]).
    intros id keys Hin.
    destruct (fill_new_charts s1 0 (Qmax 5 (default 0 (last (csvTimesSeconds s1))))
                (imuCharts s1) id keys Hcharts Hin) as (k0 & k1 & k2 & -> & Hfilled).
    eexists. split; [exact Hfilled|]. split; [reflexivity|]. split; [reflexivity|].
    split; [rewrite Htm; reflexivity|].
    intros i key series Hkey Hseries.
    assert (Hs : series = dataPoints s1 key).
    { destruct i as [|[|[|i]]]; simpl in Hkey, Hseries; try discriminate Hkey;
        injection Hkey as <-; injection Hseries as <-; reflexivity. }
    subst series. split.
    + rewrite dataPoints_length, Hrows. reflexivity.
    + intros n row Hn. rewrite (dataPoints_lookup s1 key rows n row Hrows Hn), Htm.
      reflexivity.
Qed.

Lemma csv_load_fills_charts_example :
  exists chart series,
    imuCharts loaded !! "chartAcc" = Some chart
    /\ scales_x_max chart = Qmax 5 (default 0 (last (csvTimesSeconds loaded)))
    /\ datasets chart !! 1%nat = Some series
    /\ series !! 2%nat = Some {| pt_x := Some (inject_Z 2 / SAMPLE_RATE_HZ); pt_y := 6 |}.
Proof.
  assert (Hparse : parseCsv parseFloat_decimal csv0
                   = Some (default [] (csvData loaded), csvTimesSeconds loaded))
    by (vm_compute; reflexivity).
  destruct (csv_load_fills_charts parseFloat_decimal host0 csv0
              (setCurrentVideoFileInfo (Some {| name := "run.mp4"; size := 2048 |})
                                       initial)
              _ _ eq_refl Hparse) as (_ & _ & _ & _ & _ & _ & _ & H).
  destruct (H "chartAcc" ["ax"; "ay"; "az"] (or_introl eq_refl))
    as (chart & Hc & Hlen & _ & Hmax & Hpoints).
  destruct (datasets chart) as [|d0 [|series rest]] eqn:Ed; try discriminate Hlen.
  exists chart, series. split; [exact Hc|]. split; [exact Hmax|].
  split; [rewrite Ed; reflexivity|].
  destruct (Hpoints 1%nat "ay" series eq_refl eq_refl) as [_ Hp].
  destruct (default [] (csvData loaded) !! 2%nat) as [row|] eqn:Erow;
    [|vm_compute in Erow; discriminate Erow].
  rewrite (Hp 2%nat row Erow).
  vm_compute in Erow. injection Erow as <-. vm_compute. reflexivity.
Defined.

(** X14.  A CSV text without any non-blank line is ignored: the page, the
    earlier samples included, stays as it is.  A text with a header line only
    gives an empty sample list; "mark data" becomes enabled, but with no
    sample it does nothing when clicked, and neither the slider nor the video
    clock moves the charts. *)
Theorem csv_without_samples (parseFloat : string -> jsnum) (h : Host)
    (text : string) (s : State) :
  (List.filter non_blank (split_lines text) = [] ->
   csvReader_onload parseFloat h text s = s)
  /\ forall header,
       List.filter non_blank (split_lines text) = [header] ->
       let s' := csvReader_onload parseFloat h text s in
       csvData s' = Some [] /\ csvTimesSeconds s' = []
       /\ markDataBtn_disabled s' = false
       /\ markDataBtn_click s' = s'
       /\ (forall time, dataSliderListener time s' = s')
       /\ (forall t, videoTimeUpdateListener t s' = s')
       /\ (forall t, updateChartsForVideoTime t s' = s').
Proof.
  split.
  - intros H. unfold csvReader_onload, parseCsv. rewrite H. reflexivity.
  - intros header H s'. subst s'. unfold csvReader_onload, parseCsv. rewrite H.
    cbn [parseRows flat_map timeAxis imap].
    set (s1 := initImuCharts h
                 (set_markDataBtn_disabled false (set_csv (Some []) [] s))).
    assert (Hs1 : csvData s1 = Some [] /\ csvTimesSeconds s1 = []
                  /\ markDataBtn_disabled s1 = false).
    { unfold s1, initImuCharts. destruct (chart_library h); repeat split. }
    destruct Hs1 as (Hrows & Htm & Hbtn).
    assert (Hnone : no_samples s1 = true).
    { unfold no_samples. rewrite Hrows, Htm. reflexivity. }
    unfold updateImuChartsFull. rewrite Hnone.
    split; [exact Hrows|]. split; [exact Htm|]. split; [exact Hbtn|].
    split; [unfold markDataBtn_click; rewrite Hnone; reflexivity|].
    split.
    { intros time. unfold dataSliderListener. rewrite Htm.
      destruct time; reflexivity. }
    split.
    { intros t. unfold videoTimeUpdateListener. rewrite Hnone. reflexivity. }
    intros t. unfold updateChartsForVideoTime. rewrite Hnone. reflexivity.
Qed.

Lemma csv_without_samples_example :
  csvReader_onload parseFloat_decimal host0 (String LF "  ") loaded = loaded
  /\ markDataBtn_click (csvReader_onload parseFloat_decimal host0 "ax,ay" loaded)
     = csvReader_onload parseFloat_decimal host0 "ax,ay" loaded.
Proof.
  destruct (csv_without_samples parseFloat_decimal host0 (String LF "  ") loaded)
    as [H1 _].
  destruct (csv_without_samples parseFloat_decimal host0 "ax,ay" loaded)
    as [_ H2].
  split; [apply H1; reflexivity|].
  destruct (H2 "ax,ay" eq_refl) as (_ & _ & _ & H & _). exact H.
Defined.

(** ** Time format *)






(** ** Drawing the pose *)

Lemma byName_lookup (keypoints : list Keypoint) (n : string) (kp : Keypoint) :
  byName keypoints !! n = Some kp -> In kp keypoints /\ kp_name kp = n.
Proof.
  unfold byName. revert kp. induction keypoints as [|x l IH] using rev_ind; intros kp.
  - simpl. rewrite lookup_empty. discriminate.
  - rewrite foldl_app. simpl.
    destruct (String.length (kp_name x) =? 0)%nat.
    + intros H. destruct (IH _ H) as [Hin Hname].
      split; [apply in_or_app; left; exact Hin|exact Hname].
    + destruct (decide (kp_name x = n)) as [E|E].
      * rewrite E, lookup_insert_eq. intros [= <-].
        split; [apply in_or_app; right; left; reflexivity|exact E].
      * rewrite lookup_insert_ne by exact E. intros H.
        destruct (IH _ H) as [Hin Hname].
        split; [apply in_or_app; left; exact Hin|exact Hname].
Qed.

Lemma Qlt_bool_false (a b : Q) : Qlt_bool a b = false -> b <= a.
Proof.
  unfold Qlt_bool. intros H. apply Qle_bool_iff.
  destruct (Qle_bool b a); [reflexivity|discriminate].
Qed.

Lemma drawKeypoints_solid (keypoints : list Keypoint) (kp : Keypoint) :
  In kp keypoints -> MIN_PART_CONFIDENCE <= kp_score kp ->
  In (kp, true) (drawKeypoints keypoints).
Proof.
  intros Hin Hscore. apply list_elem_of_In. unfold drawKeypoints.
  apply list_elem_of_omap. exists kp. split; [apply list_elem_of_In; exact Hin|].
  assert (H1 : Qlt_bool (kp_score kp) 0.02 = false).
  { unfold Qlt_bool. apply negb_false_iff, Qle_bool_iff.
    eapply Qle_trans; [|exact Hscore]. unfold MIN_PART_CONFIDENCE. lra. }
  rewrite H1. apply Qle_bool_iff in Hscore. rewrite Hscore. reflexivity.
Qed.

Lemma length_omap_le {A B : Type} (f : A -> option B) (l : list A) :
  (length (omap f l) <= length l)%nat.
Proof.
  induction l as [|x l IH]; simpl; [lia|]. unfold omap in IH.
  destruct (f x); simpl; lia.
Qed.

(** X16.  The skeleton.  [drawSkeleton] draws at most one segment per entry
    of the connection table; every segment it draws joins two keypoints of
    the pose whose names are a pair of the table and whose scores are both
    at least 0.2, and [drawKeypoints] draws both ends as solid circles.  A
    circle is drawn exactly for the keypoints of score at least 0.02, and it
    is solid exactly from 0.2 on. *)
Theorem skeleton_joins_confident_keypoints (keypoints : list Keypoint) :
  (length (drawSkeleton keypoints) <= 18)%nat
  /\ (forall kp1 kp2,
        In (kp1, kp2) (drawSkeleton keypoints) ->
        In (kp_name kp1, kp_name kp2) MOVENET_CONNECTED_KEYPOINTS
        /\ In kp1 keypoints /\ In kp2 keypoints
        /\ MIN_PART_CONFIDENCE <= kp_score kp1
        /\ MIN_PART_CONFIDENCE <= kp_score kp2
        /\ In (kp1, true) (drawKeypoints keypoints)
        /\ In (kp2, true) (drawKeypoints keypoints))
  /\ (forall kp solid,
        In (kp, solid) (drawKeypoints keypoints) <->
        In kp keypoints /\ 0.02 <= kp_score kp
        /\ solid = Qle_bool MIN_PART_CONFIDENCE (kp_score kp)).
Proof.
  split; [|split].
  - unfold drawSkeleton.
    etransitivity; [apply length_omap_le|]. simpl. lia.
  - intros kp1 kp2 Hin. apply list_elem_of_In in Hin. unfold drawSkeleton in Hin.
    apply list_elem_of_omap in Hin. destruct Hin as ([a b] & Hab & Hdraw).
    simpl in Hdraw.
    destruct (byName keypoints !! a) as [k1|] eqn:E1; [|discriminate].
    destruct (byName keypoints !! b) as [k2|] eqn:E2; [|discriminate].
    destruct (Qlt_bool (kp_score k1) MIN_PART_CONFIDENCE) eqn:S1; [discriminate|].
    destruct (Qlt_bool (kp_score k2) MIN_PART_CONFIDENCE) eqn:S2; [discriminate|].
    simpl in Hdraw. injection Hdraw as <- <-.
    destruct (byName_lookup _ _ _ E1) as [In1 N1].
    destruct (byName_lookup _ _ _ E2) as [In2 N2].
    apply Qlt_bool_false in S1. apply Qlt_bool_false in S2.
    apply list_elem_of_In in Hab. rewrite N1, N2.
    repeat split; try assumption; apply drawKeypoints_solid; assumption.
  - intros kp solid. unfold drawKeypoints. rewrite <- !list_elem_of_In.
    rewrite list_elem_of_omap. split.
    + intros (x & Hx & Hdraw).
      destruct (Qlt_bool (kp_score x) 0.02) eqn:S; [discriminate|].
      injection Hdraw as <- <-. apply Qlt_bool_false in S.
      repeat split; assumption.
    + intros (Hin & Hscore & ->). exists kp. split; [exact Hin|].
      assert (H1 : Qlt_bool (kp_score kp) 0.02 = false).
      { unfold Qlt_bool. apply negb_false_iff, Qle_bool_iff. exact Hscore. }
      rewrite H1. reflexivity.
Qed.

Lemma skeleton_joins_confident_keypoints_example :
  let nose := {| kp_name := "nose"; kp_x := 10; kp_y := 20; kp_score := 0.9 |} in
  let eye := {| kp_name := "left_eye"; kp_x := 12; kp_y := 18; kp_score := 0.5 |} in
  let ear := {| kp_name := "left_ear"; kp_x := 14; kp_y := 19; kp_score := 0.1 |} in
  drawSkeleton [nose; eye; ear] = [(nose, eye)]
  /\ In (nose, true) (drawKeypoints [nose; eye; ear])
  /\ In (ear, false) (drawKeypoints [nose; eye; ear]).
Proof.
  intros nose eye ear.
  destruct (skeleton_joins_confident_keypoints [nose; eye; ear]) as (_ & H2 & H3).
  split; [vm_compute; reflexivity|].
  split.
  - apply (H2 nose eye). vm_compute. left. reflexivity.
  - apply (H3 ear false). split; [right; right; left; reflexivity|].
    split; [vm_compute; discriminate|reflexivity].
Defined.

(** ** Marks and samples across the handlers *)

Lemma same_marks_trans (a b c : State) :
  same_marks a b -> same_marks b c -> same_marks a c.
Proof. intros (? & ? & ?) (? & ? & ?). repeat split; congruence. Qed.

Lemma same_samples_trans (a b c : State) :
  same_samples a b -> same_samples b c -> same_samples a c.
Proof. intros (? & ?) (? & ?). split; congruence. Qed.

Lemma updateChartsForVideoTime_controls (t : Q) (s : State) :
  same_marks (updateChartsForVideoTime t s) s
  /\ same_samples (updateChartsForVideoTime t s) s.
Proof.
  unfold updateChartsForVideoTime.
  destruct (no_samples s); [repeat split|]. destruct (no_charts s); repeat split.
Qed.

Lemma saveProjectToLocal_controls (h : Host) (extra : option ProjectData) (s : State) :
  same_marks (state_after (saveProjectToLocal h extra s) s) s
  /\ same_samples (state_after (saveProjectToLocal h extra s) s) s.
Proof.
  unfold saveProjectToLocal, localStorage_setItem.
  destruct (getProjectStorageKey s); [|repeat split].
  destruct (storage_has_room h); repeat split.
Qed.

Lemma initImuCharts_controls (h : Host) (s : State) :
  same_marks (initImuCharts h s) s /\ same_samples (initImuCharts h s) s.
Proof. unfold initImuCharts. destruct (chart_library h); repeat split. Qed.

Lemma updateImuChartsFull_controls (s : State) :
  same_marks (updateImuChartsFull s) s /\ same_samples (updateImuChartsFull s) s.
Proof. unfold updateImuChartsFull. destruct (no_samples s); repeat split. Qed.

Lemma setCurrentVideoFileInfo_controls (file : option FileInfo) (s : State) :
  same_marks (setCurrentVideoFileInfo file s) s
  /\ same_samples (setCurrentVideoFileInfo file s) s.
Proof.
  unfold setCurrentVideoFileInfo. destruct file as [f|]; [|repeat split].
  destruct (String.length (name f) =? 0)%nat; repeat split.
Qed.

Lemma loadProjectFromLocal_controls (t : Q) (s : State) :
  same_marks (loadProjectFromLocal t s) s
  /\ same_samples (loadProjectFromLocal t s) s.
Proof.
  destruct (loadProjectFromLocal_reads_only t s) as (_ & _ & ? & ? & ? & ? & ?).
  repeat split; assumption.
Qed.

Lemma refresh_controls (t : Q) (s : State) :
  same_marks (if no_samples s then s else updateChartsForVideoTime t s) s
  /\ same_samples (if no_samples s then s else updateChartsForVideoTime t s) s.
Proof.
  destruct (no_samples s); [repeat split|apply updateChartsForVideoTime_controls].
Qed.

Lemma renderFrame_controls (f : Frame) (s : State) :
  same_marks (renderFrame f s).1 s /\ same_samples (renderFrame f s).1 s.
Proof.
  tick_cases f s; simpl fst; try (repeat split; fail);
    match goal with
    | |- context [updateChartsForVideoTime ?t ?s0] =>
        destruct (updateChartsForVideoTime_controls t s0)
          as ((? & ? & ?) & (? & ?));
        repeat split; assumption
    end.
Qed.

Lemma quiet_step (s' s : State) :
  same_marks s' s /\ same_samples s' s ->
  samples_step s' s /\ data_mark_step s' s /\ apply_button_step s' s.
Proof.
  intros ((Hv & Hd & Hb) & Hs). split; [left; exact Hs|].
  split; [left; exact Hd|]. right. right.
  split; [exact Hb|]. split; [exact Hv|]. rewrite Hd. trivial.
Qed.

Lemma both_controls (a b c : State) :
  same_marks a b /\ same_samples a b ->
  same_marks b c /\ same_samples b c ->
  same_marks a c /\ same_samples a c.
Proof.
  intros [H1 H2] [H3 H4].
  split; [eapply same_marks_trans|eapply same_samples_trans]; eassumption.
Qed.

Lemma video_onloadedmetadata_controls (file : FileInfo) (t : Q) (s : State) :
  same_marks (video_onloadedmetadata file t s) s
  /\ same_samples (video_onloadedmetadata file t s) s.
Proof.
  unfold video_onloadedmetadata.
  eapply both_controls;
    [apply loadProjectFromLocal_controls|apply setCurrentVideoFileInfo_controls].
Qed.

Lemma videoTimeUpdateListener_controls (t : Q) (s : State) :
  same_marks (videoTimeUpdateListener t s) s
  /\ same_samples (videoTimeUpdateListener t s) s.
Proof.
  unfold videoTimeUpdateListener. destruct (no_samples s); [repeat split|].
  destruct (isRunning s); [repeat split|apply updateChartsForVideoTime_controls].
Qed.

Lemma addTimestampBtn_click_controls (h : Host) (t : Q) (labelInput eventTypeValue : string)
    (s : State) :
  let s' := state_after (addTimestampBtn_click h t labelInput eventTypeValue s) s in
  same_marks s' s /\ same_samples s' s.
Proof.
  unfold addTimestampBtn_click. cbv zeta.
  match goal with
  | |- context [saveProjectToLocal h None ?s1] =>
      pose proof (saveProjectToLocal_controls h None s1) as H;
      destruct (saveProjectToLocal_normal h None s1) as (s2 & E & _)
  end.
  rewrite E in *. simpl state_after in *.
  eapply both_controls; [exact H|repeat split].
Qed.

Lemma deleteTimestamp_controls (h : Host) (index : Z) (s : State) :
  let s' := state_after (deleteTimestamp h index s) s in
  same_marks s' s /\ same_samples s' s.
Proof.
  unfold deleteTimestamp. cbv zeta.
  destruct ((index <? 0) || (Z.of_nat (length (timestamps s)) <=? index))%Z;
    [repeat split|].
  match goal with
  | |- context [saveProjectToLocal h None ?s1] =>
      pose proof (saveProjectToLocal_controls h None s1) as H;
      destruct (saveProjectToLocal_normal h None s1) as (s2 & E & _)
  end.
  rewrite E in *. simpl state_after in *.
  eapply both_controls; [exact H|repeat split].
Qed.

Lemma selectTimestamp_controls (index : Z) (s : State) :
  same_marks (selectTimestamp index s).1 s
  /\ same_samples (selectTimestamp index s).1 s.
Proof.
  unfold selectTimestamp. destruct (timestamp_at index s); simpl fst;
    [apply refresh_controls|repeat split].
Qed.

Lemma importProject_json_controls (h : Host) (text : JsonText) (s : State) :
  let s' := state_after (importProject_json h text s) s in
  same_marks s' s /\ same_samples s' s.
Proof.
  unfold importProject_json. cbv zeta. destruct text as [projectData|];
    [|repeat split].
  match goal with
  | |- context [saveProjectToLocal h ?e ?s1] =>
      pose proof (saveProjectToLocal_controls h e s1) as H;
      destruct (saveProjectToLocal_normal h e s1) as (s2 & E & _)
  end.
  rewrite E in *. simpl state_after in *.
  eapply both_controls; [exact H|repeat split].
Qed.

(** After [set_csv], the chart functions leave the marks of the page and the
    new samples. *)
Lemma loaded_samples_step (s1 s' s : State) (rows : list Row) :
  same_marks s' s1 /\ same_samples s' s1 ->
  same_marks s1 s ->
  csvData s1 = Some rows -> csvTimesSeconds s1 = timeAxis rows ->
  samples_step s' s /\ data_mark_step s' s /\ apply_button_step s' s.
Proof.
  intros ((Hv & Hd & Hb) & (Hrows & Htimes)) (Hv1 & Hd1 & Hb1) Hcsv Haxis.
  split; [right; left; exists rows; split; congruence|].
  split; [left; congruence|]. right. right.
  split; [congruence|]. split; [congruence|].
  rewrite Hd, Hd1. trivial.
Qed.

Lemma csvReader_onload_step (parseFloat : string -> jsnum) (h : Host) (text : string)
    (s : State) :
  let s' := csvReader_onload parseFloat h text s in
  samples_step s' s /\ data_mark_step s' s /\ apply_button_step s' s.
Proof.
  unfold csvReader_onload. cbv zeta.
  destruct (parseCsv parseFloat text) as [[rows times]|] eqn:Hparse;
    [|apply quiet_step; repeat split].
  apply parseCsv_timeAxis in Hparse. subst times.
  eapply (loaded_samples_step
            (set_markDataBtn_disabled false (set_csv (Some rows) (timeAxis rows) s)));
    [|repeat split|reflexivity|reflexivity].
  eapply both_controls; [apply updateImuChartsFull_controls|apply initImuCharts_controls].
Qed.

Lemma importProject_zip_step (parseFloat : string -> jsnum) (h : Host) (zip : Zip)
    (t : Q) (s : State) :
  let s' := state_after (importProject_zip parseFloat h zip t s) s in
  samples_step s' s /\ data_mark_step s' s /\ apply_button_step s' s.
Proof.
  unfold importProject_zip. cbv zeta.
  destruct (zip_library h); simpl negb; cbv iota; [|apply quiet_step; repeat split].
  destruct (project_json zip) as [[projectData|]|];
    [|apply quiet_step; repeat split|apply quiet_step; repeat split].
  set (s1 := match head (video_folder zip) with
             | Some (entry_name, videoBlob) => _
             | None => applyMetadata projectData s
             end).
  assert (H1 : same_marks s1 s /\ same_samples s1 s).
  { unfold s1. destruct (head (video_folder zip)) as [[entry_name videoBlob]|];
      [|repeat split].
    eapply both_controls; [apply setCurrentVideoFileInfo_controls|repeat split]. }
  destruct (List.find _ (data_folder zip)) as [[entry text]|].
  - destruct (parseCsv parseFloat text) as [[rows times]|] eqn:Hparse;
      [|apply quiet_step; exact H1].
    apply parseCsv_timeAxis in Hparse. subst times.
    match goal with
    | |- context [saveProjectToLocal h ?e ?s3] =>
        pose proof (saveProjectToLocal_controls h e s3) as H;
        destruct (saveProjectToLocal_normal h e s3) as (s4 & E & _)
    end.
    rewrite E in *. simpl state_after in *.
    eapply (loaded_samples_step (set_csv (Some rows) (timeAxis rows) s1));
      [|destruct H1 as [(? & ? & ?) _]; repeat split; assumption
       |reflexivity|reflexivity].
    eapply both_controls; [exact H|].
    eapply both_controls; [apply refresh_controls|].
    eapply both_controls; [apply updateImuChartsFull_controls|apply initImuCharts_controls].
  - match goal with
    | |- context [saveProjectToLocal h ?e ?s3] =>
        pose proof (saveProjectToLocal_controls h e s3) as H;
        destruct (saveProjectToLocal_normal h e s3) as (s4 & E & _)
    end.
    rewrite E in *. simpl state_after in *.
    apply quiet_step.
    eapply both_controls; [exact H|].
    eapply both_controls; [apply refresh_controls|exact H1].
Qed.

Lemma dataSliderListener_step (time : jsnum) (s : State) :
  let s' := dataSliderListener time s in
  samples_step s' s /\ data_mark_step s' s /\ apply_button_step s' s.
Proof.
  unfold dataSliderListener. cbv zeta.
  destruct time as [time| | |];
    [|apply quiet_step; repeat split|apply quiet_step; repeat split
     |apply quiet_step; repeat split].
  destruct (length (csvTimesSeconds s) =? 0)%nat; [apply quiet_step; repeat split|].
  match goal with
  | |- context [csvTimesSeconds s !! ?i] =>
      destruct (csvTimesSeconds s !! i) as [picked|] eqn:Hpick
  end; [|apply quiet_step; repeat split].
  match goal with
  | |- context [updateChartsForVideoTime ?t ?s0] =>
      destruct (updateChartsForVideoTime_controls t s0)
        as ((Hv & Hd & Hb) & (Hrows & Htimes))
  end.
  split; [left; split; [exact Hrows|exact Htimes]|].
  split; [right; right; right; eexists _, picked; split; [exact Hpick|exact Hd]|].
  right. right. split; [exact Hb|]. split; [exact Hv|].
  intros _. change (is_Some (dataMarkedTime (updateChartsForVideoTime
    (picked + syncOffset (set_dataMarkedTime (Some picked) s))
    (set_dataMarkedTime (Some picked) s)))).
  rewrite Hd. eexists. reflexivity.
Qed.

Lemma markDataBtn_click_step (s : State) :
  let s' := markDataBtn_click s in
  samples_step s' s /\ data_mark_step s' s /\ apply_button_step s' s.
Proof.
  unfold markDataBtn_click. cbv zeta.
  destruct (no_samples s); [apply quiet_step; repeat split|].
  split; [left; destruct (dataMarkedTime s); repeat split|].
  destruct (dataMarkedTime s) eqn:Hd.
  - split; [left; reflexivity|]. right. left. reflexivity.
  - split; [right; right; left; reflexivity|]. right. left. reflexivity.
Qed.

Lemma setSyncBtn_click_step (h : Host) (s : State) :
  let s' := state_after (setSyncBtn_click h s) s in
  samples_step s' s /\ data_mark_step s' s /\ apply_button_step s' s.
Proof.
  unfold setSyncBtn_click. cbv zeta.
  destruct (videoMarkedTime s) as [v|]; [|apply quiet_step; repeat split].
  destruct (dataMarkedTime s) as [d|]; [|apply quiet_step; repeat split].
  match goal with
  | |- context [saveProjectToLocal h ?e ?s3] =>
      destruct (saveProjectToLocal_controls h e s3)
        as ((Hv & Hd & Hb) & (Hrows & Htimes));
      destruct (saveProjectToLocal_normal h e s3) as (s4 & E & _)
  end.
  rewrite E in *. simpl state_after in *.
  split; [left; split; [exact Hrows|exact Htimes]|].
  split; [right; left; exact Hd|]. left. exact Hb.
Qed.

Lemma selectMode_step (mode : Mode) (s : State) :
  let s' := selectMode mode s in
  samples_step s' s /\ data_mark_step s' s /\ apply_button_step s' s.
Proof.
  unfold selectMode, stopTracking. cbv zeta.
  destruct (Mode_eqb mode (currentMode s)); [apply quiet_step; repeat split|].
  destruct mode.
  - split; [left; destruct (isRunning s); repeat split|].
    split; [left; destruct (isRunning s); reflexivity|]. left. reflexivity.
  - apply quiet_step.
    match goal with
    | |- context [if negb (no_samples ?s0) then _ else _] =>
        destruct (no_samples s0)
    end; destruct (isRunning s); repeat split.
Qed.

(** Every event moves the samples, the data mark and the button in one of
    the ways of the three step relations. *)
Lemma handle_step (parseFloat : string -> jsnum) (e : PageEvent) (s : State) :
  let s' := handle parseFloat e s in
  samples_step s' s /\ data_mark_step s' s /\ apply_button_step s' s.
Proof.
  destruct e; simpl handle; cbv zeta.
  - apply quiet_step, video_onloadedmetadata_controls.
  - apply quiet_step, videoTimeUpdateListener_controls.
  - apply csvReader_onload_step.
  - apply dataSliderListener_step.
  - split; [left; repeat split|]. split; [left; reflexivity|].
    right. left. reflexivity.
  - destruct (markDataBtn_disabled s);
      [apply quiet_step; repeat split|apply markDataBtn_click_step].
  - destruct (setSyncBtn_disabled s);
      [apply quiet_step; repeat split|apply setSyncBtn_click_step].
  - apply quiet_step, addTimestampBtn_click_controls.
  - apply quiet_step, deleteTimestamp_controls.
  - apply quiet_step, selectTimestamp_controls.
  - apply quiet_step. repeat split.
  - destruct (clearAll_fields s) as (_ & _ & _ & _ & _ & Hv & Hd & Hrows & Htimes & Hb & _).
    split; [right; right; split; assumption|].
    split; [right; left; exact Hd|]. left. exact Hb.
  - apply selectMode_step.
  - apply quiet_step. unfold handleStart. destruct (isRunning s); repeat split.
  - apply quiet_step. unfold stopTracking. destruct (isRunning s); repeat split.
  - apply quiet_step, renderFrame_controls.
  - apply importProject_zip_step.
  - apply quiet_step, importProject_json_controls.
Qed.

Lemma apply_button_sound_step (s' s : State) :
  apply_button_step s' s ->
  apply_button_sound s = true -> apply_button_sound s' = true.
Proof.
  unfold apply_button_sound, both_marked.
  intros [H|[H|(Hb & Hv & Hd)]] Hs.
  - rewrite H. reflexivity.
  - unfold both_marked in H. rewrite H.
    destruct (videoMarkedTime s'), (dataMarkedTime s'); reflexivity.
  - rewrite Hb, Hv. destruct (setSyncBtn_disabled s); [reflexivity|].
    destruct (videoMarkedTime s); [|discriminate].
    destruct (dataMarkedTime s) as [d|]; [|discriminate].
    destruct Hd as [d' ->]; [eexists; reflexivity|reflexivity].
Qed.

Lemma time_axis_sound_step (s' s : State) :
  samples_step s' s -> time_axis_sound s -> time_axis_sound s'.
Proof.
  unfold time_axis_sound. intros [(H1 & H2)|[(rows & H1 & H2)|(H1 & H2)]] Hs.
  - rewrite H1, H2. exact Hs.
  - rewrite H1, H2. reflexivity.
  - rewrite H1, H2. reflexivity.
Qed.

Lemma timeAxis_lookup (rows : list Row) (i : nat) (t : Q) :
  timeAxis rows !! i = Some t ->
  (i < length rows)%nat /\ t = inject_Z (Z.of_nat i) / SAMPLE_RATE_HZ.
Proof.
  unfold timeAxis. rewrite list_lookup_imap.
  destruct (rows !! i) eqn:E; [|discriminate]. simpl. intros [= <-].
  split; [eapply lookup_lt_Some; exact E|reflexivity].
Qed.

Lemma data_mark_on_grid_step (s' s : State) :
  data_mark_step s' s -> time_axis_sound s ->
  data_mark_on_grid s -> data_mark_on_grid s'.
Proof.
  unfold data_mark_on_grid. intros [H|[H|[H|(i & t & Hi & H)]]] Haxis Hs; rewrite H.
  - exact Hs.
  - exact I.
  - exists 0%nat. reflexivity.
  - rewrite Haxis in Hi. apply timeAxis_lookup in Hi. destruct Hi as [_ ->].
    exists i. reflexivity.
Qed.

Lemma replay_snoc (parseFloat : string -> jsnum) (events : list PageEvent)
    (e : PageEvent) (s : State) :
  replay parseFloat (events ++ [e]) s
  = handle parseFloat e (replay parseFloat events s).
Proof. unfold replay. rewrite foldl_app. reflexivity. Qed.

Lemma replay_apply_button_sound (parseFloat : string -> jsnum)
    (events : list PageEvent) (s : State) :
  apply_button_sound s = true ->
  apply_button_sound (replay parseFloat events s) = true.
Proof.
  intros Hs. induction events as [|e events IH] using rev_ind; [exact Hs|].
  rewrite replay_snoc.
  eapply apply_button_sound_step; [apply handle_step|exact IH].
Qed.

Lemma replay_samples_sound (parseFloat : string -> jsnum)
    (events : list PageEvent) (s : State) :
  time_axis_sound s -> data_mark_on_grid s ->
  time_axis_sound (replay parseFloat events s)
  /\ data_mark_on_grid (replay parseFloat events s).
Proof.
  intros Ha Hg. induction events as [|e events [IHa IHg]] using rev_ind;
    [split; assumption|].
  rewrite replay_snoc.
  destruct (handle_step parseFloat e (replay parseFloat events s)) as (H1 & H2 & _).
  split.
  - eapply time_axis_sound_step; eassumption.
  - eapply data_mark_on_grid_step; eassumption.
Qed.

Lemma started_sound (h : Host) :
  apply_button_sound (started h) = true
  /\ time_axis_sound (started h) /\ data_mark_on_grid (started h).
Proof.
  unfold started, initImuCharts. destruct (chart_library h); repeat split.
Qed.

(** X17.  The "apply" button cannot be clicked in vain.  On a page where the
    button is enabled only with both marks set, which holds when [main] is
    done, it stays so whatever happens: video and CSV loads, slider moves,
    clicks, imports, resets, mode switches and animation frames, in any
    order.  So whenever the button is enabled, a click on it finds both
    marks, sets the offset to their difference, clears them and disables the
    button again. *)
Theorem apply_button_never_idle (parseFloat : string -> jsnum) (h : Host)
    (events : list PageEvent) (s0 : State) :
  apply_button_sound s0 = true ->
  let s := replay parseFloat events s0 in
  apply_button_sound s = true
  /\ (setSyncBtn_disabled s = false ->
      exists v d s',
        videoMarkedTime s = Some v /\ dataMarkedTime s = Some d
        /\ setSyncBtn_click h s = Normal s'
        /\ syncOffset s' = v - d
        /\ phase s' = IDLE
        /\ setSyncBtn_disabled s' = true
        /\ handle parseFloat (ApplyClicked h) s' = s').
Proof.
  intros Hs0 s. pose proof (replay_apply_button_sound parseFloat events s0 Hs0) as Hs.
  fold s in Hs. split; [exact Hs|]. intros Hb.
  unfold apply_button_sound in Hs. rewrite Hb in Hs. simpl in Hs.
  unfold both_marked in Hs.
  destruct (videoMarkedTime s) as [v|] eqn:Hv; [|discriminate].
  destruct (dataMarkedTime s) as [d|] eqn:Hd; [|discriminate].
  unfold setSyncBtn_click. rewrite Hv, Hd.
  match goal with
  | |- context [saveProjectToLocal h None ?s1] =>
      destruct (saveProjectToLocal_normal h None s1)
        as (s' & E & Hoff & Hv' & Hd' & _);
      destruct (saveProjectToLocal_controls h None s1) as ((_ & _ & Hb') & _)
  end.
  rewrite E in Hb'. simpl state_after in Hb'.
  exists v, d, s'. repeat split; try assumption.
  - unfold phase. rewrite Hv', Hd'. reflexivity.
  - simpl handle. rewrite Hb'. reflexivity.
Qed.

Lemma apply_button_never_idle_example :
  let s := replay parseFloat_decimal
             [CsvLoaded host0 csv0; MarkVideoClicked 4; SliderMoved (Fin 1);
              MarkDataClicked; ClearClicked; MarkDataClicked]
             (started host0) in
  apply_button_sound (started host0) = true
  /\ apply_button_sound s = true.
Proof.
  split; [apply started_sound|].
  apply (apply_button_never_idle parseFloat_decimal host0
           [CsvLoaded host0 csv0; MarkVideoClicked 4; SliderMoved (Fin 1);
            MarkDataClicked; ClearClicked; MarkDataClicked]
           (started host0)).
  reflexivity.
Defined.

(** X18.  The time axis belongs to the samples.  On a page where the time
    axis is the one computed from the samples and the data mark is a whole
    number of sample periods, both stay so whatever happens.  So at any
    moment there are as many sample times as samples, sample [i] has the
    time [i / 104], the page counts as having no samples exactly when there
    is no sample, and a data mark is always a multiple of [1 / 104]. *)
Theorem samples_keep_their_time_axis (parseFloat : string -> jsnum)
    (events : list PageEvent) (s0 : State) :
  time_axis_sound s0 ->
  data_mark_on_grid s0 ->
  let s := replay parseFloat events s0 in
  let rows := default [] (csvData s) in
  length (csvTimesSeconds s) = length rows
  /\ (forall i, (i < length rows)%nat ->
        csvTimesSeconds s !! i = Some (inject_Z (Z.of_nat i) / SAMPLE_RATE_HZ))
  /\ (no_samples s = true <-> rows = [])
  /\ (forall d, dataMarkedTime s = Some d ->
        exists k : nat, d == inject_Z (Z.of_nat k) / SAMPLE_RATE_HZ).
Proof.
  intros Ha Hg s rows.
  destruct (replay_samples_sound parseFloat events s0 Ha Hg) as [Haxis Hgrid].
  fold s in Haxis, Hgrid. unfold time_axis_sound in Haxis. fold rows in Haxis.
  split; [rewrite Haxis; unfold timeAxis; apply length_imap|].
  split.
  { intros i Hi. rewrite Haxis. unfold timeAxis. rewrite list_lookup_imap.
    destruct (lookup_lt_is_Some_2 rows i Hi) as [row ->]. reflexivity. }
  split.
  { unfold no_samples. rewrite Haxis. unfold rows.
    destruct (csvData s) as [l|]; simpl; [|split; reflexivity].
    unfold timeAxis. rewrite length_imap.
    destruct l; simpl; split; (reflexivity || discriminate). }
  intros d Hd. unfold data_mark_on_grid in Hgrid. rewrite Hd in Hgrid. exact Hgrid.
Qed.

Lemma samples_keep_their_time_axis_example :
  let s := replay parseFloat_decimal
             [CsvLoaded host0 csv0; SliderMoved (Fin 1); ModeSelected live;
              CsvLoaded host0 "ax,ay"]
             (started host0) in
  time_axis_sound (started host0)
  /\ data_mark_on_grid (started host0)
  /\ length (csvTimesSeconds s) = length (default [] (csvData s)).
Proof.
  split; [apply started_sound|]. split; [apply started_sound|].
  apply (samples_keep_their_time_axis parseFloat_decimal
           [CsvLoaded host0 csv0; SliderMoved (Fin 1); ModeSelected live;
            CsvLoaded host0 "ax,ay"]
           (started host0)); [reflexivity|exact I].
Defined.

(** ** The timestamp list and the mode buttons *)

(** X19.  A click on a row of the timestamp list.  It never changes the
    offset, the timestamps or the notes.  For an index outside the list
    nothing happens at all; for a row of the list the video is sent to the
    time of that row and, with samples and charts present, the data time
    shown is that time minus the sync offset.  After the row has been
    deleted, the same index selects the row that followed it. *)
Theorem select_timestamp_seeks (h : Host) (index : Z) (s : State) :
  let s' := (selectTimestamp index s).1 in
  let seek := (selectTimestamp index s).2 in
  same_metadata s' s
  /\ ((index < 0)%Z \/ (Z.of_nat (length (timestamps s)) <= index)%Z ->
      s' = s /\ seek = None)
  /\ (forall ts,
        (0 <= index)%Z -> timestamps s !! Z.to_nat index = Some ts ->
        seek = Some (time ts)
        /\ (no_samples s = false -> no_charts s = false ->
            dataTimeDisplay s' = Some (dataTimeFor s (time ts)))
        /\ (selectTimestamp index (state_after (deleteTimestamp h index s) s)).2
           = time <$> timestamps s !! S (Z.to_nat index)).
Proof.
  cbv zeta. unfold selectTimestamp, timestamp_at. split; [|split].
  - destruct (index <? 0)%Z; [apply same_metadata_refl|].
    destruct (timestamps s !! Z.to_nat index); simpl fst;
      [|apply same_metadata_refl].
    destruct (no_samples s);
      [apply same_metadata_refl|apply updateChartsForVideoTime_metadata].
  - intros [Hneg|Hbig].
    + apply Z.ltb_lt in Hneg. rewrite Hneg. split; reflexivity.
    + destruct (index <? 0)%Z; [split; reflexivity|].
      rewrite (lookup_ge_None_2 (timestamps s) (Z.to_nat index)) by lia.
      split; reflexivity.
  - intros ts Hpos Hts.
    assert (Hlt : (Z.to_nat index < length (timestamps s))%nat)
      by (eapply lookup_lt_Some; exact Hts).
    assert (Hn : (index <? 0)%Z = false) by (apply Z.ltb_ge; exact Hpos).
    rewrite Hn, Hts. simpl fst. simpl snd. split; [reflexivity|]. split.
    + intros Hcsv Hcharts. rewrite Hcsv.
      destruct (updateChartsForVideoTime_fields (time ts) s Hcsv Hcharts)
        as (_ & Hshown & _).
      exact Hshown.
    + unfold deleteTimestamp. rewrite Hn.
      assert (Hb : (Z.of_nat (length (timestamps s)) <=? index)%Z = false)
        by (apply Z.leb_gt; lia).
      rewrite Hb. simpl orb. cbv iota zeta.
      match goal with
      | |- context [saveProjectToLocal h None ?s1] =>
          destruct (saveProjectToLocal_normal h None s1)
            as (s2 & E & _ & _ & _ & Hlist & _)
      end.
      rewrite E. simpl state_after. rewrite Hlist.
      change (timestamps (set_timestamps (splice1 index (timestamps s)) s))
        with (delete (Z.to_nat index) (timestamps s)).
      rewrite list_lookup_delete_ge by lia.
      destruct (timestamps s !! S (Z.to_nat index)); reflexivity.
Qed.

Lemma select_timestamp_seeks_example :
  (selectTimestamp 1 annotated).2 = Some 4
  /\ (selectTimestamp 7 annotated).2 = None.
Proof.
  destruct (select_timestamp_seeks host0 1 annotated) as (_ & _ & H1).
  destruct (select_timestamp_seeks host0 7 annotated) as (_ & H2 & _).
  split.
  - destruct (H1 {| time := 4; label := "0:04.00"; eventType := "other";
                    notes := "landing" |}) as [H _]; [lia|reflexivity|exact H].
  - apply H2. right. vm_compute. discriminate.
Defined.

Lemma selectMode_to_live (s : State) :
  currentMode s = upload ->
  selectMode live s
  = set_setSyncBtn_disabled true
      (set_markDataBtn_disabled true
         (set_frame 0 None
            (set_imuPanel_displayed false
               (set_currentMode live (set_isRunning false s))))).
Proof.
  destruct s as [? ? ? ? ? ? ? ? ? mode running ? ? ? ? ? ? ? ? ? ?].
  simpl. intros ->. destruct running; reflexivity.
Qed.

Lemma selectMode_to_upload (s : State) :
  currentMode s = live ->
  selectMode upload s
  = (if no_samples s
     then set_frame 0 None
            (set_imuPanel_displayed true
               (set_currentMode upload (set_isRunning false s)))
     else set_markDataBtn_disabled false
            (set_frame 0 None
               (set_imuPanel_displayed true
                  (set_currentMode upload (set_isRunning false s))))).
Proof.
  destruct s as [? csv times ? ? ? ? ? ? mode running ? ? ? ? ? ? ? ? ? ?].
  simpl. intros ->. unfold selectMode, stopTracking, no_samples. simpl.
  destruct running; simpl; destruct csv; simpl;
    try destruct (length times =? 0)%nat; reflexivity.
Qed.

(** X20.  The mode buttons.  Selecting the mode the page is in does
    nothing.  Selecting the other one stops the loop, so that no later
    animation frame has any effect, resets the frame counter and the last
    pose, and shows the IMU panel exactly in upload mode; the samples, both
    marks, the offset, the timestamps, the notes and the storage are kept.
    Going to live mode disables "apply" and "mark data"; coming back to
    upload mode enables "mark data" again if there are samples, but leaves
    "apply" disabled even when both marks are still set. *)
Theorem mode_switch_stops_the_loop (mode : Mode) (frames : list Frame) (s : State) :
  (mode = currentMode s -> selectMode mode s = s)
  /\ (mode <> currentMode s ->
      let s' := selectMode mode s in
      currentMode s' = mode
      /\ isRunning s' = false
      /\ frameIndex s' = 0%Z /\ lastPose s' = None
      /\ run frames s' = (s', map (fun _ => []) frames)
      /\ imuPanel_displayed s' = Mode_eqb mode upload
      /\ same_metadata s' s /\ same_samples s' s
      /\ videoMarkedTime s' = videoMarkedTime s
      /\ dataMarkedTime s' = dataMarkedTime s
      /\ localStorage s' = localStorage s
      /\ (mode = live ->
          setSyncBtn_disabled s' = true
          /\ markDataBtn_disabled s' = true
          /\ setSyncBtn_disabled (selectMode upload s') = true
          /\ both_marked (selectMode upload s') = both_marked s
          /\ markDataBtn_disabled (selectMode upload s') = no_samples s)
      /\ (mode = upload ->
          setSyncBtn_disabled s' = setSyncBtn_disabled s
          /\ markDataBtn_disabled s'
             = (if no_samples s then markDataBtn_disabled s else false))).
Proof.
  split.
  - intros ->. unfold selectMode. destruct (currentMode s); reflexivity.
  - intros Hmode. cbv zeta.
    destruct mode, (currentMode s) eqn:Hm; try congruence.
    + rewrite (selectMode_to_live s Hm).
      match goal with
      | |- context [selectMode upload ?s1] =>
          rewrite (selectMode_to_upload s1 eq_refl);
          change (no_samples s1) with (no_samples s)
      end.
      split; [reflexivity|]. split; [reflexivity|].
      split; [reflexivity|]. split; [reflexivity|].
      split; [apply run_stopped; reflexivity|].
      split; [reflexivity|].
      split; [repeat split|]. split; [repeat split|].
      split; [reflexivity|]. split; [reflexivity|]. split; [reflexivity|].
      split; [|intros [=]]. intros _.
      destruct (no_samples s); repeat split.
    + rewrite (selectMode_to_upload s Hm).
      destruct (no_samples s).
      * split; [reflexivity|]. split; [reflexivity|].
        split; [reflexivity|]. split; [reflexivity|].
        split; [apply run_stopped; reflexivity|].
        split; [reflexivity|].
        split; [repeat split|]. split; [repeat split|].
        split; [reflexivity|]. split; [reflexivity|]. split; [reflexivity|].
        split; [intros [=]|]. intros _. split; reflexivity.
      * split; [reflexivity|]. split; [reflexivity|].
        split; [reflexivity|]. split; [reflexivity|].
        split; [apply run_stopped; reflexivity|].
        split; [reflexivity|].
        split; [repeat split|]. split; [repeat split|].
        split; [reflexivity|]. split; [reflexivity|]. split; [reflexivity|].
        split; [intros [=]|]. intros _. split; reflexivity.
Qed.

Lemma mode_switch_stops_the_loop_example :
  let s := handleStart loaded in
  isRunning s = true
  /\ isRunning (selectMode live s) = false
  /\ selectMode upload s = s.
Proof.
  intros s.
  destruct (mode_switch_stops_the_loop live [] s) as [_ H1].
  destruct (mode_switch_stops_the_loop upload [] s) as [H2 _].
  split; [reflexivity|]. split.
  - destruct H1 as (_ & H & _); [discriminate|exact H].
  - apply H2. reflexivity.
Defined.

(** ** Samples through export and import *)

Lemma plain_occurs (text : string) :
  plain text = true ->
  ~ occurs "," text /\ ~ occurs LF text /\ ~ occurs CR text.
Proof.
  induction text as [|c rest IH]; simpl; [tauto|].
  intros H. apply andb_prop in H as [H Hrest].
  apply andb_prop in H as [H H3]. apply andb_prop in H as [H1 H2].
  apply negb_true_iff, Ascii.eqb_neq in H1, H2, H3.
  destruct (IH Hrest) as (? & ? & ?). tauto.
Qed.

Lemma split_single (sep : ascii) (piece : string) :
  ~ occurs sep piece -> split sep piece = [piece].
Proof.
  induction piece as [|c rest IH]; [reflexivity|]. simpl. intros H.
  destruct (Ascii.eqb_spec c sep) as [E|E]; [tauto|].
  rewrite IH by tauto. reflexivity.
Qed.

Lemma split_append (sep : ascii) (piece rest : string) :
  ~ occurs sep piece ->
  split sep (piece +:+ String sep rest) = piece :: split sep rest.
Proof.
  induction piece as [|c piece IH]; intros H.
  - change ("" +:+ String sep rest) with (String sep rest). simpl.
    rewrite Ascii.eqb_refl. reflexivity.
  - rewrite append_cons. simpl in *.
    destruct (Ascii.eqb_spec c sep) as [E|E]; [tauto|].
    rewrite IH by tauto. reflexivity.
Qed.

Lemma join_cons (sep : ascii) (piece next : string) (rest : list string) :
  join (String sep "") (piece :: next :: rest)
  = piece +:+ String sep (join (String sep "") (next :: rest)).
Proof. reflexivity. Qed.

Lemma split_join (sep : ascii) (pieces : list string) :
  pieces <> [] ->
  Forall (fun piece => ~ occurs sep piece) pieces ->
  split sep (join (String sep "") pieces) = pieces.
Proof.
  intros Hne Hall. induction Hall as [|piece rest Hpiece Hrest IH]; [congruence|].
  destruct rest as [|next rest].
  - simpl. apply split_single. exact Hpiece.
  - rewrite join_cons, split_append by exact Hpiece.
    rewrite IH by discriminate. reflexivity.
Qed.

Lemma occurs_append (c : ascii) (a b : string) :
  occurs c (a +:+ b) -> occurs c a \/ occurs c b.
Proof.
  induction a as [|x a IH]; [right; assumption|].
  rewrite append_cons. simpl. tauto.
Qed.

Lemma occurs_join (c sep : ascii) (pieces : list string) :
  c <> sep ->
  Forall (fun piece => ~ occurs c piece) pieces ->
  ~ occurs c (join (String sep "") pieces).
Proof.
  intros Hsep Hall. induction Hall as [|piece rest Hpiece Hrest IH]; [simpl; tauto|].
  destruct rest as [|next rest]; [exact Hpiece|].
  rewrite join_cons. intros H. apply occurs_append in H as [H|H]; [tauto|].
  simpl in H. destruct H as [H|H]; [congruence|tauto].
Qed.

Lemma occurs_In (c : ascii) (text : string) :
  occurs c text <-> In c (list_ascii_of_string text).
Proof.
  induction text as [|x text IH]; simpl; [tauto|].
  rewrite IH. split; intros [H|H]; auto.
Qed.

Lemma drop_last_CR_plain (text : string) :
  ~ occurs CR text -> drop_last_CR text = text.
Proof.
  intros H. unfold drop_last_CR.
  destruct (rev (list_ascii_of_string text)) as [|c rest] eqn:E; [reflexivity|].
  destruct (Ascii.eqb_spec c CR) as [->|_]; [|reflexivity].
  exfalso. apply H, occurs_In, in_rev. rewrite E. left. reflexivity.
Qed.

Lemma map_but_last_id {A : Type} (f : A -> A) (l : list A) :
  Forall (fun x => f x = x) l -> map_but_last f l = l.
Proof.
  induction 1 as [|x rest Hx Hrest IH]; [reflexivity|].
  simpl. destruct rest; [reflexivity|]. rewrite Hx, IH. reflexivity.
Qed.

Lemma trimStart_white (cs : list ascii) :
  forallb is_white (trimStart cs) = forallb is_white cs.
Proof.
  induction cs as [|c cs IH]; [reflexivity|]. simpl.
  destruct (is_white c) eqn:E; [exact IH|]. simpl. rewrite E. reflexivity.
Qed.

Lemma trimStart_nil (cs : list ascii) :
  trimStart cs = [] <-> forallb is_white cs = true.
Proof.
  induction cs as [|c cs IH]; simpl; [tauto|].
  destruct (is_white c); simpl; [exact IH|]. split; discriminate.
Qed.

Lemma forallb_rev {A : Type} (f : A -> bool) (l : list A) :
  forallb f (rev l) = forallb f l.
Proof.
  induction l as [|x l IH]; [reflexivity|]. simpl.
  rewrite forallb_app, IH. simpl. rewrite andb_true_r. apply andb_comm.
Qed.

Lemma length_string_of_list_ascii (cs : list ascii) :
  String.length (string_of_list_ascii cs) = length cs.
Proof. induction cs as [|c cs IH]; simpl; congruence. Qed.

Lemma non_blank_spec (text : string) :
  non_blank text = negb (forallb is_white (list_ascii_of_string text)).
Proof.
  unfold non_blank, trim. f_equal.
  rewrite length_string_of_list_ascii, length_rev.
  set (cs := list_ascii_of_string text).
  rewrite <- (trimStart_white cs), <- (forallb_rev _ (trimStart cs)).
  destruct (trimStart (rev (trimStart cs))) as [|c rest] eqn:E.
  - apply trimStart_nil in E. rewrite E. reflexivity.
  - simpl. symmetry. apply not_true_is_false. intros H.
    apply trimStart_nil in H. congruence.
Qed.

Lemma list_ascii_of_append (a b : string) :
  list_ascii_of_string (a +:+ b) = list_ascii_of_string a ++ list_ascii_of_string b.
Proof.
  induction a as [|c a IH]; [reflexivity|].
  rewrite append_cons. simpl. rewrite IH. reflexivity.
Qed.

Lemma non_blank_append (a b : string) :
  non_blank a = true -> non_blank (a +:+ b) = true.
Proof.
  rewrite !non_blank_spec, list_ascii_of_append, forallb_app.
  intros H. apply negb_true_iff in H. rewrite H. reflexivity.
Qed.

Lemma non_blank_join (sep : ascii) (piece : string) (rest : list string) :
  non_blank piece = true -> non_blank (join (String sep "") (piece :: rest)) = true.
Proof.
  intros H. destruct rest as [|next rest]; [exact H|].
  rewrite join_cons. apply non_blank_append. exact H.
Qed.

Lemma column_name_spec (text : string) :
  column_name text = true ->
  plain text = true /\ trim text = text /\ non_blank text = true.
Proof.
  unfold column_name. intros H. apply andb_prop in H as [H H3].
  apply andb_prop in H as [H1 H2]. apply String.eqb_eq in H2.
  split; [exact H1|]. split; [exact H2|].
  unfold non_blank. rewrite H2. exact H3.
Qed.

(** A run of assignments [row[h] = g j]: a name that is assigned holds the
    value of its assignments when they all agree, a name that is not
    assigned holds what it held. *)
Lemma assignments_hit (g : nat -> Q) (pairs : list (nat * string))
    (init : Row) (name : string) (v : Q) :
  (exists j, In (j, name) pairs) ->
  (forall j, In (j, name) pairs -> g j = v) ->
  foldl (fun (row : Row) (hj : nat * string) => <[hj.2 := g hj.1]> row)
        init pairs !! name
  = Some v.
Proof.
  induction pairs as [|[j h] pairs IH] using rev_ind; intros [j0 Hin] Hg.
  - destruct Hin.
  - rewrite foldl_snoc. simpl.
    destruct (decide (h = name)) as [->|Hne].
    + rewrite lookup_insert_eq. f_equal.
      apply Hg, in_or_app. right. left. reflexivity.
    + rewrite lookup_insert_ne by exact Hne. apply IH.
      * apply in_app_or in Hin as [Hin|[Hin|[]]]; [exists j0; exact Hin|congruence].
      * intros j' Hj'. apply Hg, in_or_app. left. exact Hj'.
Qed.

Lemma assignments_miss (g : nat -> Q) (pairs : list (nat * string))
    (init : Row) (name : string) :
  (forall j, ~ In (j, name) pairs) ->
  foldl (fun (row : Row) (hj : nat * string) => <[hj.2 := g hj.1]> row)
        init pairs !! name
  = init !! name.
Proof.
  induction pairs as [|[j h] pairs IH] using rev_ind; intros Hout; [reflexivity|].
  rewrite foldl_snoc. simpl.
  rewrite lookup_insert_ne.
  - apply IH. intros j' Hj'. apply (Hout j'), in_or_app. left. exact Hj'.
  - intros ->. apply (Hout j), in_or_app. right. left. reflexivity.
Qed.

Lemma In_imap_pair (headers : list string) (j : nat) (name : string) :
  In (j, name) (imap pair headers) <-> headers !! j = Some name.
Proof.
  rewrite <- list_elem_of_In, list_elem_of_lookup. split.
  - intros [p Hp]. rewrite list_lookup_imap in Hp.
    destruct (headers !! p) as [h|] eqn:Hh; [|discriminate].
    injection Hp as <- <-. exact Hh.
  - intros Hj. exists j. rewrite list_lookup_imap, Hj. reflexivity.
Qed.

Section RoundTrip.

Variable parseFloat : string -> jsnum.
Variable String_of_number : Q -> string.

(** The line that [exportProject] writes for a sample is parsed back to the
    sample, when the sample has exactly the columns of the header. *)
Lemma parseRow_exported (headers : list string) (row : Row) :
  headers <> [] ->
  (forall name, In name headers <-> is_Some (row !! name)) ->
  (forall name q, row !! name = Some q ->
                  prints_and_parses parseFloat String_of_number q) ->
  parseRow parseFloat headers
    (join "," (map (fun h => from_option String_of_number "" (row !! h)) headers))
  = row.
Proof.
  intros Hne Hkeys Hnum. unfold parseRow.
  set (values := map (fun h => from_option String_of_number "" (row !! h)) headers).
  assert (Hsplit : split "," (join "," values) = values).
  { apply split_join.
    - unfold values. destruct headers; [congruence|discriminate].
    - unfold values. apply Forall_map, Forall_forall. intros name Hin.
      apply list_elem_of_In, Hkeys in Hin. destruct Hin as [q Hq].
      simpl. rewrite Hq. simpl.
      destruct (Hnum _ _ Hq) as (_ & Hplain & _).
      apply plain_occurs in Hplain. tauto. }
  rewrite Hsplit. apply map_eq. intros name.
  destruct (row !! name) as [q|] eqn:Hq.
  - apply (assignments_hit
             (fun j => finite_or_zero (parseFloat_at parseFloat values j))).
    + assert (Hin : In name headers) by (apply Hkeys; eexists; exact Hq).
      apply list_elem_of_In, list_elem_of_lookup in Hin as [j Hj].
      exists j. apply In_imap_pair. exact Hj.
    + intros j Hin. apply In_imap_pair in Hin.
      unfold parseFloat_at, values.
      rewrite list_lookup_fmap, Hin. simpl. rewrite Hq. simpl.
      destruct (Hnum _ _ Hq) as (-> & _). reflexivity.
  - rewrite (assignments_miss
               (fun j => finite_or_zero (parseFloat_at parseFloat values j)));
      [apply lookup_empty|].
    intros j Hin. apply In_imap_pair in Hin.
    assert (Hsome : is_Some (row !! name)).
    { apply Hkeys, list_elem_of_In, list_elem_of_lookup. exists j. exact Hin. }
    rewrite Hq in Hsome. destruct Hsome as [? [=]].
Qed.

Lemma exported_line (headers : list string) (row : Row) :
  headers <> [] ->
  (forall name, In name headers <-> is_Some (row !! name)) ->
  (forall name q, row !! name = Some q ->
                  prints_and_parses parseFloat String_of_number q) ->
  let line :=
    join "," (map (fun h => from_option String_of_number "" (row !! h)) headers) in
  ~ occurs LF line /\ ~ occurs CR line /\ non_blank line = true.
Proof.
  intros Hne Hkeys Hnum line.
  assert (Hall : Forall (fun text => plain text = true /\ non_blank text = true)
                   (map (fun h => from_option String_of_number "" (row !! h)) headers)).
  { apply Forall_map, Forall_forall. intros name Hin.
    apply list_elem_of_In, Hkeys in Hin. destruct Hin as [q Hq].
    simpl. rewrite Hq. simpl. destruct (Hnum _ _ Hq) as (_ & ? & ?). tauto. }
  split; [|split].
  - apply occurs_join; [discriminate|].
    eapply Forall_impl; [exact Hall|]. intros text [H _].
    apply plain_occurs in H. tauto.
  - apply occurs_join; [discriminate|].
    eapply Forall_impl; [exact Hall|]. intros text [H _].
    apply plain_occurs in H. tauto.
  - unfold line. destruct headers as [|h rest]; [congruence|].
    simpl map. apply non_blank_join.
    apply Forall_cons in Hall as [[_ H] _]. exact H.
Qed.

(** The text of [data/imu_data.csv] parses back to the samples. *)
Lemma parseCsv_csvText (Object_keys : Row -> list string) (rows : list Row) :
  let headers := Object_keys (default ∅ (head rows)) in
  headers <> [] ->
  Forall (fun name => column_name name = true) headers ->
  Forall (fun row => forall name, In name headers <-> is_Some (row !! name)) rows ->
  (forall row name q, In row rows -> row !! name = Some q ->
                      prints_and_parses parseFloat String_of_number q) ->
  parseCsv parseFloat (csvText String_of_number Object_keys rows)
  = Some (rows, timeAxis rows).
Proof.
  intros headers Hne Hnames Hkeys Hnum. unfold csvText. fold headers.
  set (line := fun row : Row =>
         join "," (map (fun h => from_option String_of_number "" (row !! h)) headers)).
  change (map _ rows) with (map line rows).
  assert (Hlines : Forall (fun l => ~ occurs LF l /\ ~ occurs CR l
                                    /\ non_blank l = true) (map line rows)).
  { apply Forall_map. rewrite Forall_forall in Hkeys. apply Forall_forall.
    intros row Hrow. apply exported_line; [exact Hne|apply Hkeys; exact Hrow|].
    intros name q. apply Hnum, list_elem_of_In. exact Hrow. }
  assert (Hcols : Forall (fun name => plain name = true /\ trim name = name
                                      /\ non_blank name = true) headers).
  { eapply Forall_impl; [exact Hnames|]. exact column_name_spec. }
  assert (Hheader : ~ occurs LF (join "," headers) /\ ~ occurs CR (join "," headers)
                    /\ non_blank (join "," headers) = true).
  { split; [|split].
    - apply occurs_join; [discriminate|]. eapply Forall_impl; [exact Hcols|].
      intros name [H _]. apply plain_occurs in H. tauto.
    - apply occurs_join; [discriminate|]. eapply Forall_impl; [exact Hcols|].
      intros name [H _]. apply plain_occurs in H. tauto.
    - destruct headers as [|h rest]; [congruence|]. apply non_blank_join.
      apply Forall_cons in Hcols as [(_ & _ & H) _]. exact H. }
  assert (Hall : Forall (fun l => ~ occurs LF l /\ ~ occurs CR l
                                  /\ non_blank l = true)
                   (join "," headers :: map line rows)).
  { apply Forall_cons. split; [exact Hheader|exact Hlines]. }
  unfold parseCsv, split_lines.
  rewrite split_join;
    [|discriminate|eapply Forall_impl; [exact Hall|]; intros l (H & _); exact H].
  rewrite map_but_last_id
    by (eapply Forall_impl; [exact Hall|]; intros l (_ & H & _);
        apply drop_last_CR_plain; exact H).
  simpl List.filter. destruct Hheader as (_ & _ & ->).
  replace (List.filter non_blank (map line rows)) with (map line rows).
  2:{ symmetry. apply forallb_filter_id. apply forallb_forall.
      intros l Hl. rewrite Forall_forall in Hlines.
      apply list_elem_of_In, Hlines in Hl. tauto. }
  rewrite split_join;
    [|exact Hne|eapply Forall_impl; [exact Hcols|]; intros name [H _];
                apply plain_occurs in H; tauto].
  replace (map trim headers) with headers.
  2:{ clear -Hcols. induction Hcols as [|name rest (_ & H & _) _ IH]; [reflexivity|].
      simpl. rewrite H, <- IH. reflexivity. }
  rewrite parseRows_map
    by (eapply Forall_impl; [exact Hlines|]; intros l (_ & _ & H); exact H).
  rewrite map_map.
  assert (Hback : forall rs,
             Forall (fun row => forall name, In name headers <-> is_Some (row !! name)) rs ->
             (forall row name q, In row rs -> row !! name = Some q ->
                                 prints_and_parses parseFloat String_of_number q) ->
             map (fun row => parseRow parseFloat headers (line row)) rs = rs).
  { intros rs Hrs. induction Hrs as [|row rest Hrow Hrest IH]; intros Hn; [reflexivity|].
    simpl. rewrite IH by (intros r name q Hr; apply Hn; right; exact Hr).
    unfold line. rewrite parseRow_exported;
      [reflexivity|exact Hne|exact Hrow|].
    intros name q. apply Hn. left. reflexivity. }
  rewrite (Hback rows Hkeys Hnum). reflexivity.
Qed.

End RoundTrip.

Lemma find_exported_csv (text : string) :
  List.find (fun entry : string * string => endsWith (toLowerCase entry.1) ".csv")
            [("imu_data.csv", text)]
  = Some ("imu_data.csv", text).
Proof. reflexivity. Qed.

(** X21.  The samples survive an export and an import.  Take a page with
    at least one sample, where every sample has exactly the columns that
    [Object.keys] lists for the first one, the column names are plain (no
    comma, no line break), not empty and without white space at their ends,
    and every number of the samples prints as a plain, non-blank text that
    [parseFloat] reads back as the same number.  Then importing the archive
    that [exportProject] produces, on any page, gives that page the same
    samples, in the same order, with their time axis. *)
Theorem exported_samples_come_back
    (parseFloat : string -> jsnum) (String_of_number : Q -> string)
    (Object_keys : Row -> list string) (h h' : Host) (videoBlob : option Blob)
    (answer filename : string) (zip : Zip) (t : Q) (s page : State)
    (rows : list Row) :
  let headers := Object_keys (default ∅ (head rows)) in
  csvData s = Some rows ->
  rows <> [] ->
  headers <> [] ->
  Forall (fun name => column_name name = true) headers ->
  Forall (fun row => forall name, In name headers <-> is_Some (row !! name)) rows ->
  (forall row name q, In row rows -> row !! name = Some q ->
                      prints_and_parses parseFloat String_of_number q) ->
  exportProject String_of_number Object_keys h videoBlob answer s
  = Some (filename, zip) ->
  zip_library h' = true ->
  exists page',
    importProject_zip parseFloat h' zip t page = Normal page'
    /\ csvData page' = Some rows
    /\ csvTimesSeconds page' = timeAxis rows
    /\ no_samples page' = false.
Proof.
  intros headers Hcsv Hrows Hne Hnames Hkeys Hnum Hexport Hlib.
  pose proof (parseCsv_csvText parseFloat String_of_number Object_keys rows
                Hne Hnames Hkeys Hnum) as Hparse.
  unfold exportProject in Hexport. rewrite Hcsv in Hexport.
  destruct (zip_library h); [|discriminate].
  destruct rows as [|row rest]; [congruence|].
  simpl negb in Hexport. cbv iota zeta in Hexport.
  destruct (String.length answer =? 0)%nat; [discriminate|].
  injection Hexport as _ <-.
  unfold importProject_zip. rewrite Hlib. simpl negb. cbv iota.
  simpl project_json. cbv iota. simpl data_folder.
  rewrite find_exported_csv. simpl default. rewrite Hparse.
  match goal with
  | |- context [saveProjectToLocal h' ?e ?s3] =>
      destruct (saveProjectToLocal_controls h' e s3) as (_ & (Hr & Ht));
      destruct (saveProjectToLocal_normal h' e s3) as (page' & E & _)
  end.
  rewrite E in *. simpl state_after in *. exists page'.
  split; [reflexivity|].
  match type of Hr with
  | _ = csvData (if no_samples ?s2 then _ else updateChartsForVideoTime ?t2 _) =>
      destruct (refresh_controls t2 s2) as (_ & (Hr2 & Ht2));
      rewrite Hr2 in Hr; rewrite Ht2 in Ht
  end.
  match type of Hr with
  | _ = csvData (updateImuChartsFull (initImuCharts h' ?s1)) =>
      destruct (updateImuChartsFull_controls (initImuCharts h' s1)) as (_ & (Hr3 & Ht3));
      destruct (initImuCharts_controls h' s1) as (_ & (Hr4 & Ht4));
      rewrite Hr3, Hr4 in Hr; rewrite Ht3, Ht4 in Ht
  end.
  simpl in Hr, Ht. split; [exact Hr|]. split; [exact Ht|].
  unfold no_samples. rewrite Hr, Ht. reflexivity.
Qed.

Lemma exported_samples_come_back_example :
  let row : Row := {[ "ax" := 1 ]} in
  let print := fun q : Q => String_of_int (Qfloor q) in
  let keys := fun _ : Row => ["ax"] in
  exists filename zip page',
    exportProject print keys host0 None "trial" (set_csv (Some [row; row]) (timeAxis [row; row]) initial)
    = Some (filename, zip)
    /\ importProject_zip parseFloat_decimal host0 zip 0 initial = Normal page'
    /\ csvData page' = Some [row; row].
Proof.
  intros row print keys.
  destruct (exported_samples_come_back parseFloat_decimal print keys host0 host0
              None "trial" "trial.zip"
              {| project_json :=
                   Some (Encoded
                           {| pd_syncOffset := Some 0;
                              pd_timestamps := Some [];
                              pd_sampleRate := Some SAMPLE_RATE_HZ;
                              pd_createdAt := Some (clock host0);
                              pd_notes := Some "";
                              pd_videoFileName := Some "video_from_project.mp4";
                              pd_csvFileName := Some "imu_data.csv" |});
                 video_folder := [];
                 data_folder := [("imu_data.csv", csvText print keys [row; row])] |}
              0 (set_csv (Some [row; row]) (timeAxis [row; row]) initial) initial [row; row])
    as (page' & Himport & Hrows & _).
  - reflexivity.
  - discriminate.
  - discriminate.
  - repeat constructor.
  - assert (Hrow : forall name, In name ["ax"] <-> is_Some (row !! name)).
    { intros name. unfold row. split.
      - intros [<-|[]]. rewrite lookup_singleton_eq. eexists. reflexivity.
      - intros [q Hq]. apply lookup_singleton_Some in Hq as [<- _].
        left. reflexivity. }
    apply Forall_cons. split; [exact Hrow|].
    apply Forall_cons. split; [exact Hrow|]. constructor.
  - intros r name q Hr Hq.
    assert (Hrq : r = row) by (destruct Hr as [<-|[<-|[]]]; reflexivity).
    subst r. apply lookup_singleton_Some in Hq as [_ <-].
    repeat split.
  - reflexivity.
  - reflexivity.
  - eexists _, _, page'. split; [reflexivity|]. split; [exact Himport|exact Hrows].
Defined.

(** ** Video time steps *)




